(** * Curve StableSwap pool analysis: log retrieval, decoding and pool resolution

    A shallow embedding of the retrieval core of the repository
    ([src/curve_analyzer.py] and the script [src/analysis_curve_pool.py]):
    the block-timestamp locator, the paging log fetchers, the two decode
    paths of [analyze_swaps_last_days], the pool resolver, the pool
    metadata reader, the balance reader and the swap and liquidity stages
    of the script, followed by the properties proved about them.

    Conventions of the embedding.
    - Python integers are [Z]; strings are [string], read as ASCII text
      ([lower] and [upper] change the 26 letters and nothing else); byte
      strings are [list byte].
    - Floats are kept abstract: the rows are built from a type [float] with
      the few operations the code uses, and nothing is assumed about them.
      The fraction handed to [progress_cb] is an exact rational, which is
      1 exactly when the Python float is [1.0].
    - A Python call that may raise returns a [result]; an exception is an
      [exn] carrying its class name and the text [str(e)].
    - The node behind [w3] is a record of oracles.  A log query also
      receives the number of log queries issued before it, so that a
      backend may answer the same window differently on a retry.
    - [while] loops take a [fuel : nat] that bounds the number of loop-head
      visits; running out of it is reported as [OutOfFuel], never as a
      result.
    - Generators are run to exhaustion and described by the chronological
      trace of what they do: the queries issued, the entries yielded, the
      values handed to [progress_cb], and every assignment to the cursor
      variables [start] and [step]. *)

From stdpp Require Import base list gmap strings pretty.
From Stdlib Require Import ZArith QArith Qminmax Lia.
From Stdlib.Strings Require Import Ascii String Byte.
From Equations Require Import Equations.

Local Open Scope string_scope.
Local Open Scope Z_scope.
Local Open Scope list_scope.

(** ** Exceptions and results *)

Record exn : Type := Exn { exn_class : string; exn_str : string }.

Inductive result (A : Type) : Type :=
| Ok (a : A)
| Raise (e : exn).
Arguments Ok {A} a.
Arguments Raise {A} e.

Definition KeyError (key : Z) : exn := Exn "KeyError" (pretty key).
Definition ValueError (msg : string) : exn := Exn "ValueError" msg.

Definition is_ok {A} (r : result A) : bool :=
  match r with Ok _ => true | Raise _ => false end.

(** How a loop that runs on fuel ended. *)
Inductive outcome (A : Type) : Type :=
| Returned (a : A)
| Raised (e : exn)
| OutOfFuel.
Arguments Returned {A} a.
Arguments Raised {A} e.
Arguments OutOfFuel {A}.

(** ** Python string operations used by the code *)

Definition ascii_lower (c : ascii) : ascii :=
  let n := N_of_ascii c in
  if ((65 <=? n) && (n <=? 90))%N then ascii_of_N (n + 32) else c.

Definition ascii_upper (c : ascii) : ascii :=
  let n := N_of_ascii c in
  if ((97 <=? n) && (n <=? 122))%N then ascii_of_N (n - 32) else c.

(** [s.lower()] and [s.upper()]. *)
Fixpoint lower (s : string) : string :=
  match s with
  | EmptyString => EmptyString
  | String c s' => String (ascii_lower c) (lower s')
  end.

Fixpoint upper (s : string) : string :=
  match s with
  | EmptyString => EmptyString
  | String c s' => String (ascii_upper c) (upper s')
  end.

(** [s.startswith(p)]. *)
Fixpoint startswith (p s : string) : bool :=
  match p, s with
  | EmptyString, _ => true
  | String _ _, EmptyString => false
  | String a p', String b s' => if Ascii.eqb a b then startswith p' s' else false
  end.

(** [sub in s]. *)
Fixpoint contains (sub s : string) : bool :=
  startswith sub s ||
  match s with
  | EmptyString => false
  | String _ s' => contains sub s'
  end.

(** The characters [str.strip()] removes, among code points below 256. *)
Definition is_space (c : ascii) : bool :=
  let n := N_of_ascii c in
  (((9 <=? n) && (n <=? 13)) || ((28 <=? n) && (n <=? 32))
   || (n =? 133) || (n =? 160))%N.

Fixpoint lstrip (s : string) : string :=
  match s with
  | EmptyString => EmptyString
  | String c s' => if is_space c then lstrip s' else s
  end.

Fixpoint rstrip (s : string) : string :=
  match s with
  | EmptyString => EmptyString
  | String c s' =>
      match rstrip s' with
      | EmptyString => if is_space c then EmptyString else String c EmptyString
      | r => String c r
      end
  end.

(** [s.strip()]. *)
Definition strip (s : string) : string := rstrip (lstrip s).

(** [s.split(sep)] for a one-character separator. *)
Fixpoint split_on (sep : ascii) (s : string) : list string :=
  match s with
  | EmptyString => [EmptyString]
  | String c s' =>
      if Ascii.eqb c sep then EmptyString :: split_on sep s'
      else match split_on sep s' with
           | [] => [String c EmptyString]
           | w :: ws => String c w :: ws
           end
  end.

(** Truthiness of a string: [if p]. *)
Definition nonempty (s : string) : bool :=
  match s with EmptyString => false | String _ _ => true end.

(** [s or default]. *)
Definition str_or (s default : string) : string :=
  if nonempty s then s else default.

(** ** Classification of a failed log query

    Both modules classify by substring tests on [str(e).lower()], inline in
    the [except] clause.  The script's two fetchers test three phrases
    ([analysis_curve_pool.py] lines 127 and 182); the library's two
    fetchers test two words ([curve_analyzer.py] lines 228 and 271). *)

Definition is_range_limit_error (e : exn) : bool :=
  let msg := lower (exn_str e) in
  contains "range limit" msg || contains "limit exceeded" msg
  || contains "block range" msg.

Definition is_range_or_limit_error (e : exn) : bool :=
  let msg := lower (exn_str e) in
  contains "range" msg || contains "limit" msg.

(** ** What a fetcher does, as a trace *)

Inductive fetch_event (R A : Type) : Type :=
| EvQuery (r : R)        (** a [get_logs] call with request [r] *)
| EvYield (l : A)        (** [yield l] *)
| EvProgress (p : Q)     (** [progress_cb(p)] *)
| EvStart (v : Z)        (** the assignment [start = v] *)
| EvStep (v : Z).        (** the assignment [step = v] *)
Arguments EvQuery {R A} r.
Arguments EvYield {R A} l.
Arguments EvProgress {R A} p.
Arguments EvStart {R A} v.
Arguments EvStep {R A} v.

(** Run [rest] after having done [tr]. *)
Definition after {T O : Type} (tr : list T) (rest : list T * O) : list T * O :=
  (tr ++ rest.1, rest.2).

(** The argument of [w3.eth.get_logs]. *)
Record log_filter : Type := LogFilter {
  fromBlock : Z;
  toBlock : Z;
  address : string;
  topics : list string
}.

(** Projections of a trace. *)
Definition yields {R A} (tr : list (fetch_event R A)) : list A :=
  omap (fun ev => match ev with EvYield l => Some l | _ => None end) tr.

Definition queries {R A} (tr : list (fetch_event R A)) : list R :=
  omap (fun ev => match ev with EvQuery r => Some r | _ => None end) tr.

Definition progress_values {R A} (tr : list (fetch_event R A)) : list Q :=
  omap (fun ev => match ev with EvProgress p => Some p | _ => None end) tr.

Definition start_values {R A} (tr : list (fetch_event R A)) : list Z :=
  omap (fun ev => match ev with EvStart v => Some v | _ => None end) tr.

Definition step_values {R A} (tr : list (fetch_event R A)) : list Z :=
  omap (fun ev => match ev with EvStep v => Some v | _ => None end) tr.

(** ** The world outside the repository *)

(** Library functions the code calls and that are taken as given: Python's
    float arithmetic, [eth_utils.keccak], [Web3.to_checksum_address],
    [Web3.to_int], [Web3.to_hex], [urllib.parse.urlparse], [bytes.fromhex]
    and [HexBytes.hex]. *)
Class Externals : Type := {
  float : Type;
  (** [amount / (10 ** dec)] for integers [amount] and [dec] *)
  div_pow10 : Z -> Z -> float;
  (** [x / y], [-x], [x > 0] and [math.nan] on floats *)
  float_div : float -> float -> float;
  float_neg : float -> float;
  float_pos : float -> bool;
  nan : float;
  (** [keccak(text=s).hex()] *)
  keccak_hex : string -> string;
  to_checksum_address : string -> result string;
  (** [urlparse(s).path] *)
  urlparse_path : string -> result string;
  bytes_fromhex : string -> result (list byte);
  (** [b.hex()] of a [HexBytes] value *)
  hexbytes_hex : list byte -> string;
  (** [Web3.to_int(hexstr=s)] and [Web3.to_hex(b)] *)
  to_int_hexstr : string -> result Z;
  to_hex : list byte -> string
}.

(** A structured [TokenExchange] entry as [event.get_logs] returns it:
    [ev['args']], [ev['blockNumber']], [ev['transactionHash']]. *)
Record event_log : Type := EventLog {
  args_sold_id : Z;
  args_tokens_sold : Z;
  args_bought_id : Z;
  args_tokens_bought : Z;
  ev_blockNumber : Z;
  ev_transactionHash : list byte
}.

(** The shapes [lg.get('data')] is tested for, lines 360-374. *)
Inductive raw_data : Type :=
| DataBytes (b : list byte)     (** [bytes], [bytearray], [HexBytes] *)
| DataHexLike (hex : string)    (** has [.hex()], which returns [hex] *)
| DataStr (s : string)          (** a [str] *)
| DataOther.                    (** anything else, such as [None] *)

(** A raw entry as [w3.eth.get_logs] returns it. *)
Record raw_log : Type := RawLog {
  lg_blockNumber : Z;
  lg_topics : list (list byte);
  lg_data : raw_data;
  lg_transactionHash : list byte;
  lg_address : string
}.

Record receipt : Type := Receipt {
  rcpt_to : option string;
  rcpt_logs : list raw_log
}.

(** What [get_pool_from_lp_token] may hand back, lines 130-142. *)
Inductive registry_answer : Type :=
| AnswerBytes (b : list byte)
| AnswerHexLike (hex : string)
| AnswerStr (s : string).

(** The node behind [w3].  Contract calls are named after the accessor;
    each takes the address of the contract it is called on first. *)
Record Web3 : Type := {
  eth_block_number : Z;
  (** [w3.eth.get_block(b).timestamp] *)
  eth_get_block : Z -> result Z;
  eth_get_transaction_receipt : string -> result receipt;
  (** [w3.eth.get_logs(filter)], as the [n]-th raw query *)
  eth_get_logs : nat -> log_filter -> result (list raw_log);
  (** [pool.events.TokenExchange.get_logs], as the [n]-th structured query
      on the pool at the given address *)
  token_exchange_get_logs : string -> nat -> Z * Z -> result (list event_log);
  call_coins : string -> Z -> result string;
  call_minter : string -> result string;
  call_get_registry : string -> result string;
  call_get_pool_from_lp_token : string -> string -> result registry_answer;
  call_symbol : string -> result string;
  call_decimals : string -> result Z
}.

(** Contract calls and receipt lookups, for the traces of the resolver and
    of the metadata reader. *)
Inductive rpc : Type :=
| Rpc_coins (pool : string) (i : Z)
| Rpc_minter (lp : string)
| Rpc_get_registry (provider : string)
| Rpc_get_pool_from_lp_token (registry lp : string)
| Rpc_symbol (token : string)
| Rpc_decimals (token : string)
| Rpc_get_transaction_receipt (tx : string).

(** A computation that issues calls and then returns or raises. *)
Definition io (A : Type) : Type := (list rpc * result A)%type.

Definition io_ret {A} (a : A) : io A := ([], Ok a).

Definition io_bind {A B} (m : io A) (k : A -> io B) : io B :=
  match m with
  | (tr, Ok a) => after tr (k a)
  | (tr, Raise e) => (tr, Raise e)
  end.

(** [try: m  except Exception: handler]. *)
Definition io_try {A} (m : io A) (handler : io A) : io A :=
  match m with
  | (tr, Ok a) => (tr, Ok a)
  | (tr, Raise _) => after tr handler
  end.

Definition io_call {A} (c : rpc) (answer : result A) : io A := ([c], answer).
Definition io_lift {A} (r : result A) : io A := ([], r).
Definition io_raise {A} (e : exn) : io A := ([], Raise e).

Notation "x <- m ;; k" := (io_bind m (fun x => k))
  (at level 100, m at next level, right associativity).

Definition result_bind {A B} (m : result A) (k : A -> result B) : result B :=
  match m with Ok a => k a | Raise e => Raise e end.

(** ** The binary search of [block_at_timestamp]

    The loop [while lo < hi] shared, as text, by both modules
    ([curve_analyzer.py] lines 198-204, [analysis_curve_pool.py] lines
    64-71).  It terminates on every input, so it needs no fuel. *)
Equations? bisect_blocks (get_block : Z -> result Z) (ts lo hi : Z) : result Z
  by wf (Z.to_nat (hi - lo)) lt :=
  bisect_blocks get_block ts lo hi with Z_lt_dec lo hi => {
    | right _ := Ok lo
    | left Hlt with get_block ((lo + hi) / 2) => {
        | Raise e := Raise e
        | Ok tmid with Z_lt_dec tmid ts => {
            | left _ := bisect_blocks get_block ts ((lo + hi) / 2 + 1) hi
            | right _ := bisect_blocks get_block ts lo ((lo + hi) / 2) } } }.
Proof.
  all: assert (lo <= (lo + hi) / 2 < hi)
    by (split; [apply Z.div_le_lower_bound | apply Z.div_lt_upper_bound]; lia);
    lia.
Qed.

(** ** ABI decoding of static types

    [eth_abi.abi.decode(types, data)] for the three types the code asks
    for.  Every value occupies one 32-byte word, read in order from the
    front of [data]; bytes after the last word are not looked at.  An
    address is the low 20 bytes and the 12 bytes before it must be zero; an
    [int128] is the low 16 bytes in two's complement and the 16 bytes
    before it must repeat its sign; a [uint256] is the whole word.  Only
    the class of a decoding error is modelled, not its text. *)

Inductive abi_type : Type := abi_address | abi_int128 | abi_uint256.

Inductive abi_value : Type :=
| AbiAddress (a : list byte)
| AbiInt (v : Z).

Definition big_endian_to_int (bs : list byte) : Z :=
  fold_left (fun acc b => acc * 256 + Z.of_N (Byte.to_N b)) bs 0.

Definition all_bytes (b : byte) (bs : list byte) : bool :=
  forallb (Byte.eqb b) bs.

Definition InsufficientDataBytes : exn := Exn "InsufficientDataBytes" "".
Definition NonEmptyPaddingBytes : exn := Exn "NonEmptyPaddingBytes" "".

Definition decode_word (t : abi_type) (w : list byte) : result abi_value :=
  match t with
  | abi_uint256 => Ok (AbiInt (big_endian_to_int w))
  | abi_address =>
      if all_bytes x00 (take 12 w) then Ok (AbiAddress (drop 12 w))
      else Raise NonEmptyPaddingBytes
  | abi_int128 =>
      let u := big_endian_to_int (drop 16 w) in
      let v := if 2 ^ 127 <=? u then u - 2 ^ 128 else u in
      if all_bytes (if 0 <=? v then x00 else xff) (take 16 w) then Ok (AbiInt v)
      else Raise NonEmptyPaddingBytes
  end.

Fixpoint abi_decode (types : list abi_type) (data : list byte)
    : result (list abi_value) :=
  match types with
  | [] => Ok []
  | t :: types' =>
      if (List.length data <? 32)%nat then Raise InsufficientDataBytes
      else
        result_bind (decode_word t (take 32 data)) (fun v =>
        result_bind (abi_decode types' (drop 32 data)) (fun vs =>
        Ok (v :: vs)))
  end.

(** ** The asset-role heuristic

    The [if]/[elif] chain on the upper-cased symbols, the same text in
    [get_pool_meta] (lines 182-192) and in the script (lines 99-109).
    Returns [(deusd_index, frx_index)]. *)
Definition asset_indices (s0 s1 : string) : Z * Z :=
  let up0 := upper s0 in
  let up1 := upper s1 in
  if contains "DEUSD" up0 then (0, 1)
  else if contains "DEUSD" up1 then (1, 0)
  else if contains "FRXUSD" up0 then (1, 0)
  else if contains "FRXUSD" up1 then (0, 1)
  else (0, 1).

(** * The script [analysis_curve_pool.py] *)

Module analysis_curve_pool.

Section fetchers.
Context {A : Type}.

(** [fetch_event_logs(event, from_block, to_block, step)], lines 116-140.
    [event n (start, end)] is [event.get_logs(from_block=start,
    to_block=end)] as the [n]-th query of the call. *)
Fixpoint fetch_event_logs_loop (fuel : nat) (event : nat -> Z * Z -> result (list A))
    (n : nat) (to_block start step : Z)
    : list (fetch_event (Z * Z) A) * outcome unit :=
  match fuel with
  | O => ([], OutOfFuel)
  | S fuel' =>
      if start <=? to_block then
        let end_ := Z.min (start + step - 1) to_block in
        match event n (start, end_) with
        | Ok logs =>
            after (EvQuery (start, end_) :: map EvYield logs ++ [EvStart (end_ + 1)])
              (fetch_event_logs_loop fuel' event (S n) to_block (end_ + 1) step)
        | Raise e =>
            if is_range_limit_error e then
              if 200 <? step then
                after [EvQuery (start, end_); EvStep (step / 2)]
                  (fetch_event_logs_loop fuel' event (S n) to_block start (step / 2))
              else if 50 <? step then
                after [EvQuery (start, end_); EvStep 50]
                  (fetch_event_logs_loop fuel' event (S n) to_block start 50)
              else if 10 <? step then
                after [EvQuery (start, end_); EvStep 10]
                  (fetch_event_logs_loop fuel' event (S n) to_block start 10)
              else if 1 <? step then
                after [EvQuery (start, end_); EvStep 1]
                  (fetch_event_logs_loop fuel' event (S n) to_block start 1)
              else
                after [EvQuery (start, end_); EvStart (end_ + 1)]
                  (fetch_event_logs_loop fuel' event (S n) to_block (end_ + 1) step)
            else ([EvQuery (start, end_)], Raised e)
        end
      else ([], Returned tt)
  end.

Definition fetch_event_logs (fuel : nat) (event : nat -> Z * Z -> result (list A))
    (from_block to_block : Z) (step : Z) :=
  fetch_event_logs_loop fuel event 0 to_block from_block step.

(** [fetch_raw_logs(address, topic0, from_block, to_block, step)], lines
    165-185; [get_logs] is the global [w3.eth.get_logs]. *)
Fixpoint fetch_raw_logs_loop (fuel : nat) (get_logs : nat -> log_filter -> result (list A))
    (address : string) (topic0 : string) (n : nat) (to_block start step : Z)
    : list (fetch_event log_filter A) * outcome unit :=
  match fuel with
  | O => ([], OutOfFuel)
  | S fuel' =>
      if start <=? to_block then
        let end_ := Z.min (start + step - 1) to_block in
        let req := LogFilter start end_ address [topic0] in
        match get_logs n req with
        | Ok logs =>
            after (EvQuery req :: map EvYield logs ++ [EvStart (end_ + 1)])
              (fetch_raw_logs_loop fuel' get_logs address topic0 (S n) to_block (end_ + 1) step)
        | Raise e =>
            if is_range_limit_error e then
              after [EvQuery req; EvStep (Z.max 1 (step / 2))]
                (fetch_raw_logs_loop fuel' get_logs address topic0 (S n) to_block start
                   (Z.max 1 (step / 2)))
            else ([EvQuery req], Raised e)
        end
      else ([], Returned tt)
  end.

Definition fetch_raw_logs (fuel : nat) (get_logs : nat -> log_filter -> result (list A))
    (address topic0 : string) (from_block to_block : Z) (step : Z) :=
  fetch_raw_logs_loop fuel get_logs address topic0 0 to_block from_block step.
End fetchers.

(** [block_at_timestamp(ts, start, end)], lines 60-71; [end_] is [None]
    when the argument is left out. *)
Definition block_at_timestamp (w3 : Web3) (ts : Z) (start : Z) (end_ : option Z)
    : result Z :=
  let end_ := match end_ with None => eth_block_number w3 | Some e => e end in
  bisect_blocks (eth_get_block w3) ts start end_.

(** [safe(fn, fallback)], lines 87-91. *)
Definition safe {A} (fn : io A) (fallback : A) : io A :=
  io_try fn (io_ret fallback).

(** The token metadata the script reads at start-up, lines 82-96:
    [(coin0, coin1, sym0, sym1, dec0, dec1)] for the pool at [pool]. *)
Definition token_metadata (w3 : Web3) (pool : string)
    : io (string * string * string * string * Z * Z) :=
  coin0 <- io_call (Rpc_coins pool 0) (call_coins w3 pool 0) ;;
  coin1 <- io_call (Rpc_coins pool 1) (call_coins w3 pool 1) ;;
  sym0 <- safe (io_call (Rpc_symbol coin0) (call_symbol w3 coin0)) "T0" ;;
  sym1 <- safe (io_call (Rpc_symbol coin1) (call_symbol w3 coin1)) "T1" ;;
  dec0 <- safe (io_call (Rpc_decimals coin0) (call_decimals w3 coin0)) 18 ;;
  dec1 <- safe (io_call (Rpc_decimals coin1) (call_decimals w3 coin1)) 18 ;;
  io_ret (coin0, coin1, sym0, sym1, dec0, dec1).

Section swaps.
Context `{Externals}.

(** A row of the script's [swaps] list. *)
Record swap_row : Type := SwapRow {
  row_time : Z;
  row_block : Z;
  row_txhash : string;
  row_direction : string;
  row_deusd_flow : float;
  row_frx_flow : float;
  row_price_deusd_in_frx : float
}.

(** [handle_swap(evlog)], lines 194-227.  The globals it reads are
    arguments: [decs] is the dict [{0: dec0, 1: dec1}], [swaps] the list
    it appends to; the list after the call is returned. *)
Definition handle_swap (w3 : Web3) (decs : gmap Z Z) (deusd_index frx_index : Z)
    (swaps : list swap_row) (evlog : event_log) : result (list swap_row) :=
  let sold_id := args_sold_id evlog in
  let bought_id := args_bought_id evlog in
  let sold := args_tokens_sold evlog in
  let bought := args_tokens_bought evlog in
  let blk := ev_blockNumber evlog in
  result_bind (eth_get_block w3 blk) (fun ts =>
  match decs !! sold_id with
  | None => Raise (KeyError sold_id)
  | Some dec_sold =>
  let sold_norm := div_pow10 sold dec_sold in
  match decs !! bought_id with
  | None => Raise (KeyError bought_id)
  | Some dec_bought =>
  let bought_norm := div_pow10 bought dec_bought in
  let row price deusd_flow frx_flow direction :=
    SwapRow ts blk (hexbytes_hex (ev_transactionHash evlog)) direction
      deusd_flow frx_flow price in
  if (sold_id =? deusd_index) && (bought_id =? frx_index) then
    Ok (swaps ++ [row (if float_pos sold_norm then float_div bought_norm sold_norm else nan)
                      (float_neg sold_norm) bought_norm "deUSD->frxUSD"])
  else if (sold_id =? frx_index) && (bought_id =? deusd_index) then
    Ok (swaps ++ [row (if float_pos bought_norm then float_div sold_norm bought_norm else nan)
                      bought_norm (float_neg sold_norm) "frxUSD->deUSD"])
  else Ok swaps
  end end).
End swaps.

(** [for ev in gen: body(ev)], pulling from the generator's trace.  The
    bodies append to a global list, so what was collected before an
    exception stays: the state is returned with the outcome of the loop
    body. *)
Fixpoint for_each {E S : Type} (body : S -> E -> result S)
    (tr : list (fetch_event (Z * Z) E)) (s : S) : result unit * S :=
  match tr with
  | [] => (Ok tt, s)
  | EvYield ev :: tr' =>
      match body s ev with
      | Ok s' => for_each body tr' s'
      | Raise e => (Raise e, s)
      end
  | _ :: tr' => for_each body tr' s
  end.

(** A top-level [for ev in fetch_event_logs(event, start_block,
    end_block): body(ev)] followed by the rest [k] of the script: an
    exception of the body or of the generator ends the script. *)
Definition run_loop {E S T : Type} (fuel : nat)
    (event : nat -> Z * Z -> result (list E)) (body : S -> E -> result S)
    (start_block end_block : Z) (s : S) (k : S -> outcome T) : outcome T :=
  let gen := fetch_event_logs fuel event start_block end_block 1000 in
  match for_each body gen.1 s with
  | (Raise e, _) => Raised e
  | (Ok _, s') =>
      match gen.2 with
      | Raised e => Raised e
      | OutOfFuel => OutOfFuel
      | Returned _ => k s'
      end
  end.

Section swap_stage.
Context `{Externals}.

(** The swap stage of the script, lines 230-236: the [TokenExchange] loop,
    whose exceptions end the script, then the [TokenExchangeUnderlying]
    loop inside [try ... except Exception: pass].  [exchange] and
    [underlying] are the [get_logs] of the two events. *)
Definition collect_swaps (fuel : nat) (w3 : Web3) (decs : gmap Z Z)
    (deusd_index frx_index : Z)
    (exchange underlying : nat -> Z * Z -> result (list event_log))
    (start_block end_block : Z) : outcome (list swap_row) :=
  run_loop fuel exchange (handle_swap w3 decs deusd_index frx_index)
    start_block end_block [] (fun swaps =>
  let gen2 := fetch_event_logs fuel underlying start_block end_block 1000 in
  match for_each (handle_swap w3 decs deusd_index frx_index) gen2.1 swaps with
  | (Raise _, swaps') => Returned swaps'
  | (Ok _, swaps') =>
      match gen2.2 with
      | OutOfFuel => OutOfFuel
      | _ => Returned swaps'
      end
  end).
End swap_stage.

Section liquidity.
Context `{Externals}.

(** A structured [AddLiquidity] or [RemoveLiquidity] entry:
    [ev['args']['token_amounts']], of ABI type [uint256[2]],
    [ev['blockNumber']] and [ev['transactionHash']]. *)
Record liquidity_event : Type := LiquidityEvent {
  args_token_amounts : Z * Z;
  liq_blockNumber : Z;
  liq_transactionHash : list byte
}.

(** A structured [RemoveLiquidityOne] entry. *)
Record remove_one_event : Type := RemoveOneEvent {
  args_coin_index : Z;
  args_token_amount : Z;
  one_blockNumber : Z;
  one_transactionHash : list byte
}.

(** A row of the script's [adds] and [removes] lists. *)
Record liquidity_row : Type := LiquidityRow {
  liq_time : Z;
  liq_txhash : string;
  liq_deusd : float;
  liq_frx : float
}.

(** The float [0.0], as the quotient [0 / (10 ** 0)]. *)
Definition float_zero : float := div_pow10 0 0.

(** The body of the [AddLiquidity] loop, lines 241-250, which is also the
    body of the [RemoveLiquidity] loop, lines 253-262. *)
Definition handle_liquidity (w3 : Web3) (dec0 dec1 deusd_index : Z)
    (rows : list liquidity_row) (ev : liquidity_event) : result (list liquidity_row) :=
  let amounts := args_token_amounts ev in
  let a0 := div_pow10 amounts.1 dec0 in
  let a1 := div_pow10 amounts.2 dec1 in
  result_bind (eth_get_block w3 (liq_blockNumber ev)) (fun ts =>
  Ok (rows ++ [LiquidityRow ts (hexbytes_hex (liq_transactionHash ev))
                 (if deusd_index =? 0 then a0 else a1)
                 (if deusd_index =? 0 then a1 else a0)])).

(** The body of the [RemoveLiquidityOne] loop, lines 265-279. *)
Definition handle_remove_one (w3 : Web3) (decs : gmap Z Z) (deusd_index : Z)
    (rows : list liquidity_row) (ev : remove_one_event) : result (list liquidity_row) :=
  let idx := args_coin_index ev in
  let amt := args_token_amount ev in
  result_bind (eth_get_block w3 (one_blockNumber ev)) (fun ts =>
  match decs !! idx with
  | None => Raise (KeyError idx)
  | Some dec =>
      let deusd_amt := if idx =? deusd_index then div_pow10 amt dec else float_zero in
      let frx_amt := if idx =? deusd_index then float_zero else div_pow10 amt dec in
      Ok (rows ++ [LiquidityRow ts (hexbytes_hex (one_transactionHash ev))
                     deusd_amt frx_amt])
  end).

(** The liquidity stage of the script, lines 238-279: three loops, none
    of them inside a [try]; returns [(adds, removes)]. *)
Definition collect_liquidity (fuel : nat) (w3 : Web3) (dec0 dec1 deusd_index : Z)
    (add_evt rem_evt : nat -> Z * Z -> result (list liquidity_event))
    (rem_one_evt : nat -> Z * Z -> result (list remove_one_event))
    (start_block end_block : Z)
    : outcome (list liquidity_row * list liquidity_row) :=
  let decs : gmap Z Z := {[ 0 := dec0; 1 := dec1 ]} in
  run_loop fuel add_evt (handle_liquidity w3 dec0 dec1 deusd_index)
    start_block end_block [] (fun adds =>
  run_loop fuel rem_evt (handle_liquidity w3 dec0 dec1 deusd_index)
    start_block end_block [] (fun removes =>
  run_loop fuel rem_one_evt (handle_remove_one w3 decs deusd_index)
    start_block end_block removes (fun removes' =>
  Returned (adds, removes')))).
End liquidity.

End analysis_curve_pool.

(** Float addition, [x + y], which only [fetch_balances_for_blocks] needs;
    another operation taken as given. *)
Class FloatSum `{Externals} : Type := {
  float_add : float -> float -> float
}.

(** * The library [curve_analyzer.py] *)

Module curve_analyzer.

Section fetchers.
Context {R A : Type}.

(** The paging loop of [fetch_event_logs_adaptive] (lines 207-246) and of
    [fetch_token_exchange_raw] (lines 249-286).  The two bodies are the
    same text except for the query expression, which is [query n (request
    start end)] here.  [progress_cb] tells whether a callback was given.
    [time.sleep] only delays and is left out.  [paging_outer] is the head
    of [while start <= to_block], [paging_inner] the head of [while
    True]. *)
Variable request : Z -> Z -> R.
Variable query : nat -> R -> result (list A).
Variables from_block to_block : Z.
Variable progress_cb : bool.
Variable max_pages : Z.

Definition total : Z := Z.max 1 (to_block - from_block + 1).

Definition progress_of (end_ : Z) : Q :=
  Qmin 1 ((end_ - from_block + 1) # Z.to_pos total).

Fixpoint paging_outer (fuel : nat) (n : nat) (start step pages : Z) {struct fuel}
    : list (fetch_event R A) * outcome unit :=
  match fuel with
  | O => ([], OutOfFuel)
  | S fuel' =>
      if start <=? to_block then
        let end_ := Z.min (start + step - 1) to_block in
        paging_inner fuel' n start end_ step 0 pages
      else ([], Returned tt)
  end
with paging_inner (fuel : nat) (n : nat) (start end_ step retries pages : Z) {struct fuel}
    : list (fetch_event R A) * outcome unit :=
  match fuel with
  | O => ([], OutOfFuel)
  | S fuel' =>
      match query n (request start end_) with
      | Ok logs =>
          after (EvQuery (request start end_) :: map EvYield logs
                 ++ (if progress_cb then [EvProgress (progress_of end_)] else [])
                 ++ [EvStart (end_ + 1)])
            (if max_pages <=? pages + 1 then ([], Returned tt)
             else paging_outer fuel' (S n) (end_ + 1) step (pages + 1))
      | Raise e =>
          if is_range_or_limit_error e then
            if 5 <=? retries + 1 then
              after [EvQuery (request start end_); EvStart (end_ + 1)]
                (if max_pages <=? pages then ([], Returned tt)
                 else paging_outer fuel' (S n) (end_ + 1) step pages)
            else
              let step' := Z.max 1 (step / 2) in
              after [EvQuery (request start end_); EvStep step']
                (paging_inner fuel' (S n) start (Z.min (start + step' - 1) to_block)
                   step' (retries + 1) pages)
          else
            if 2 <=? retries + 1 then
              after [EvQuery (request start end_); EvStart (end_ + 1)]
                (if max_pages <=? pages then ([], Returned tt)
                 else paging_outer fuel' (S n) (end_ + 1) step pages)
            else
              after [EvQuery (request start end_)]
                (paging_inner fuel' (S n) start end_ step (retries + 1) pages)
      end
  end.
End fetchers.

(** [fetch_event_logs_adaptive(event, from_block, to_block, step,
    progress_cb, max_pages)]. *)
Definition fetch_event_logs_adaptive {A} (fuel : nat)
    (event : nat -> Z * Z -> result (list A))
    (from_block to_block step : Z) (progress_cb : bool) (max_pages : Z) :=
  paging_outer pair event from_block to_block progress_cb max_pages
    fuel 0 from_block step 0.

Section library.
Context `{Externals}.

Definition TOKEN_EX_SIG : string :=
  "TokenExchange(address,int128,uint256,int128,uint256)".
Definition TOPIC_TOKEN_EX : string := String.append "0x" (keccak_hex TOKEN_EX_SIG).

Definition CURVE_ADDRESS_PROVIDER : string :=
  "0x0000000022D53366457F9d5E68Ec105046FC4383".

Record PoolMeta : Type := Build_PoolMeta {
  address : string;
  coin0 : string;
  coin1 : string;
  sym0 : string;
  sym1 : string;
  dec0 : Z;
  dec1 : Z;
  deusd_index : Z;
  frx_index : Z
}.

(** [s[2:]] *)
Definition drop2 (s : string) : string :=
  match s with
  | String _ (String _ s') => s'
  | _ => EmptyString
  end.

(** The registry step of the resolver, lines 126-144: [Some a] when the
    [try] body returns [a], [None] when it falls through. *)
Definition registry_lookup (w3 : Web3) (addr : string) : io (option string) :=
  reg_addr <- io_call (Rpc_get_registry CURVE_ADDRESS_PROVIDER)
                (call_get_registry w3 CURVE_ADDRESS_PROVIDER) ;;
  pool_addr <- io_call (Rpc_get_pool_from_lp_token reg_addr addr)
                 (call_get_pool_from_lp_token w3 reg_addr addr) ;;
  norm <- io_lift
    match pool_addr with
    | AnswerBytes b => Ok (big_endian_to_int b, to_hex b)
    | AnswerHexLike hx => result_bind (to_int_hexstr hx) (fun val => Ok (val, hx))
    | AnswerStr s => result_bind (to_int_hexstr s) (fun val => Ok (val, s))
    end ;;
  if negb (norm.1 =? 0) then
    a <- io_lift (to_checksum_address norm.2) ;; io_ret (Some a)
  else io_ret None.

(** Is this the [TokenExchange] entry the receipt scan looks for, line
    153. *)
Definition emits_token_exchange (lg : raw_log) : bool :=
  match lg_topics lg with
  | [] => false
  | t0 :: _ => (lower (hexbytes_hex t0) =? lower TOPIC_TOKEN_EX)%string
  end.

(** [resolve_pool_from_input(w3, user_input)], lines 97-157. *)
Definition resolve_pool_from_input (w3 : Web3) (user_input : string) : io string :=
  let ui := strip (str_or user_input "") in
  let ui :=
    if startswith "http" ui then
      match urlparse_path ui with
      | Raise _ => ui
      | Ok path =>
          match List.filter nonempty (split_on "/" path) with
          | p0 :: p1 :: _ =>
              if ((lower p0 =? "address") || (lower p0 =? "tx"))%string then p1 else ui
          | _ => ui
          end
      end
    else ui in
  let ui := strip ui in
  if startswith "0x" ui && (String.length ui =? 42)%nat then
    addr <- io_lift (to_checksum_address ui) ;;
    io_try
      (_ <- io_call (Rpc_coins addr 0) (call_coins w3 addr 0) ;; io_ret addr)
      (io_try
         (pool_addr <- io_call (Rpc_minter addr) (call_minter w3 addr) ;;
          io_lift (to_checksum_address pool_addr))
         (found <- io_try (registry_lookup w3 addr) (io_ret None) ;;
          match found with
          | Some a => io_ret a
          | None => io_raise (ValueError
              "Provided address does not appear to be a Curve pool or LP token resolvable via minter/registry")
          end))
  else if startswith "0x" ui && (String.length ui =? 66)%nat then
    rcpt <- io_call (Rpc_get_transaction_receipt ui)
              (eth_get_transaction_receipt w3 ui) ;;
    match List.find emits_token_exchange (rcpt_logs rcpt) with
    | Some lg => io_lift (to_checksum_address (lg_address lg))
    | None =>
        match rcpt_to rcpt with
        | Some to_ =>
            if nonempty to_ then io_lift (to_checksum_address to_)
            else io_raise (ValueError
              "Provide a Curve pool address or a swap tx hash (or an Etherscan URL to either)")
        | None => io_raise (ValueError
              "Provide a Curve pool address or a swap tx hash (or an Etherscan URL to either)")
        end
    end
  else io_raise (ValueError
    "Provide a Curve pool address or a swap tx hash (or an Etherscan URL to either)").

(** [get_pool_meta(w3, pool_addr)], lines 160-193. *)
Definition get_pool_meta (w3 : Web3) (pool_addr : string) : io PoolMeta :=
  c0 <- io_call (Rpc_coins pool_addr 0) (call_coins w3 pool_addr 0) ;;
  c1 <- io_call (Rpc_coins pool_addr 1) (call_coins w3 pool_addr 1) ;;
  s0 <- io_try (io_call (Rpc_symbol c0) (call_symbol w3 c0)) (io_ret "T0") ;;
  s1 <- io_try (io_call (Rpc_symbol c1) (call_symbol w3 c1)) (io_ret "T1") ;;
  d0 <- io_try (io_call (Rpc_decimals c0) (call_decimals w3 c0)) (io_ret 18) ;;
  d1 <- io_try (io_call (Rpc_decimals c1) (call_decimals w3 c1)) (io_ret 18) ;;
  let idx := asset_indices (str_or s0 "") (str_or s1 "") in
  io_ret (Build_PoolMeta pool_addr c0 c1 s0 s1 d0 d1 idx.1 idx.2).

(** [block_at_timestamp(w3, ts, start_hint)], lines 196-204. *)
Definition block_at_timestamp (w3 : Web3) (ts : Z) (start_hint : Z) : result Z :=
  bisect_blocks (eth_get_block w3) ts start_hint (eth_block_number w3).

(** [fetch_token_exchange_raw(w3, address, from_block, to_block, step,
    progress_cb, max_pages)], lines 249-286. *)
Definition fetch_token_exchange_raw (fuel : nat) (w3 : Web3) (address : string)
    (from_block to_block step : Z) (progress_cb : bool) (max_pages : Z) :=
  paging_outer
    (fun start end_ => LogFilter start end_ address [TOPIC_TOKEN_EX])
    (eth_get_logs w3) from_block to_block progress_cb max_pages
    fuel 0 from_block step 0.

(** [get_block_ts(w3, blk)], lines 289-297; the module-level dict
    [_blk_ts_cache] is passed in and handed back. *)
Definition get_block_ts (w3 : Web3) (cache : gmap Z Z) (blk : Z)
    : result Z * gmap Z Z :=
  match cache !! blk with
  | Some ts => (Ok ts, cache)
  | None =>
      match eth_get_block w3 blk with
      | Raise e => (Raise e, cache)
      | Ok ts =>
          let cache' := if 20000 <? Z.of_nat (size cache) then ∅ else cache in
          (Ok ts, <[blk := ts]> cache')
      end
  end.

(** A row of [swaps], lines 336-348 and 393-404.  [time] holds the
    timestamp given to [datetime.fromtimestamp]. *)
Record swap : Type := Swap {
  time : Z;
  block : Z;
  txhash : string;
  direction : string;
  token0_flow : float;
  token1_flow : float;
  price_token0_in_token1 : float;
  deusd_flow : float;
  frx_flow : float;
  price_deusd_in_frx : float
}.

(** From [sold_norm = ...] to the row that is appended: lines 321-348 of
    the structured path and, the same text with [float(...)] around
    values that are floats already, lines 380-404 of the raw path.
    [Ok None] is the [continue] of the last branch. *)
Definition swap_entry (dec_by_index : gmap Z Z) (sym_by_index : gmap Z string)
    (sold_id sold bought_id bought blk ts : Z) (tx : list byte)
    : result (option swap) :=
  match dec_by_index !! sold_id with
  | None => Raise (KeyError sold_id)
  | Some dec_sold =>
  let sold_norm := div_pow10 sold dec_sold in
  match dec_by_index !! bought_id with
  | None => Raise (KeyError bought_id)
  | Some dec_bought =>
  let bought_norm := div_pow10 bought dec_bought in
  let row price_t0_in_t1 token0_flow token1_flow :=
    match sym_by_index !! sold_id, sym_by_index !! bought_id with
    | Some sym_sold, Some sym_bought =>
        Ok (Some (Swap ts blk (hexbytes_hex tx)
                    (String.append sym_sold (String.append "->" sym_bought))
                    token0_flow token1_flow price_t0_in_t1
                    token0_flow token1_flow price_t0_in_t1))
    | None, _ => Raise (KeyError sold_id)
    | _, None => Raise (KeyError bought_id)
    end in
  if (sold_id =? 0) && (bought_id =? 1) then
    row (if float_pos sold_norm then float_div bought_norm sold_norm else nan)
        (float_neg sold_norm) bought_norm
  else if (sold_id =? 1) && (bought_id =? 0) then
    row (if float_pos bought_norm then float_div sold_norm bought_norm else nan)
        bought_norm (float_neg sold_norm)
  else Ok None
  end end.

(** The body of the structured loop, lines 316-348. *)
Definition abi_entry (w3 : Web3) (dec_by_index : gmap Z Z)
    (sym_by_index : gmap Z string) (cache : gmap Z Z) (ev : event_log)
    : result (option swap) * gmap Z Z :=
  let got := get_block_ts w3 cache (ev_blockNumber ev) in
  (result_bind got.1 (fun ts =>
     swap_entry dec_by_index sym_by_index
       (args_sold_id ev) (args_tokens_sold ev)
       (args_bought_id ev) (args_tokens_bought ev)
       (ev_blockNumber ev) ts (ev_transactionHash ev)),
   got.2).

(** Lines 360-374: the payload as bytes. *)
Definition data_bytes (raw : raw_data) : result (list byte) :=
  match raw with
  | DataBytes b => Ok b
  | DataHexLike hx => bytes_fromhex (if startswith "0x" hx then drop2 hx else hx)
  | DataStr s => bytes_fromhex (if startswith "0x" s then drop2 s else s)
  | DataOther => Raise (Exn "TypeError" "")
  end.

(** Lines 375-379: the parameters of a raw entry.  The first component
    is the local [buyer], which only the one-topic branch binds. *)
Definition decode_token_exchange (topics : list (list byte)) (data : list byte)
    : result (option (list byte) * Z * Z * Z * Z) :=
  if (List.length topics =? 1)%nat then
    match abi_decode [abi_address; abi_int128; abi_uint256; abi_int128; abi_uint256] data with
    | Ok [AbiAddress buyer; AbiInt sold_id; AbiInt tokens_sold;
          AbiInt bought_id; AbiInt tokens_bought] =>
        Ok (Some buyer, sold_id, tokens_sold, bought_id, tokens_bought)
    | Ok _ => Raise (ValueError "")
    | Raise e => Raise e
    end
  else
    match abi_decode [abi_int128; abi_uint256; abi_int128; abi_uint256] data with
    | Ok [AbiInt sold_id; AbiInt tokens_sold; AbiInt bought_id; AbiInt tokens_bought] =>
        Ok (None, sold_id, tokens_sold, bought_id, tokens_bought)
    | Ok _ => Raise (ValueError "")
    | Raise e => Raise e
    end.

(** The body of the raw loop, lines 357-404. *)
Definition raw_entry (w3 : Web3) (dec_by_index : gmap Z Z)
    (sym_by_index : gmap Z string) (cache : gmap Z Z) (lg : raw_log)
    : result (option swap) * gmap Z Z :=
  let got := get_block_ts w3 cache (lg_blockNumber lg) in
  (result_bind got.1 (fun ts =>
   result_bind (data_bytes (lg_data lg)) (fun data =>
   result_bind (decode_token_exchange (lg_topics lg) data) (fun params =>
     let '(_, sold_id, tokens_sold, bought_id, tokens_bought) := params in
     swap_entry dec_by_index sym_by_index sold_id tokens_sold bought_id tokens_bought
       (lg_blockNumber lg) ts (lg_transactionHash lg)))),
   got.2).

(** The wall clock of one analysis: [clock_now] is
    [int(now.timestamp())]; [clock_expired i] is the test of line 349,
    [timeout_s and (time.time() - start_time) > timeout_s], made after
    the row of the [i]-th entry pulled from the generator is appended. *)
Record clock : Type := Clock {
  clock_now : Z;
  clock_expired : nat -> bool
}.

(** The [for] loop of the structured path, lines 315-350, pulling from
    the generator's trace [tr].  It returns the part of the trace the
    generator got to run, whether the loop stopped before exhausting it
    ([break] or an exception, which line 351 swallows), the rows and the
    cache. *)
Fixpoint abi_pass (w3 : Web3) (dec_by_index : gmap Z Z) (sym_by_index : gmap Z string)
    (expired : nat -> bool) (tr : list (fetch_event (Z * Z) event_log))
    (i : nat) (cache : gmap Z Z) (swaps : list swap)
    : list (fetch_event (Z * Z) event_log) * (bool * list swap * gmap Z Z) :=
  match tr with
  | [] => ([], (false, swaps, cache))
  | EvYield ev :: tr' =>
      let r := abi_entry w3 dec_by_index sym_by_index cache ev in
      match r.1 with
      | Raise _ => ([EvYield ev], (true, swaps, r.2))
      | Ok None =>
          after [EvYield ev]
            (abi_pass w3 dec_by_index sym_by_index expired tr' (S i) r.2 swaps)
      | Ok (Some row) =>
          if expired i then ([EvYield ev], (true, swaps ++ [row], r.2))
          else
            after [EvYield ev]
              (abi_pass w3 dec_by_index sym_by_index expired tr' (S i) r.2
                 (swaps ++ [row]))
      end
  | e :: tr' =>
      after [e] (abi_pass w3 dec_by_index sym_by_index expired tr' i cache swaps)
  end.

(** The [for] loop of the raw path, lines 356-404; an exception in its
    body is not caught. *)
Fixpoint raw_pass (w3 : Web3) (dec_by_index : gmap Z Z) (sym_by_index : gmap Z string)
    (tr : list (fetch_event log_filter raw_log))
    (cache : gmap Z Z) (swaps : list swap)
    : list (fetch_event log_filter raw_log) * (result (list swap) * gmap Z Z) :=
  match tr with
  | [] => ([], (Ok swaps, cache))
  | EvYield lg :: tr' =>
      let r := raw_entry w3 dec_by_index sym_by_index cache lg in
      match r.1 with
      | Raise e => ([EvYield lg], (Raise e, r.2))
      | Ok None =>
          after [EvYield lg] (raw_pass w3 dec_by_index sym_by_index tr' r.2 swaps)
      | Ok (Some row) =>
          after [EvYield lg]
            (raw_pass w3 dec_by_index sym_by_index tr' r.2 (swaps ++ [row]))
      end
  | e :: tr' => after [e] (raw_pass w3 dec_by_index sym_by_index tr' cache swaps)
  end.

(** One run of [analyze_swaps_last_days]: what the structured fetcher
    did, what the raw fetcher did (nothing if it was not called), the
    cache afterwards, and the list [swaps] handed to [pd.DataFrame]. *)
Record analysis : Type := Analysis {
  abi_trace : list (fetch_event (Z * Z) event_log);
  raw_trace : list (fetch_event log_filter raw_log);
  cache_after : gmap Z Z;
  returned : outcome (list swap)
}.

(** [analyze_swaps_last_days(w3, pool_addr, meta, days, progress_cb,
    timeout_s)], lines 300-407, up to the list [swaps]; sorting it into a
    data frame is left to pandas. *)
Definition analyze_swaps_last_days (fuel : nat) (w3 : Web3) (clk : clock)
    (cache : gmap Z Z) (pool_addr : string) (meta : PoolMeta) (days : Z)
    (progress_cb : bool) : analysis :=
  let start_ts := clock_now clk - 86400 * days in
  let end_ts := clock_now clk in
  match block_at_timestamp w3 start_ts 17000000 with
  | Raise e => Analysis [] [] cache (Raised e)
  | Ok start_block =>
  match block_at_timestamp w3 end_ts 17000000 with
  | Raise e => Analysis [] [] cache (Raised e)
  | Ok end_block =>
  let dec_by_index : gmap Z Z := {[ 0 := dec0 meta; 1 := dec1 meta ]} in
  let sym_by_index : gmap Z string :=
    {[ 0 := str_or (sym0 meta) "Token0"; 1 := str_or (sym1 meta) "Token1" ]} in
  let gen := fetch_event_logs_adaptive fuel (token_exchange_get_logs w3 pool_addr)
               start_block end_block 500 progress_cb 20000 in
  let p := abi_pass w3 dec_by_index sym_by_index (clock_expired clk) gen.1 0 cache [] in
  let '(stopped, swaps, cache1) := p.2 in
  match (if stopped then Returned tt else gen.2) with
  | OutOfFuel => Analysis p.1 [] cache1 OutOfFuel
  | _ =>
      match swaps with
      | _ :: _ => Analysis p.1 [] cache1 (Returned swaps)
      | [] =>
          let gen2 := fetch_token_exchange_raw fuel w3 pool_addr
                        start_block end_block 500 progress_cb 20000 in
          let q := raw_pass w3 dec_by_index sym_by_index gen2.1 cache1 [] in
          match q.2.1 with
          | Raise e => Analysis p.1 q.1 q.2.2 (Raised e)
          | Ok swaps2 =>
              match gen2.2 with
              | OutOfFuel => Analysis p.1 q.1 q.2.2 OutOfFuel
              | Raised e => Analysis p.1 q.1 q.2.2 (Raised e)
              | Returned _ => Analysis p.1 q.1 q.2.2 (Returned swaps2)
              end
          end
      end
  end
  end end.

Context `{!FloatSum}.

(** A row of [fetch_balances_for_blocks]. *)
Record balance_row : Type := BalanceRow {
  bal_block : Z;
  token0_bal : float;
  token1_bal : float;
  ratio_token0 : option float
}.

(** The loop of [fetch_balances_for_blocks], lines 412-418.  [balances i b]
    is [pool.functions.balances(i).call(block_identifier=b)]; the calls
    made are traced as pairs [(i, b)]. *)
Fixpoint balances_loop (balances : Z -> Z -> result Z) (dec0 dec1 : Z)
    (blocks : list Z) (out : list balance_row)
    : list (Z * Z) * result (list balance_row) :=
  match blocks with
  | [] => ([], Ok out)
  | b :: blocks' =>
      match balances 0 b with
      | Raise e => ([(0, b)], Raise e)
      | Ok raw0 =>
          let bal0 := div_pow10 raw0 dec0 in
          match balances 1 b with
          | Raise e => ([(0, b); (1, b)], Raise e)
          | Ok raw1 =>
              let bal1 := div_pow10 raw1 dec1 in
              let total := float_add bal0 bal1 in
              let ratio0 := if float_pos total then Some (float_div bal0 total) else None in
              after [(0, b); (1, b)]
                (balances_loop balances dec0 dec1 blocks'
                   (out ++ [BalanceRow b bal0 bal1 ratio0]))
          end
      end
  end.

(** [fetch_balances_for_blocks(w3, pool_addr, meta, blocks)], lines
    410-419, from the contract object [pool], once built, up to the list
    [out] that the data frame is made of. *)
Definition fetch_balances_for_blocks (balances : Z -> Z -> result Z) (meta : PoolMeta)
    (blocks : list Z) : list (Z * Z) * result (list balance_row) :=
  balances_loop balances (dec0 meta) (dec1 meta) blocks [].

End library.

End curve_analyzer.


(** * Specification predicates *)

(** [r] is where the search for [ts] in the blocks [lo..hi] must land:
    every block before [r] is older than [ts], and [r] itself is not,
    unless no block of the range is, in which case [r] is [hi]. *)
Definition located (ts_of : Z -> Z) (ts lo hi r : Z) : Prop :=
  lo <= r <= hi
  /\ (forall b, lo <= b < r -> ts_of b < ts)
  /\ ((exists b, lo <= b <= hi /\ ts <= ts_of b) -> ts <= ts_of r)
  /\ (ts <= ts_of lo -> r = lo)
  /\ (ts_of hi < ts -> r = hi).

(** Every value of [l] is at least 1 and none exceeds the one before it,
    starting from [s0]: how the values assigned to [step] behave when
    [step] only shrinks. *)
Fixpoint shrinks_from (s0 : Z) (l : list Z) : Prop :=
  match l with
  | [] => True
  | v :: l' => 1 <= v <= s0 /\ shrinks_from v l'
  end.

(** Every value of [l] exceeds the one before it, starting from [s0]: how
    the values assigned to [start] behave under forward progress. *)
Fixpoint increases_from (s0 : Z) (l : list Z) : Prop :=
  match l with
  | [] => True
  | v :: l' => s0 < v /\ increases_from v l'
  end.

(** [ws] is the list of sub-windows that cut [start..to_] into consecutive
    pieces of [step] blocks, the last one possibly shorter. *)
Fixpoint tiles (start to_ step : Z) (ws : list (Z * Z)) : Prop :=
  match ws with
  | [] => to_ < start
  | w :: ws' =>
      start <= to_ /\ w = (start, Z.min (start + step - 1) to_)
      /\ tiles (w.2 + 1) to_ step ws'
  end.

(** What a run over [from_block..to_block] looks like when it covers the
    range: it returned, it queried exactly the sub-windows that tile the
    range and yielded their answers in that order, which amounts to the
    answer for the whole range, and the last value it reported to the
    progress callback is 1. *)
Definition covers {R A} (request : Z -> Z -> R) (answer : Z -> Z -> list A)
    (from_block to_block step : Z) (run : list (fetch_event R A) * outcome unit) : Prop :=
  run.2 = Returned tt
  /\ (exists ws, tiles from_block to_block step ws
                 /\ queries run.1 = map (fun w => request w.1 w.2) ws
                 /\ yields run.1 = flat_map (fun w => answer w.1 w.2) ws)
  /\ yields run.1 = answer from_block to_block
  /\ last (progress_values run.1) = Some 1%Q.

(** [r] asks for a window inside [from_block..to_block]. *)
Definition within_range {R} (request : Z -> Z -> R) (from_block to_block : Z) (r : R)
    : Prop :=
  exists s e, r = request s e /\ from_block <= s /\ e <= to_block.

(** * Test doubles

    A stand-in for the external libraries and a small synthetic chain, used
    to run the definitions on concrete inputs.  Floats are exact rationals
    here, with [None] for [nan]; the other library functions are the
    simplest ones of the right type. *)

Definition rational_externals : Externals := {|
  float := option Q;
  div_pow10 amount dec :=
    Some (if 0 <=? dec then amount # Z.to_pos (10 ^ dec)
          else inject_Z (amount * 10 ^ (- dec)));
  float_div x y :=
    match x, y with Some a, Some b => Some (a / b)%Q | _, _ => None end;
  float_neg x := match x with Some a => Some (- a)%Q | None => None end;
  float_pos x := match x with Some a => negb (Qle_bool a 0) | None => false end;
  nan := None;
  keccak_hex _ := "8b3e96f2b889fa771c53c981b40daf005f63f637f1869f707052d15a3dd97140";
  to_checksum_address s := Ok s;
  urlparse_path s := Ok s;
  bytes_fromhex _ := Ok [];
  hexbytes_hex _ := "";
  to_int_hexstr _ := Ok 1;
  to_hex _ := ""
|}.

(** A chain of 1001 blocks, twelve seconds apart, whose node answers every
    log query with no entries and every contract call with an error. *)
Definition quiet_node : Web3 := {|
  eth_block_number := 1000;
  eth_get_block b := Ok (1600000000 + 12 * b);
  eth_get_transaction_receipt _ := Raise (Exn "TransactionNotFound" "");
  eth_get_logs _ _ := Ok [];
  token_exchange_get_logs _ _ _ := Ok [];
  call_coins _ _ := Raise (Exn "ContractLogicError" "execution reverted");
  call_minter _ := Raise (Exn "ContractLogicError" "execution reverted");
  call_get_registry _ := Raise (Exn "ContractLogicError" "execution reverted");
  call_get_pool_from_lp_token _ _ := Raise (Exn "ContractLogicError" "execution reverted");
  call_symbol _ := Raise (Exn "ContractLogicError" "execution reverted");
  call_decimals _ := Raise (Exn "ContractLogicError" "execution reverted")
|}.

(** The same chain behind a node that refuses any log query spanning more
    than 37 blocks and answers the others with no entries. *)
Definition capped_node : Web3 := {|
  eth_block_number := 1000;
  eth_get_block b := Ok (1600000000 + 12 * b);
  eth_get_transaction_receipt _ := Raise (Exn "TransactionNotFound" "");
  eth_get_logs _ req :=
    if 37 <? toBlock req - fromBlock req + 1
    then Raise (Exn "ValueError" "query exceeds max block range 37")
    else Ok [];
  token_exchange_get_logs _ _ window :=
    if 37 <? window.2 - window.1 + 1
    then Raise (Exn "ValueError" "query exceeds max block range 37")
    else Ok [];
  call_coins _ _ := Raise (Exn "ContractLogicError" "execution reverted");
  call_minter _ := Raise (Exn "ContractLogicError" "execution reverted");
  call_get_registry _ := Raise (Exn "ContractLogicError" "execution reverted");
  call_get_pool_from_lp_token _ _ := Raise (Exn "ContractLogicError" "execution reverted");
  call_symbol _ := Raise (Exn "ContractLogicError" "execution reverted");
  call_decimals _ := Raise (Exn "ContractLogicError" "execution reverted")
|}.

(** A node on which every address answers [coins(0)] and [coins(1)] like a
    two-coin pool, while its tokens implement neither [symbol()] nor
    [decimals()], and nothing answers [minter()] or the registry. *)
Definition bare_pool_node : Web3 := {|
  eth_block_number := 1000;
  eth_get_block b := Ok (1600000000 + 12 * b);
  eth_get_transaction_receipt _ := Raise (Exn "TransactionNotFound" "");
  eth_get_logs _ _ := Ok [];
  token_exchange_get_logs _ _ _ := Ok [];
  call_coins _ i :=
    if i =? 0 then Ok "0x15700B564Ca08D9439C58cA5053166E8317aa138"
    else if i =? 1 then Ok "0xCAcd6fd266aF91b8AeD52aCCc382b4e165586E29"
    else Raise (Exn "ContractLogicError" "execution reverted");
  call_minter _ := Raise (Exn "ContractLogicError" "execution reverted");
  call_get_registry _ := Raise (Exn "ContractLogicError" "execution reverted");
  call_get_pool_from_lp_token _ _ := Raise (Exn "ContractLogicError" "execution reverted");
  call_symbol _ := Raise (Exn "ContractLogicError" "execution reverted");
  call_decimals _ := Raise (Exn "ContractLogicError" "execution reverted")
|}.

(** The 32-byte ABI word of an integer, two's complement and big endian,
    for building payloads. *)
Definition abi_word (v : Z) : list byte :=
  map (fun i : nat =>
         default x00
           (Byte.of_N (Z.to_N ((v mod 2 ^ 256) / 256 ^ (31 - Z.of_nat i) mod 256))))
      (seq 0 32).

(** The last 20 bytes of the word of [v], as an address. *)
Definition address_bytes (v : Z) : list byte := drop 12 (abi_word v).

(** The payload of a [TokenExchange] entry without the buyer: [sold_id],
    [tokens_sold], [bought_id], [tokens_bought]. *)
Definition exchange_payload (sold_id tokens_sold bought_id tokens_bought : Z)
    : list byte :=
  abi_word sold_id ++ abi_word tokens_sold ++ abi_word bought_id
    ++ abi_word tokens_bought.

(** A node at block 17000050 whose structured filter returns nothing
    although the pool emitted a [TokenExchange] entry in block 17000020,
    which its raw query does return. *)
Definition silent_filter_node : Web3 := {|
  eth_block_number := 17000050;
  eth_get_block b := Ok (1600000000 + 12 * b);
  eth_get_transaction_receipt _ := Raise (Exn "TransactionNotFound" "");
  eth_get_logs _ req :=
    if (fromBlock req <=? 17000020) && (17000020 <=? toBlock req)
    then Ok [RawLog 17000020 [abi_word 7; abi_word 4660]
               (DataBytes (exchange_payload 0 1000000 1 999000)) []
               (address req)]
    else Ok [];
  token_exchange_get_logs _ _ _ := Ok [];
  call_coins _ _ := Raise (Exn "ContractLogicError" "execution reverted");
  call_minter _ := Raise (Exn "ContractLogicError" "execution reverted");
  call_get_registry _ := Raise (Exn "ContractLogicError" "execution reverted");
  call_get_pool_from_lp_token _ _ := Raise (Exn "ContractLogicError" "execution reverted");
  call_symbol _ := Raise (Exn "ContractLogicError" "execution reverted");
  call_decimals _ := Raise (Exn "ContractLogicError" "execution reverted")
|}.

(** The pool metadata and the clock of the examples: two six-decimal
    tokens, and a run started at the timestamp of block 17000050 that
    never times out. *)
Definition example_meta : curve_analyzer.PoolMeta :=
  curve_analyzer.Build_PoolMeta "0x4eeb03b2b8f55159f47b3548faafe3efaff43eb9"
    "0x15700B564Ca08D9439C58cA5053166E8317aa138"
    "0xCAcd6fd266aF91b8AeD52aCCc382b4e165586E29"
    "deUSD" "frxUSD" 6 6 0 1.

Definition example_clock : curve_analyzer.clock :=
  curve_analyzer.Clock (1600000000 + 12 * 17000050) (fun _ => false).

(** The cache holds nothing the node would not answer: every cached
    timestamp is the node's timestamp for that block. *)
Definition cache_coherent (w3 : Web3) (cache : gmap Z Z) : Prop :=
  forall b ts, cache !! b = Some ts -> eth_get_block w3 b = Ok ts.

(** Lower-case hexadecimal text of a byte string, with the "0x" prefix. *)
Definition hex_digit (n : N) : ascii :=
  if (n <? 10)%N then ascii_of_N (48 + n) else ascii_of_N (87 + n).

Definition hex_of_bytes (bs : list byte) : string :=
  String.append "0x"
    (fold_right (fun b acc =>
                   String (hex_digit (Byte.to_N b / 16))
                     (String (hex_digit (Byte.to_N b mod 16)) acc))
       EmptyString bs).

(** The path of a URL of the form [scheme://host/path]. *)
Fixpoint from_first_slash (s : string) : string :=
  match s with
  | EmptyString => EmptyString
  | String c s' => if Ascii.eqb c "/" then s else from_first_slash s'
  end.

Definition url_path (s : string) : string :=
  match String.index 0 "://" s with
  | Some n => from_first_slash (String.substring (n + 3) (String.length s) s)
  | None => s
  end.

(** The stand-in libraries again, with [HexBytes.hex] giving prefixed
    lower-case hexadecimal text, [urlparse] splitting off the path, and
    [Web3.to_int] telling the zero address from the others. *)
Definition hex_externals : Externals := {|
  float := option Q;
  div_pow10 := div_pow10 (Externals := rational_externals);
  float_div := float_div (Externals := rational_externals);
  float_neg := float_neg (Externals := rational_externals);
  float_pos := float_pos (Externals := rational_externals);
  nan := None;
  keccak_hex _ := "8b3e96f2b889fa771c53c981b40daf005f63f637f1869f707052d15a3dd97140";
  to_checksum_address s := Ok s;
  urlparse_path s := Ok (url_path s);
  bytes_fromhex _ := Ok [];
  hexbytes_hex := hex_of_bytes;
  to_int_hexstr s :=
    Ok (if (s =? "0x0000000000000000000000000000000000000000")%string then 0 else 1);
  to_hex := hex_of_bytes
|}.

(** A node that knows one pool, one LP token whose [minter()] is the
    pool, a registry that maps a second LP token to the pool and every
    other address to the zero address, and one transaction, sent to a
    router, whose receipt has a transfer entry followed by the pool's
    [TokenExchange] entry. *)
Definition registry_node : Web3 := {|
  eth_block_number := 1000;
  eth_get_block b := Ok (1600000000 + 12 * b);
  eth_get_transaction_receipt _ :=
    Ok (Receipt (Some "0x99a58482BD75cbab83b27EC03CA68fF489b5788f")
          [RawLog 500 [abi_word 1; abi_word 4660] (DataBytes []) []
             "0x15700B564Ca08D9439C58cA5053166E8317aa138";
           RawLog 500
             [abi_word 0x8b3e96f2b889fa771c53c981b40daf005f63f637f1869f707052d15a3dd97140;
              abi_word 4660]
             (DataBytes (exchange_payload 0 1000000 1 999000)) []
             "0x4eeb03b2b8f55159f47b3548faafe3efaff43eb9"]);
  eth_get_logs _ _ := Ok [];
  token_exchange_get_logs _ _ _ := Ok [];
  call_coins a _ :=
    if (a =? "0x4eeb03b2b8f55159f47b3548faafe3efaff43eb9")%string
    then Ok "0x15700B564Ca08D9439C58cA5053166E8317aa138"
    else Raise (Exn "ContractLogicError" "execution reverted");
  call_minter a :=
    if (a =? "0x1111111111111111111111111111111111111111")%string
    then Ok "0x4eeb03b2b8f55159f47b3548faafe3efaff43eb9"
    else Raise (Exn "ContractLogicError" "execution reverted");
  call_get_registry _ := Ok "0x90E00ACe148ca3b23Ac1bC8C240C2a7Dd9c2d7f5";
  call_get_pool_from_lp_token _ lp :=
    if (lp =? "0x2222222222222222222222222222222222222222")%string
    then Ok (AnswerStr "0x4eeb03b2b8f55159f47b3548faafe3efaff43eb9")
    else Ok (AnswerStr "0x0000000000000000000000000000000000000000");
  call_symbol _ := Raise (Exn "ContractLogicError" "execution reverted");
  call_decimals _ := Raise (Exn "ContractLogicError" "execution reverted")
|}.

(** A run over [from_block..to_block] that returned after querying
    exactly the sub-windows that tile the range and yielding their answers
    in that order, which amounts to the answer for the whole range. *)
Definition covers_range {R A} (request : Z -> Z -> R) (answer : Z -> Z -> list A)
    (from_block to_block step : Z) (run : list (fetch_event R A) * outcome unit) : Prop :=
  run.2 = Returned tt
  /\ (exists ws, tiles from_block to_block step ws
                 /\ queries run.1 = map (fun w => request w.1 w.2) ws
                 /\ yields run.1 = flat_map (fun w => answer w.1 w.2) ws)
  /\ yields run.1 = answer from_block to_block.

(** Every value of [l] is at most 1 and at least the one before it,
    starting above [q0]. *)
Fixpoint rises_to_one (q0 : Q) (l : list Q) : Prop :=
  match l with
  | [] => True
  | q :: l' => (q0 <= q)%Q /\ (q <= 1)%Q /\ rises_to_one q l'
  end.

(** [r] asks for a non-empty window inside [from_block..to_block]. *)
Definition window_in_range {R} (request : Z -> Z -> R) (from_block to_block : Z) (r : R)
    : Prop :=
  exists s e, r = request s e /\ from_block <= s /\ s <= e /\ e <= to_block.

(** A row as [analyze_swaps_last_days] builds them for tokens labelled
    [s0] and [s1]: the legacy columns repeat the current ones, and the
    direction names the two labels, one way or the other. *)
Definition row_well_formed `{Externals} (s0 s1 : string) (row : curve_analyzer.swap)
    : Prop :=
  curve_analyzer.deusd_flow row = curve_analyzer.token0_flow row
  /\ curve_analyzer.frx_flow row = curve_analyzer.token1_flow row
  /\ curve_analyzer.price_deusd_in_frx row = curve_analyzer.price_token0_in_token1 row
  /\ (curve_analyzer.direction row = String.append s0 (String.append "->" s1)
      \/ curve_analyzer.direction row = String.append s1 (String.append "->" s0)).

(** The time of a row is the node's timestamp for the row's block. *)
Definition row_timed `{Externals} (w3 : Web3) (row : curve_analyzer.swap) : Prop :=
  eth_get_block w3 (curve_analyzer.block row) = Ok (curve_analyzer.time row).

(** A well-formed row whose block and time are related by [timed]. *)
Definition row_timed_by `{Externals} (s0 s1 : string) (timed : Z -> Z -> Prop)
    (row : curve_analyzer.swap) : Prop :=
  row_well_formed s0 s1 row
  /\ timed (curve_analyzer.block row) (curve_analyzer.time row).

(** Exact addition for the rational stand-in of floats. *)
Definition rational_sums : FloatSum (H := rational_externals) :=
  @Build_FloatSum rational_externals
    (fun x y : option Q =>
       match x, y with
       | Some a, Some b => Some (a + b)%Q
       | _, _ => None
       end).

(** Balances of a pool that holds 2,000,000 and 3,000,000 base units of
    its two coins at every block up to 1000 and did not exist after. *)
Definition steady_balances (i b : Z) : result Z :=
  if b <=? 1000 then Ok (if i =? 0 then 2000000 else 3000000)
  else Raise (Exn "BlockNotFound" "block not found").

(** A structured event source with one swap of coin 0 for coin 1 in block
    500. *)
Definition one_swap_events (n : nat) (window : Z * Z) : result (list event_log) :=
  if (window.1 <=? 500) && (500 <=? window.2)
  then Ok [EventLog 0 1000000 1 999000 500 []]
  else Ok [].

(** What a balance row must hold for the block it is for. *)
Definition balance_row_of `{FloatSum} (balances : Z -> Z -> result Z) (dec0 dec1 : Z)
    (row : curve_analyzer.balance_row) : Prop :=
  exists raw0 raw1,
    balances 0 (curve_analyzer.bal_block row) = Ok raw0
    /\ balances 1 (curve_analyzer.bal_block row) = Ok raw1
    /\ curve_analyzer.token0_bal row = div_pow10 raw0 dec0
    /\ curve_analyzer.token1_bal row = div_pow10 raw1 dec1
    /\ curve_analyzer.ratio_token0 row
       = let total := float_add (div_pow10 raw0 dec0) (div_pow10 raw1 dec1) in
         if float_pos total then Some (float_div (div_pow10 raw0 dec0) total) else None.

(** A row of the script is labelled with one of its two directions. *)
Definition row_labelled `{Externals} (row : analysis_curve_pool.swap_row) : Prop :=
  analysis_curve_pool.row_direction row = "deUSD->frxUSD"
  \/ analysis_curve_pool.row_direction row = "frxUSD->deUSD".

(** A row of the script is the record of one structured entry: its
    block, that block's timestamp at the node, its transaction hash, and
    the direction that the entry's coin indices select. *)
Definition row_of_entry `{Externals} (w3 : Web3) (deusd_index frx_index : Z)
    (row : analysis_curve_pool.swap_row) (log : event_log) : Prop :=
  analysis_curve_pool.row_block row = ev_blockNumber log
  /\ eth_get_block w3 (ev_blockNumber log) = Ok (analysis_curve_pool.row_time row)
  /\ analysis_curve_pool.row_txhash row = hexbytes_hex (ev_transactionHash log)
  /\ ((args_sold_id log = deusd_index /\ args_bought_id log = frx_index
       /\ analysis_curve_pool.row_direction row = "deUSD->frxUSD")
      \/ (args_sold_id log = frx_index /\ args_bought_id log = deusd_index
          /\ analysis_curve_pool.row_direction row = "frxUSD->deUSD")).

(** The dict [decs] of a pool of two six-decimal coins. *)
Definition two_coin_decs : gmap Z Z := <[0 := 6]> (<[1 := 6]> ∅).

(** A structured event source that answers the first window and fails
    afterwards. *)
Definition failing_events (n : nat) (window : Z * Z) : result (list event_log) :=
  match n with
  | O => Ok [EventLog 1 2000000 0 1999000 700 []]
  | S _ => Raise (Exn "ValueError" "no such event")
  end.

(** What makes [handle_swap] raise on an entry: the node's answer for the
    entry's block, or a coin index that [decs] does not hold. *)
Definition swap_error (w3 : Web3) (decs : gmap Z Z) (log : event_log) (e : exn) : Prop :=
  eth_get_block w3 (ev_blockNumber log) = Raise e
  \/ (decs !! args_sold_id log = None /\ e = KeyError (args_sold_id log))
  \/ (decs !! args_bought_id log = None /\ e = KeyError (args_bought_id log)).

(** A row of [adds] or [removes] is the record of one [AddLiquidity] or
    [RemoveLiquidity] entry: the node's timestamp of its block, its
    transaction hash, and its two amounts, scaled, under the roles that
    [deusd_index] gives coin 0 and coin 1. *)
Definition row_of_liquidity `{Externals} (w3 : Web3) (dec0 dec1 deusd_index : Z)
    (row : analysis_curve_pool.liquidity_row)
    (ev : analysis_curve_pool.liquidity_event) : Prop :=
  eth_get_block w3 (analysis_curve_pool.liq_blockNumber ev)
  = Ok (analysis_curve_pool.liq_time row)
  /\ analysis_curve_pool.liq_txhash row
     = hexbytes_hex (analysis_curve_pool.liq_transactionHash ev)
  /\ (analysis_curve_pool.liq_deusd row, analysis_curve_pool.liq_frx row)
     = let a0 := div_pow10 (analysis_curve_pool.args_token_amounts ev).1 dec0 in
       let a1 := div_pow10 (analysis_curve_pool.args_token_amounts ev).2 dec1 in
       if deusd_index =? 0 then (a0, a1) else (a1, a0).

(** A row of [removes] is the record of one [RemoveLiquidityOne] entry:
    its coin index is 0 or 1, and the scaled amount stands on the deUSD
    side when the index is [deusd_index], on the frxUSD side otherwise,
    with [0.0] on the other side. *)
Definition row_of_remove_one `{Externals} (w3 : Web3) (dec0 dec1 deusd_index : Z)
    (row : analysis_curve_pool.liquidity_row)
    (ev : analysis_curve_pool.remove_one_event) : Prop :=
  eth_get_block w3 (analysis_curve_pool.one_blockNumber ev)
  = Ok (analysis_curve_pool.liq_time row)
  /\ analysis_curve_pool.liq_txhash row
     = hexbytes_hex (analysis_curve_pool.one_transactionHash ev)
  /\ exists dec,
       ((analysis_curve_pool.args_coin_index ev = 0 /\ dec = dec0)
        \/ (analysis_curve_pool.args_coin_index ev = 1 /\ dec = dec1))
       /\ (analysis_curve_pool.liq_deusd row, analysis_curve_pool.liq_frx row)
          = let amount := div_pow10 (analysis_curve_pool.args_token_amount ev) dec in
            if analysis_curve_pool.args_coin_index ev =? deusd_index
            then (amount, analysis_curve_pool.float_zero)
            else (analysis_curve_pool.float_zero, amount).

(** What makes the body of the [RemoveLiquidityOne] loop raise. *)
Definition remove_one_error (w3 : Web3) (ev : analysis_curve_pool.remove_one_event)
    (e : exn) : Prop :=
  eth_get_block w3 (analysis_curve_pool.one_blockNumber ev) = Raise e
  \/ (analysis_curve_pool.args_coin_index ev <> 0
      /\ analysis_curve_pool.args_coin_index ev <> 1
      /\ e = KeyError (analysis_curve_pool.args_coin_index ev)).

(** Structured sources of liquidity events: one entry of two amounts in
    block [blk], and one single-coin removal of coin [idx] in block
    [blk]. *)
Definition one_liquidity_event (blk : Z) (n : nat) (window : Z * Z)
    : result (list analysis_curve_pool.liquidity_event) :=
  if (window.1 <=? blk) && (blk <=? window.2)
  then Ok [analysis_curve_pool.LiquidityEvent (1000000, 2000000) blk []]
  else Ok [].

Definition one_coin_removal (idx blk : Z) (n : nat) (window : Z * Z)
    : result (list analysis_curve_pool.remove_one_event) :=
  if (window.1 <=? blk) && (blk <=? window.2)
  then Ok [analysis_curve_pool.RemoveOneEvent idx 500000 blk []]
  else Ok [].

(** The answer of a call, or [fallback] when the call raised. *)
Definition answer_or {A} (r : result A) (fallback : A) : A :=
  match r with Ok a => a | Raise _ => fallback end.

(** * The block-timestamp locator *)

Section locator.
Variable get_block : Z -> result Z.
Variable ts_of : Z -> Z.
Variables ts lo0 hi0 : Z.
Hypothesis oracle : forall b, lo0 <= b <= hi0 -> get_block b = Ok (ts_of b).
Hypothesis monotone : forall a b, lo0 <= a -> a <= b -> b <= hi0 -> ts_of a <= ts_of b.

Lemma bisect_blocks_invariant lo hi :
  lo0 <= lo -> lo <= hi -> hi <= hi0 ->
  (forall b, lo0 <= b < lo -> ts_of b < ts) ->
  (hi < hi0 -> ts <= ts_of hi) ->
  exists r, bisect_blocks get_block ts lo hi = Ok r
    /\ lo <= r <= hi
    /\ (forall b, lo0 <= b < r -> ts_of b < ts)
    /\ (r < hi0 -> ts <= ts_of r).
Proof.
  funelim (bisect_blocks get_block ts lo hi); intros Hlo Hle Hhi Hbelow Habove;
    try (assert (Hmid : lo <= (lo + hi) / 2 < hi)
          by (split; [apply Z.div_le_lower_bound | apply Z.div_lt_upper_bound]; lia);
         match goal with
         | Hq : get_block _ = _ |- _ => rewrite oracle in Hq by lia; inversion Hq; subst
         end).
  - exists lo. assert (lo = hi) by lia. subst hi. repeat split; auto; lia.
  - match goal with IH : _ -> _ -> _ -> _ -> _ -> ex _ |- _ =>
      destruct IH as (r & Hr & Hin & Hb & Ha); try lia; auto
    end.
    + intros b Hb. destruct (Z_lt_dec ((lo + hi) / 2) b); [lia |].
      assert (ts_of b <= ts_of ((lo + hi) / 2)) by (apply monotone; lia). lia.
    + exists r. repeat split; auto; lia.
  - match goal with IH : _ -> _ -> _ -> _ -> _ -> ex _ |- _ =>
      destruct IH as (r & Hr & Hin & Hb & Ha); try lia; auto
    end.
    exists r. repeat split; auto; lia.
Qed.

Lemma bisect_blocks_located :
  lo0 <= hi0 ->
  exists r, bisect_blocks get_block ts lo0 hi0 = Ok r /\ located ts_of ts lo0 hi0 r.
Proof.
  intros Hle.
  destruct (bisect_blocks_invariant lo0 hi0) as (r & Hr & Hin & Hb & Ha); try lia.
  exists r. split; [exact Hr |]. unfold located. repeat split; try lia.
  - exact Hb.
  - intros (b & Hrange & Hts). destruct (Z_lt_dec r hi0) as [Hlt | Hge]; [auto |].
    assert (r = hi0) by lia. subst r.
    assert (ts_of b <= ts_of hi0) by (apply monotone; lia). lia.
  - intros Hts. destruct (Z.eq_dec r lo0) as [-> | Hne]; [reflexivity |].
    specialize (Hb lo0). lia.
  - intros Hts. destruct (Z_lt_dec r hi0) as [Hlt | Hge]; [| lia].
    specialize (Ha Hlt). assert (ts_of r <= ts_of hi0) by (apply monotone; lia). lia.
Qed.
End locator.

(** * Traces *)

Section trace_lemmas.
Context {R A : Type}.
Implicit Types tr : list (fetch_event R A).

Lemma step_values_app tr1 tr2 :
  step_values (tr1 ++ tr2) = step_values tr1 ++ step_values tr2.
Proof. apply omap_app. Qed.

Lemma start_values_app tr1 tr2 :
  start_values (tr1 ++ tr2) = start_values tr1 ++ start_values tr2.
Proof. apply omap_app. Qed.

Lemma yields_app tr1 tr2 : yields (tr1 ++ tr2) = yields tr1 ++ yields tr2.
Proof. apply omap_app. Qed.

Lemma queries_app tr1 tr2 : queries (tr1 ++ tr2) = queries tr1 ++ queries tr2.
Proof. apply omap_app. Qed.

Lemma progress_values_app tr1 tr2 :
  progress_values (tr1 ++ tr2) = progress_values tr1 ++ progress_values tr2.
Proof. apply omap_app. Qed.

Lemma step_values_yield (logs : list A) :
  step_values (map (@EvYield R A) logs) = [].
Proof. induction logs; auto. Qed.

Lemma start_values_yield (logs : list A) :
  start_values (map (@EvYield R A) logs) = [].
Proof. induction logs; auto. Qed.

Lemma queries_yield (logs : list A) : queries (map (@EvYield R A) logs) = [].
Proof. induction logs; auto. Qed.

Lemma progress_values_yield (logs : list A) :
  progress_values (map (@EvYield R A) logs) = [].
Proof. induction logs; auto. Qed.

Lemma yields_yield (logs : list A) : yields (map (@EvYield R A) logs) = logs.
Proof. induction logs; simpl; congruence. Qed.
End trace_lemmas.

Create Rewrite HintDb trace.

#[local] Hint Rewrite @step_values_app @start_values_app @yields_app @queries_app
  @progress_values_app @step_values_yield @start_values_yield @queries_yield
  @progress_values_yield @yields_yield : trace.

(** Linear arithmetic with floor division by constants. *)
Ltac dlia := first [lia | Z.to_euclidean_division_equations; lia].

(** Bring the projection of a trace that starts with a known prefix into
    the shape [known ++ projection of the rest]. *)
Ltac trace_simpl :=
  unfold after; cbn [fst snd]; autorewrite with trace; cbn [app omap
    step_values start_values yields queries progress_values].

(** The projections of an explicit list of events, computed. *)
Ltac trace_eval :=
  cbn [app omap list_omap step_values start_values yields queries progress_values].

(** One visit of the inner loop head, with the calls it leads to kept
    folded. *)
Lemma paging_inner_unfold {R A} (request : Z -> Z -> R)
    (query : nat -> R -> result (list A)) (from_block to_block : Z)
    (progress_cb : bool) (max_pages : Z) fuel n start end_ step retries pages :
  curve_analyzer.paging_inner request query from_block to_block progress_cb max_pages
    (S fuel) n start end_ step retries pages
  = match query n (request start end_) with
    | Ok logs =>
        after (EvQuery (request start end_) :: map EvYield logs
               ++ (if progress_cb
                   then [EvProgress (curve_analyzer.progress_of from_block to_block end_)]
                   else [])
               ++ [EvStart (end_ + 1)])
          (if max_pages <=? pages + 1 then ([], Returned tt)
           else curve_analyzer.paging_outer request query from_block to_block
                  progress_cb max_pages fuel (S n) (end_ + 1) step (pages + 1))
    | Raise e =>
        if is_range_or_limit_error e then
          if 5 <=? retries + 1 then
            after [EvQuery (request start end_); EvStart (end_ + 1)]
              (if max_pages <=? pages then ([], Returned tt)
               else curve_analyzer.paging_outer request query from_block to_block
                      progress_cb max_pages fuel (S n) (end_ + 1) step pages)
          else
            after [EvQuery (request start end_); EvStep (Z.max 1 (step / 2))]
              (curve_analyzer.paging_inner request query from_block to_block
                 progress_cb max_pages fuel (S n) start
                 (Z.min (start + Z.max 1 (step / 2) - 1) to_block)
                 (Z.max 1 (step / 2)) (retries + 1) pages)
        else
          if 2 <=? retries + 1 then
            after [EvQuery (request start end_); EvStart (end_ + 1)]
              (if max_pages <=? pages then ([], Returned tt)
               else curve_analyzer.paging_outer request query from_block to_block
                      progress_cb max_pages fuel (S n) (end_ + 1) step pages)
          else
            after [EvQuery (request start end_)]
              (curve_analyzer.paging_inner request query from_block to_block
                 progress_cb max_pages fuel (S n) start end_ step (retries + 1) pages)
    end.
Proof. reflexivity. Qed.

Lemma paging_outer_unfold {R A} (request : Z -> Z -> R)
    (query : nat -> R -> result (list A)) (from_block to_block : Z)
    (progress_cb : bool) (max_pages : Z) fuel n start step pages :
  curve_analyzer.paging_outer request query from_block to_block progress_cb max_pages
    (S fuel) n start step pages
  = if start <=? to_block then
      curve_analyzer.paging_inner request query from_block to_block progress_cb
        max_pages fuel n start (Z.min (start + step - 1) to_block) step 0 pages
    else ([], Returned tt).
Proof. reflexivity. Qed.

(** * The step only shrinks *)

Section step_shrinks.
Context {A : Type}.

Lemma fetch_event_logs_loop_steps (event : nat -> Z * Z -> result (list A)) to_block :
  forall fuel n start step,
    1 <= step ->
    shrinks_from step
      (step_values (analysis_curve_pool.fetch_event_logs_loop fuel event n to_block start step).1).
Proof.
  induction fuel as [| fuel IH]; intros n start step Hstep; [exact I |].
  cbn [analysis_curve_pool.fetch_event_logs_loop].
  destruct (start <=? to_block); [| exact I].
  destruct (event n _) as [logs | e].
  - trace_simpl. change (step_values (EvQuery _ :: ?t)) with (step_values t).
    trace_simpl. apply IH, Hstep.
  - destruct (is_range_limit_error e); [| exact I].
    repeat match goal with |- context [?a <? ?b] => destruct (Z.ltb_spec a b) end;
      trace_simpl; cbn; try (split; [dlia |]); apply IH; dlia.
Qed.

Lemma fetch_raw_logs_loop_steps (get_logs : nat -> log_filter -> result (list A))
    address topic0 to_block :
  forall fuel n start step,
    1 <= step ->
    shrinks_from step
      (step_values (analysis_curve_pool.fetch_raw_logs_loop fuel get_logs address topic0
                      n to_block start step).1).
Proof.
  induction fuel as [| fuel IH]; intros n start step Hstep; [exact I |].
  cbn [analysis_curve_pool.fetch_raw_logs_loop].
  destruct (start <=? to_block); [| exact I].
  destruct (get_logs n _) as [logs | e].
  - trace_simpl. change (step_values (EvQuery _ :: ?t)) with (step_values t).
    trace_simpl. apply IH, Hstep.
  - destruct (is_range_limit_error e); [| exact I].
    trace_simpl. cbn. split; [dlia |]. apply IH. dlia.
Qed.
End step_shrinks.

Section paging_step_shrinks.
Context {R A : Type}.
Variable request : Z -> Z -> R.
Variable query : nat -> R -> result (list A).
Variables from_block to_block : Z.
Variable progress_cb : bool.
Variable max_pages : Z.

Local Abbreviation outer := (curve_analyzer.paging_outer request query from_block to_block
                     progress_cb max_pages).
Local Abbreviation inner := (curve_analyzer.paging_inner request query from_block to_block
                     progress_cb max_pages).

Lemma paging_steps fuel :
  (forall n start step pages,
      1 <= step -> shrinks_from step (step_values (outer fuel n start step pages).1))
  /\ (forall n start end_ step retries pages,
      1 <= step ->
      shrinks_from step (step_values (inner fuel n start end_ step retries pages).1)).
Proof.
  induction fuel as [| fuel [IHo IHi]]; [split; intros; exact I |].
  split.
  - intros n start step pages Hstep. cbn [curve_analyzer.paging_outer].
    destruct (start <=? to_block); [apply IHi, Hstep | exact I].
  - intros n start end_ step retries pages Hstep. cbn [curve_analyzer.paging_inner].
    destruct (query n _) as [logs | e].
    + trace_simpl. change (step_values (EvQuery _ :: ?t)) with (step_values t).
      trace_simpl. destruct progress_cb; cbn;
        (destruct (max_pages <=? pages + 1); [exact I | apply IHo, Hstep]).
    + destruct (is_range_or_limit_error e).
      * destruct (5 <=? retries + 1).
        -- trace_simpl. destruct (max_pages <=? pages); [exact I | apply IHo, Hstep].
        -- trace_simpl. cbn. split; [dlia |]. apply IHi. lia.
      * destruct (2 <=? retries + 1).
        -- trace_simpl. destruct (max_pages <=? pages); [exact I | apply IHo, Hstep].
        -- trace_simpl. apply IHi, Hstep.
Qed.
End paging_step_shrinks.

(** C9.  In a call of any of the four fetchers that starts with [step >=
    1], however long it runs and whatever the queries answer, the values
    assigned to [step], in order, are each at least 1 and at most the value
    [step] had before the assignment. *)
Theorem step_never_grows {A B} (fuel : nat)
    (event : nat -> Z * Z -> result (list A))
    (get_logs : nat -> log_filter -> result (list B))
    `{Externals} (w3 : Web3) (address topic0 : string)
    (from_block to_block step : Z) (progress_cb : bool) (max_pages : Z) :
  1 <= step ->
  shrinks_from step (step_values
    (analysis_curve_pool.fetch_event_logs fuel event from_block to_block step).1)
  /\ shrinks_from step (step_values
    (analysis_curve_pool.fetch_raw_logs fuel get_logs address topic0
       from_block to_block step).1)
  /\ shrinks_from step (step_values
    (curve_analyzer.fetch_event_logs_adaptive fuel event from_block to_block step
       progress_cb max_pages).1)
  /\ shrinks_from step (step_values
    (curve_analyzer.fetch_token_exchange_raw fuel w3 address from_block to_block step
       progress_cb max_pages).1).
Proof.
  intros Hstep. repeat split.
  - apply fetch_event_logs_loop_steps, Hstep.
  - apply fetch_raw_logs_loop_steps, Hstep.
  - apply paging_steps, Hstep.
  - apply paging_steps, Hstep.
Qed.

Lemma step_never_grows_witness :
  let pool := "0x4eeb03b2b8f55159f47b3548faafe3efaff43eb9" in
  let event := token_exchange_get_logs capped_node pool in
  let topic0 := curve_analyzer.TOPIC_TOKEN_EX (H := rational_externals) in
  shrinks_from 1000 (step_values
    (analysis_curve_pool.fetch_event_logs 60 event 1000 1099 1000).1)
  /\ shrinks_from 1000 (step_values
    (analysis_curve_pool.fetch_raw_logs 60 (eth_get_logs capped_node) pool topic0
       1000 1099 1000).1)
  /\ shrinks_from 1000 (step_values
    (curve_analyzer.fetch_event_logs_adaptive 60 event 1000 1099 1000 true 20000).1)
  /\ shrinks_from 1000 (step_values
    (curve_analyzer.fetch_token_exchange_raw (H := rational_externals) 60 capped_node
       pool 1000 1099 1000 true 20000).1).
Proof.
  apply (step_never_grows (H := rational_externals) 60
           (token_exchange_get_logs capped_node "0x4eeb03b2b8f55159f47b3548faafe3efaff43eb9")
           (eth_get_logs capped_node) capped_node
           "0x4eeb03b2b8f55159f47b3548faafe3efaff43eb9"
           (curve_analyzer.TOPIC_TOKEN_EX (H := rational_externals))
           1000 1099 1000 true 20000).
  lia.
Defined.

(** A node that refuses windows wider than 37 blocks, over the hundred
    blocks [1000..1099] from [step = 1000].  The script's fetcher shrinks
    its window to ten blocks and covers the range.  The library's fetcher
    uses up its five attempts on the first window while it is still 62
    blocks wide, moves past it, and fetches the rest. *)
Example capped_node_scenario :
  let pool := "0x4eeb03b2b8f55159f47b3548faafe3efaff43eb9" in
  let event := token_exchange_get_logs capped_node pool in
  let script := analysis_curve_pool.fetch_event_logs 60 event 1000 1099 1000 in
  let library := curve_analyzer.fetch_event_logs_adaptive 60 event 1000 1099 1000
                   true 20000 in
  script.2 = Returned tt
  /\ step_values script.1 = [500; 250; 125; 50; 10]
  /\ start_values script.1
     = [1010; 1020; 1030; 1040; 1050; 1060; 1070; 1080; 1090; 1100]
  /\ library.2 = Returned tt
  /\ queries library.1
     = [(1000, 1099); (1000, 1099); (1000, 1099); (1000, 1099); (1000, 1061);
        (1062, 1099); (1062, 1092); (1093, 1099)]
  /\ step_values library.1 = [500; 250; 125; 62; 31]
  /\ start_values library.1 = [1062; 1093; 1100].
Proof. vm_compute. repeat split. Qed.

(** * Forward progress *)

Section script_progress.
Context {A : Type}.

(** [fetch_event_logs]: the values assigned to [start] increase, and the
    loop is over after at most [to_block - start + 1 + step] iterations. *)
Lemma fetch_event_logs_loop_starts (event : nat -> Z * Z -> result (list A)) to_block :
  forall fuel n start step,
    1 <= step ->
    increases_from start
      (start_values (analysis_curve_pool.fetch_event_logs_loop fuel event n to_block start step).1).
Proof.
  induction fuel as [| fuel IH]; intros n start step Hstep; [exact I |].
  cbn [analysis_curve_pool.fetch_event_logs_loop].
  destruct (Z.leb_spec start to_block); [| exact I].
  destruct (event n _) as [logs | e].
  - trace_simpl. change (start_values (EvQuery _ :: ?t)) with (start_values t).
    trace_simpl. cbn. split; [lia |]. apply IH, Hstep.
  - destruct (is_range_limit_error e); [| exact I].
    repeat match goal with |- context [?a <? ?b] => destruct (Z.ltb_spec a b) end;
      trace_simpl; cbn; try (split; [lia |]); apply IH; dlia.
Qed.

Lemma fetch_event_logs_loop_terminates (event : nat -> Z * Z -> result (list A)) to_block :
  forall fuel n start step,
    1 <= step ->
    (Z.to_nat (to_block + 1 - start + step) < fuel)%nat ->
    (analysis_curve_pool.fetch_event_logs_loop fuel event n to_block start step).2
      <> OutOfFuel.
Proof.
  induction fuel as [| fuel IH]; intros n start step Hstep Hfuel; [lia |].
  cbn [analysis_curve_pool.fetch_event_logs_loop].
  destruct (Z.leb_spec start to_block); [| discriminate].
  destruct (event n _) as [logs | e].
  - cbn [after snd]. apply IH; lia.
  - destruct (is_range_limit_error e); [| discriminate].
    repeat match goal with |- context [?a <? ?b] => destruct (Z.ltb_spec a b) end;
      cbn [after snd]; apply IH; dlia.
Qed.

(** [fetch_raw_logs]: the values assigned to [start] increase as well, but
    nothing bounds the number of iterations. *)
Lemma fetch_raw_logs_loop_starts (get_logs : nat -> log_filter -> result (list A))
    address topic0 to_block :
  forall fuel n start step,
    1 <= step ->
    increases_from start
      (start_values (analysis_curve_pool.fetch_raw_logs_loop fuel get_logs address topic0
                       n to_block start step).1).
Proof.
  induction fuel as [| fuel IH]; intros n start step Hstep; [exact I |].
  cbn [analysis_curve_pool.fetch_raw_logs_loop].
  destruct (Z.leb_spec start to_block); [| exact I].
  destruct (get_logs n _) as [logs | e].
  - trace_simpl. change (start_values (EvQuery _ :: ?t)) with (start_values t).
    trace_simpl. cbn. split; [lia |]. apply IH, Hstep.
  - destruct (is_range_limit_error e); [| exact I].
    trace_simpl. apply IH. dlia.
Qed.

(** When every query is refused for its range, [fetch_raw_logs] never
    assigns [start] and never leaves its loop. *)
Lemma fetch_raw_logs_loop_stalls (get_logs : nat -> log_filter -> result (list A))
    address topic0 to_block :
  (forall n req, exists e, get_logs n req = Raise e /\ is_range_limit_error e = true) ->
  forall fuel n start step,
    start <= to_block ->
    let run := analysis_curve_pool.fetch_raw_logs_loop fuel get_logs address topic0
                 n to_block start step in
    run.2 = OutOfFuel /\ start_values run.1 = [] /\ yields run.1 = [].
Proof.
  intros Hrefuse. induction fuel as [| fuel IH]; intros n start step Hle; [now cbn |].
  cbn [analysis_curve_pool.fetch_raw_logs_loop].
  destruct (Z.leb_spec start to_block); [| lia].
  destruct (Hrefuse n (LogFilter start (Z.min (start + step - 1) to_block) address [topic0]))
    as (e & -> & ->).
  destruct (IH (S n) start (Z.max 1 (step / 2)) Hle) as (Hout & Hstarts & Hyields).
  cbn zeta. trace_simpl. auto.
Qed.
End script_progress.

Section paging_progress.
Context {R A : Type}.
Variable request : Z -> Z -> R.
Variable query : nat -> R -> result (list A).
Variables from_block to_block : Z.
Variable progress_cb : bool.
Variable max_pages : Z.

Local Abbreviation outer := (curve_analyzer.paging_outer request query from_block to_block
                     progress_cb max_pages).
Local Abbreviation inner := (curve_analyzer.paging_inner request query from_block to_block
                     progress_cb max_pages).

(** The paging loop of the library: the values assigned to [start]
    increase. *)
Lemma paging_starts fuel :
  (forall n start step pages,
      1 <= step ->
      increases_from start (start_values (outer fuel n start step pages).1))
  /\ (forall n start end_ step retries pages,
      1 <= step -> start <= end_ -> start <= to_block ->
      increases_from start
        (start_values (inner fuel n start end_ step retries pages).1)).
Proof.
  induction fuel as [| fuel [IHo IHi]]; [split; intros; exact I |].
  split.
  - intros n start step pages Hstep. cbn [curve_analyzer.paging_outer].
    destruct (Z.leb_spec start to_block); [apply IHi; lia | exact I].
  - intros n start end_ step retries pages Hstep Hend Hto.
    cbn [curve_analyzer.paging_inner].
    destruct (query n _) as [logs | e].
    + trace_simpl. change (start_values (EvQuery _ :: ?t)) with (start_values t).
      trace_simpl. destruct progress_cb; cbn; (split; [lia |]);
        (destruct (max_pages <=? pages + 1); [exact I | apply IHo, Hstep]).
    + destruct (is_range_or_limit_error e).
      * destruct (5 <=? retries + 1).
        -- trace_simpl. cbn. split; [lia |].
           destruct (max_pages <=? pages); [exact I | apply IHo, Hstep].
        -- trace_simpl. apply IHi; dlia.
      * destruct (2 <=? retries + 1).
        -- trace_simpl. cbn. split; [lia |].
           destruct (max_pages <=? pages); [exact I | apply IHo, Hstep].
        -- trace_simpl. apply IHi; lia.
Qed.

(** It is over after at most six loop-head visits per block of the
    range: one of the outer loop and at most five of the inner one. *)
Lemma paging_terminates fuel :
  (forall n start step pages,
      1 <= step ->
      (6 * Z.to_nat (to_block + 1 - start) < fuel)%nat ->
      (outer fuel n start step pages).2 <> OutOfFuel)
  /\ (forall n start end_ step retries pages,
      1 <= step -> start <= end_ -> start <= to_block -> 0 <= retries <= 4 ->
      (6 * Z.to_nat (to_block - start) + Z.to_nat (5 - retries) < fuel)%nat ->
      (inner fuel n start end_ step retries pages).2 <> OutOfFuel).
Proof.
  induction fuel as [| fuel [IHo IHi]]; [split; intros; lia |].
  split.
  - intros n start step pages Hstep Hfuel. cbn [curve_analyzer.paging_outer].
    destruct (Z.leb_spec start to_block); [apply IHi; lia | discriminate].
  - intros n start end_ step retries pages Hstep Hend Hto Hretries Hfuel.
    cbn [curve_analyzer.paging_inner].
    destruct (query n _) as [logs | e].
    + cbn [after snd].
      destruct (max_pages <=? pages + 1); [discriminate | apply IHo; lia].
    + destruct (is_range_or_limit_error e).
      * destruct (Z.leb_spec 5 (retries + 1)); cbn [after snd].
        -- destruct (max_pages <=? pages); [discriminate | apply IHo; lia].
        -- apply IHi; dlia.
      * destruct (Z.leb_spec 2 (retries + 1)); cbn [after snd].
        -- destruct (max_pages <=? pages); [discriminate | apply IHo; lia].
        -- apply IHi; lia.
Qed.
End paging_progress.

(** The three fetchers the forward-progress property names, side by side.
    The two that skip a window they cannot fetch always finish, within a
    number of iterations bounded by the size of the range plus the retries;
    in all three, [start] only moves forward. *)
Lemma fetchers_that_skip_terminate {A} (event : nat -> Z * Z -> result (list A))
    (from_block to_block step : Z) (progress_cb : bool) (max_pages : Z) (fuel : nat) :
  1 <= step -> from_block <= to_block ->
  (6 * Z.to_nat (to_block - from_block + 1 + step) < fuel)%nat ->
  (analysis_curve_pool.fetch_event_logs fuel event from_block to_block step).2 <> OutOfFuel
  /\ (curve_analyzer.fetch_event_logs_adaptive fuel event from_block to_block step
        progress_cb max_pages).2 <> OutOfFuel.
Proof.
  intros Hstep Hrange Hfuel. split.
  - apply fetch_event_logs_loop_terminates; [exact Hstep | lia].
  - apply paging_terminates; [exact Hstep | lia].
Qed.

Lemma fetchers_move_forward {A} (event : nat -> Z * Z -> result (list A))
    (get_logs : nat -> log_filter -> result (list A)) (address topic0 : string)
    (from_block to_block step : Z) (progress_cb : bool) (max_pages : Z) (fuel : nat) :
  1 <= step ->
  increases_from from_block (start_values
    (analysis_curve_pool.fetch_event_logs fuel event from_block to_block step).1)
  /\ increases_from from_block (start_values
    (analysis_curve_pool.fetch_raw_logs fuel get_logs address topic0
       from_block to_block step).1)
  /\ increases_from from_block (start_values
    (curve_analyzer.fetch_event_logs_adaptive fuel event from_block to_block step
       progress_cb max_pages).1).
Proof.
  intros Hstep. repeat split.
  - apply fetch_event_logs_loop_starts, Hstep.
  - apply fetch_raw_logs_loop_starts, Hstep.
  - apply paging_starts, Hstep.
Qed.

(** C1 fails on [fetch_raw_logs].  Over the blocks
    [17000000..17000050] with the default [step = 1000], against a node
    that refuses every query for its block range, the loop never assigns
    [start], yields nothing and never ends: whatever the number of
    iterations allowed, the call has not returned.  This is the situation
    [fetch_event_logs] gives up on ("to avoid infinite loop") and
    [fetch_event_logs_adaptive] skips ("to guarantee forward progress"). *)
Theorem fetch_raw_logs_never_returns :
  forall fuel : nat,
    let run := analysis_curve_pool.fetch_raw_logs (A := raw_log) fuel
                 (fun _ _ => Raise (Exn "ValueError" "exceed maximum block range: 5000"))
                 "0x4eeb03b2b8f55159f47b3548faafe3efaff43eb9"
                 "0x8b3e96f2b889fa771c53c981b40daf005f63f637f1869f707052d15a3dd97140"
                 17000000 17000050 1000 in
    run.2 = OutOfFuel /\ start_values run.1 = [] /\ yields run.1 = [].
Proof.
  intros fuel. apply fetch_raw_logs_loop_stalls; [| lia].
  intros n req. eexists. split; [reflexivity | vm_compute; reflexivity].
Qed.

(** Against the same node and over the same range, the two sibling
    fetchers return, having moved [start] past the range. *)
Example siblings_return_where_fetch_raw_logs_stalls :
  let refuse : nat -> Z * Z -> result (list event_log) :=
    fun _ _ => Raise (Exn "ValueError" "exceed maximum block range: 5000") in
  let script := analysis_curve_pool.fetch_event_logs 400 refuse 17000000 17000050 1000 in
  let library := curve_analyzer.fetch_event_logs_adaptive 400 refuse 17000000 17000050
                   1000 false 20000 in
  script.2 = Returned tt /\ last (start_values script.1) = Some 17000051
  /\ library.2 = Returned tt /\ last (start_values library.1) = Some 17000051.
Proof. vm_compute. repeat split. Qed.

(** * Which failures count as capacity errors *)

Lemma startswith_append_l (a b s : string) :
  startswith (String.append a b) s = true -> startswith a s = true.
Proof.
  revert s. induction a as [| c a IH]; intros s Hs; [reflexivity |].
  change (String.append (String c a) b) with (String c (String.append a b)) in Hs.
  destruct s as [| d s]; [discriminate |]. cbn [startswith] in *.
  destruct (Ascii.eqb c d); [apply IH, Hs | discriminate].
Qed.

Lemma contains_tail (sub : string) (c : ascii) (s : string) :
  contains sub s = true -> contains sub (String c s) = true.
Proof. intros Hs. cbn. rewrite Hs. apply orb_true_r. Qed.

Lemma startswith_contains_r (a b s : string) :
  startswith (String.append a b) s = true -> contains b s = true.
Proof.
  revert s. induction a as [| c a IH]; intros s Hs.
  - change (String.append EmptyString b) with b in Hs.
    destruct s; cbn [contains]; rewrite Hs; reflexivity.
  - change (String.append (String c a) b) with (String c (String.append a b)) in Hs.
    destruct s as [| d s]; [discriminate |]. cbn [startswith] in Hs.
    destruct (Ascii.eqb c d); [| discriminate]. apply contains_tail, IH, Hs.
Qed.

Lemma contains_append_l (a b s : string) :
  contains (String.append a b) s = true -> contains a s = true.
Proof.
  induction s as [| d s IH]; cbn; intros Hs.
  - apply orb_true_iff in Hs as [Hs | Hs]; [| discriminate].
    apply startswith_append_l in Hs. rewrite Hs. reflexivity.
  - apply orb_true_iff in Hs as [Hs | Hs].
    + apply startswith_append_l in Hs. rewrite Hs. reflexivity.
    + rewrite (IH Hs). apply orb_true_r.
Qed.

Lemma contains_append_r (a b s : string) :
  contains (String.append a b) s = true -> contains b s = true.
Proof.
  induction s as [| d s IH]; intros Hs.
  - cbn in Hs. apply orb_true_iff in Hs as [Hs | Hs]; [| discriminate].
    apply (startswith_contains_r a b), Hs.
  - cbn in Hs. apply orb_true_iff in Hs as [Hs | Hs].
    + apply (startswith_contains_r a b), Hs.
    + apply contains_tail, IH, Hs.
Qed.

(** Whatever the script's fetchers shrink on, the library's shrink on
    too. *)
Lemma range_limit_is_range_or_limit (e : exn) :
  is_range_limit_error e = true -> is_range_or_limit_error e = true.
Proof.
  unfold is_range_limit_error, is_range_or_limit_error. cbn zeta.
  intros Hthree. apply orb_true_iff.
  apply orb_true_iff in Hthree as [Hthree | Hthree];
    [apply orb_true_iff in Hthree as [Hthree | Hthree] |].
  - left. apply (contains_append_l "range" " limit"), Hthree.
  - right. apply (contains_append_l "limit" " exceeded"), Hthree.
  - left. apply (contains_append_r "block " "range"), Hthree.
Qed.




(** * Coverage when no query fails *)

Section coverage.
Context {R A : Type}.
Variable request : Z -> Z -> R.
Variable query : nat -> R -> result (list A).
Variable answer : Z -> Z -> list A.
Variables from_block to_block step : Z.
Variable max_pages : Z.
Hypothesis never_fails : forall n s e, query n (request s e) = Ok (answer s e).
Hypothesis additive :
  forall s m e, s <= m -> m < e -> answer s e = answer s m ++ answer (m + 1) e.
Hypothesis step_pos : 1 <= step.
Hypothesis range : from_block <= to_block.

Local Abbreviation outer := (curve_analyzer.paging_outer request query from_block to_block
                     true max_pages).
Local Abbreviation inner := (curve_analyzer.paging_inner request query from_block to_block
                     true max_pages).

Lemma progress_of_last :
  curve_analyzer.progress_of from_block to_block to_block = 1%Q.
Proof.
  unfold curve_analyzer.progress_of, curve_analyzer.total, Qmin, GenericMinMax.gmin.
  replace (Z.max 1 (to_block - from_block + 1)) with (to_block - from_block + 1) by lia.
  unfold Qcompare. cbn [Qnum Qden].
  rewrite Z2Pos.id by lia.
  replace (1 * (to_block - from_block + 1) ?= (to_block - from_block + 1) * 1)
    with Eq; [reflexivity |].
  symmetry. apply Z.compare_eq_iff. lia.
Qed.

Lemma tiles_answer ws :
  forall start, tiles start to_block step ws -> start <= to_block ->
    flat_map (fun w => answer w.1 w.2) ws = answer start to_block.
Proof.
  induction ws as [| w ws IH]; intros start Htiles Hstart; cbn in Htiles; [lia |].
  destruct Htiles as (_ & -> & Htiles). cbn [flat_map fst snd] in *.
  destruct (Z_lt_dec (Z.min (start + step - 1) to_block) to_block) as [Hlt | Hge].
  - rewrite (IH _ Htiles) by lia. symmetry. apply additive; lia.
  - replace (Z.min (start + step - 1) to_block) with to_block in * by lia.
    destruct ws as [| w' ws]; [apply app_nil_r |].
    cbn in Htiles. lia.
Qed.

Lemma paging_covers fuel :
  (forall n start pages,
      to_block + 1 - start <= step * (max_pages - pages) ->
      (2 * Z.to_nat (to_block + 1 - start) < fuel)%nat ->
      exists ws,
        tiles start to_block step ws
        /\ (outer fuel n start step pages).2 = Returned tt
        /\ queries (outer fuel n start step pages).1 = map (fun w => request w.1 w.2) ws
        /\ yields (outer fuel n start step pages).1 = flat_map (fun w => answer w.1 w.2) ws
        /\ (start <= to_block ->
            last (progress_values (outer fuel n start step pages).1) = Some 1%Q)
        /\ (to_block < start -> (outer fuel n start step pages).1 = []))
  /\ (forall n start retries pages,
      start <= to_block ->
      to_block + 1 - start <= step * (max_pages - pages) ->
      (2 * Z.to_nat (to_block + 1 - start) <= fuel)%nat ->
      let run := inner fuel n start (Z.min (start + step - 1) to_block) step retries pages in
      exists ws,
        tiles start to_block step ws
        /\ run.2 = Returned tt
        /\ queries run.1 = map (fun w => request w.1 w.2) ws
        /\ yields run.1 = flat_map (fun w => answer w.1 w.2) ws
        /\ last (progress_values run.1) = Some 1%Q).
Proof.
  induction fuel as [| fuel [IHo IHi]]; [split; intros; lia |].
  split.
  - intros n start pages Hfit Hfuel. rewrite paging_outer_unfold.
    destruct (Z.leb_spec start to_block) as [Hle | Hgt].
    + destruct (IHi n start 0 pages Hle Hfit) as (ws & Ht & Hrun & Hq & Hy & Hp); [lia |].
      exists ws. repeat split; auto. lia.
    + exists []. cbn. repeat split; auto; lia.
  - intros n start retries pages Hle Hfit Hfuel run. subst run.
    rewrite paging_inner_unfold, never_fails.
    set (end_ := Z.min (start + step - 1) to_block).
    destruct (Z.leb_spec max_pages (pages + 1)) as [Hfull | Hroom].
    + assert (Hend : end_ = to_block) by (subst end_; nia).
      exists [(start, end_)]. trace_simpl.
      change (queries (EvQuery ?r :: ?t)) with (r :: queries t).
      change (yields (EvQuery _ :: ?t)) with (yields t).
      change (progress_values (EvQuery _ :: ?t)) with (progress_values t).
      trace_simpl. trace_eval. rewrite !app_nil_r.
      split; [| split; [| split; [| split]]]; try reflexivity.
      * cbn. split; [lia | split; [reflexivity | lia]].
      * cbn. symmetry. apply app_nil_r.
      * cbn. rewrite Hend, progress_of_last. reflexivity.
    + destruct (IHo (S n) (end_ + 1) (pages + 1))
        as (ws & Ht & Hrun & Hq & Hy & Hp & Hnil);
        [subst end_; nia | subst end_; lia |].
      exists ((start, end_) :: ws). trace_simpl.
      change (queries (EvQuery ?r :: ?t)) with (r :: queries t).
      change (yields (EvQuery _ :: ?t)) with (yields t).
      change (progress_values (EvQuery _ :: ?t)) with (progress_values t).
      trace_simpl. trace_eval.
      split; [| split; [| split; [| split]]].
      * cbn. repeat split; auto.
      * exact Hrun.
      * cbn. rewrite Hq. reflexivity.
      * cbn. rewrite Hy, app_nil_r. reflexivity.
      * cbn [app]. rewrite last_cons.
        destruct (Z_lt_dec end_ to_block) as [Hlt | Hge].
        -- rewrite Hp by lia. reflexivity.
        -- assert (Hend : end_ = to_block) by (subst end_; lia).
           rewrite Hnil by lia. cbn. rewrite Hend, progress_of_last. reflexivity.
Qed.
End coverage.

Lemma paging_covers_range {R A} (request : Z -> Z -> R)
    (query : nat -> R -> result (list A)) (answer : Z -> Z -> list A)
    (from_block to_block step max_pages : Z) (fuel : nat) :
  (forall n s e, query n (request s e) = Ok (answer s e)) ->
  (forall s m e, s <= m -> m < e -> answer s e = answer s m ++ answer (m + 1) e) ->
  1 <= step -> from_block <= to_block ->
  to_block - from_block + 1 <= step * max_pages ->
  (2 * Z.to_nat (to_block - from_block + 1) < fuel)%nat ->
  covers request answer from_block to_block step
    (curve_analyzer.paging_outer request query from_block to_block true max_pages
       fuel 0 from_block step 0).
Proof.
  intros Hq Hadd Hstep Hrange Hpages Hfuel.
  destruct (proj1 (paging_covers request query answer from_block to_block step
                     max_pages Hq Hstep Hrange fuel) 0%nat from_block 0)
    as (ws & Ht & Hrun & Hqs & Hy & Hp & _); [lia | lia |].
  unfold covers. split; [exact Hrun |]. split; [exists ws; auto |].
  split; [| auto].
  rewrite Hy. eapply tiles_answer; eauto.
Qed.

(** C3.  Against a node whose queries never fail and whose answer for a
    range is the answers for its two halves put together, a call of
    [fetch_event_logs_adaptive] or of [fetch_token_exchange_raw] over
    [from_block..to_block] with [step >= 1], a callback, and [max_pages] no
    smaller than the number of sub-windows returns after having queried
    each sub-window once, in order; the entries it yields are the answers
    to these queries, in order, which is the answer to one query over the
    whole range; and the last value handed to [progress_cb] is 1. *)
Theorem coverage_without_errors {A} `{Externals} (w3 : Web3)
    (event : nat -> Z * Z -> result (list A))
    (logs_in : Z -> Z -> list A) (raw_in : Z -> Z -> list raw_log)
    (address : string) (from_block to_block step max_pages : Z) (fuel : nat) :
  1 <= step -> from_block <= to_block ->
  to_block - from_block + 1 <= step * max_pages ->
  (2 * Z.to_nat (to_block - from_block + 1) < fuel)%nat ->
  (forall n s e, event n (s, e) = Ok (logs_in s e)) ->
  (forall s m e, s <= m -> m < e -> logs_in s e = logs_in s m ++ logs_in (m + 1) e) ->
  (forall n s e,
      eth_get_logs w3 n (LogFilter s e address [curve_analyzer.TOPIC_TOKEN_EX])
      = Ok (raw_in s e)) ->
  (forall s m e, s <= m -> m < e -> raw_in s e = raw_in s m ++ raw_in (m + 1) e) ->
  covers pair logs_in from_block to_block step
    (curve_analyzer.fetch_event_logs_adaptive fuel event from_block to_block step
       true max_pages)
  /\ covers (fun s e => LogFilter s e address [curve_analyzer.TOPIC_TOKEN_EX])
       raw_in from_block to_block step
       (curve_analyzer.fetch_token_exchange_raw fuel w3 address from_block to_block
          step true max_pages).
Proof.
  intros Hstep Hrange Hpages Hfuel Hevent Hadd Hraw Hradd. split.
  - apply paging_covers_range; auto.
  - apply (paging_covers_range
             (fun s e => LogFilter s e address [curve_analyzer.TOPIC_TOKEN_EX])
             (eth_get_logs w3) raw_in); auto.
Qed.

Lemma coverage_without_errors_witness :
  covers pair (fun _ _ => @nil event_log) 1000 1099 37
    (curve_analyzer.fetch_event_logs_adaptive 201
       (token_exchange_get_logs quiet_node "0x4eeb03b2b8f55159f47b3548faafe3efaff43eb9")
       1000 1099 37 true 20000)
  /\ covers (fun s e => LogFilter s e "0x4eeb03b2b8f55159f47b3548faafe3efaff43eb9"
                          [curve_analyzer.TOPIC_TOKEN_EX (H := rational_externals)])
       (fun _ _ => @nil raw_log) 1000 1099 37
       (curve_analyzer.fetch_token_exchange_raw (H := rational_externals) 201 quiet_node
          "0x4eeb03b2b8f55159f47b3548faafe3efaff43eb9" 1000 1099 37 true 20000).
Proof.
  apply (coverage_without_errors (H := rational_externals) quiet_node
           (token_exchange_get_logs quiet_node "0x4eeb03b2b8f55159f47b3548faafe3efaff43eb9")
           (fun _ _ => []) (fun _ _ => [])
           "0x4eeb03b2b8f55159f47b3548faafe3efaff43eb9" 1000 1099 37 20000 201).
  - lia.
  - lia.
  - lia.
  - vm_compute. lia.
  - reflexivity.
  - reflexivity.
  - reflexivity.
  - reflexivity.
Defined.

(** C4.  With a timestamp oracle that answers on every block of
    [lo..hi] and is non-decreasing there, [block_at_timestamp] of either
    module returns the first block of the range whose timestamp is at least
    the target: [lo] when the target is below every timestamp, [hi] when it
    is above all of them.  The library version searches up to the chain
    head, [w3.eth.block_number], as does the script's when [end] is left
    out. *)
Theorem block_at_timestamp_locates (w3 : Web3) (ts_of : Z -> Z) (ts lo hi : Z) :
  lo <= hi ->
  (forall b, lo <= b <= hi -> eth_get_block w3 b = Ok (ts_of b)) ->
  (forall a b, lo <= a -> a <= b -> b <= hi -> ts_of a <= ts_of b) ->
  (exists r, analysis_curve_pool.block_at_timestamp w3 ts lo (Some hi) = Ok r
             /\ located ts_of ts lo hi r)
  /\ (eth_block_number w3 = hi ->
      exists r, curve_analyzer.block_at_timestamp w3 ts lo = Ok r
                /\ analysis_curve_pool.block_at_timestamp w3 ts lo None = Ok r
                /\ located ts_of ts lo hi r).
Proof.
  intros Hle Horacle Hmono.
  destruct (bisect_blocks_located (eth_get_block w3) ts_of ts lo hi Horacle Hmono Hle)
    as (r & Hr & Hloc).
  split.
  - exists r. split; [exact Hr | exact Hloc].
  - intros Hhead. exists r.
    unfold curve_analyzer.block_at_timestamp, analysis_curve_pool.block_at_timestamp.
    rewrite Hhead. auto.
Qed.

Lemma block_at_timestamp_locates_witness :
  (exists r, analysis_curve_pool.block_at_timestamp quiet_node 1600006000 0 (Some 1000) = Ok r
             /\ located (fun b => 1600000000 + 12 * b) 1600006000 0 1000 r)
  /\ (eth_block_number quiet_node = 1000 ->
      exists r, curve_analyzer.block_at_timestamp quiet_node 1600006000 0 = Ok r
                /\ analysis_curve_pool.block_at_timestamp quiet_node 1600006000 0 None = Ok r
                /\ located (fun b => 1600000000 + 12 * b) 1600006000 0 1000 r).
Proof.
  apply (block_at_timestamp_locates quiet_node (fun b => 1600000000 + 12 * b)
           1600006000 0 1000).
  - lia.
  - intros b _. reflexivity.
  - intros a b _ Hab _. lia.
Defined.

Example block_at_timestamp_run :
  curve_analyzer.block_at_timestamp quiet_node 1600006000 0 = Ok 500
  /\ curve_analyzer.block_at_timestamp quiet_node 1600006001 0 = Ok 501
  /\ curve_analyzer.block_at_timestamp quiet_node 0 0 = Ok 0
  /\ curve_analyzer.block_at_timestamp quiet_node 1700000000 0 = Ok 1000.
Proof. vm_compute. auto. Qed.

(** * Pool metadata *)

(** C7, as the code has it.  For a pool whose [coins(0)] and [coins(1)]
    answer, [get_pool_meta] calls [coins(0)], [coins(1)], then [symbol()]
    on each token and [decimals()] on each token, and returns the metadata
    in which a symbol that could not be read is "T0" for the first token
    and "T1" for the second, and decimals that could not be read are 18.
    The script's start-up code reads the same values by the same calls. *)
Theorem get_pool_meta_defaults (w3 : Web3) (pool_addr c0 c1 : string) :
  call_coins w3 pool_addr 0 = Ok c0 ->
  call_coins w3 pool_addr 1 = Ok c1 ->
  let calls := [Rpc_coins pool_addr 0; Rpc_coins pool_addr 1;
                Rpc_symbol c0; Rpc_symbol c1; Rpc_decimals c0; Rpc_decimals c1] in
  let s0 := match call_symbol w3 c0 with Ok s => s | Raise _ => "T0" end in
  let s1 := match call_symbol w3 c1 with Ok s => s | Raise _ => "T1" end in
  let d0 := match call_decimals w3 c0 with Ok d => d | Raise _ => 18 end in
  let d1 := match call_decimals w3 c1 with Ok d => d | Raise _ => 18 end in
  (exists meta,
      curve_analyzer.get_pool_meta w3 pool_addr = (calls, Ok meta)
      /\ curve_analyzer.address meta = pool_addr
      /\ curve_analyzer.coin0 meta = c0 /\ curve_analyzer.coin1 meta = c1
      /\ curve_analyzer.sym0 meta = s0 /\ curve_analyzer.sym1 meta = s1
      /\ curve_analyzer.dec0 meta = d0 /\ curve_analyzer.dec1 meta = d1)
  /\ analysis_curve_pool.token_metadata w3 pool_addr
     = (calls, Ok (c0, c1, s0, s1, d0, d1)).
Proof.
  intros Hc0 Hc1 calls s0 s1 d0 d1. subst calls s0 s1 d0 d1.
  unfold curve_analyzer.get_pool_meta, analysis_curve_pool.token_metadata,
    analysis_curve_pool.safe, io_call, io_bind, io_try, io_ret, after.
  rewrite Hc0. cbn. rewrite Hc1. cbn.
  destruct (call_symbol w3 c0), (call_symbol w3 c1),
    (call_decimals w3 c0), (call_decimals w3 c1); cbn;
    (split; [eexists; repeat split; reflexivity | reflexivity]).
Qed.

Lemma get_pool_meta_defaults_witness :
  let pool := "0x4eeb03b2b8f55159f47b3548faafe3efaff43eb9" in
  let c0 := "0x15700B564Ca08D9439C58cA5053166E8317aa138" in
  let c1 := "0xCAcd6fd266aF91b8AeD52aCCc382b4e165586E29" in
  let calls := [Rpc_coins pool 0; Rpc_coins pool 1;
                Rpc_symbol c0; Rpc_symbol c1; Rpc_decimals c0; Rpc_decimals c1] in
  (exists meta,
      curve_analyzer.get_pool_meta bare_pool_node pool = (calls, Ok meta)
      /\ curve_analyzer.address meta = pool
      /\ curve_analyzer.coin0 meta = c0 /\ curve_analyzer.coin1 meta = c1
      /\ curve_analyzer.sym0 meta = "T0" /\ curve_analyzer.sym1 meta = "T1"
      /\ curve_analyzer.dec0 meta = 18 /\ curve_analyzer.dec1 meta = 18)
  /\ analysis_curve_pool.token_metadata bare_pool_node pool
     = (calls, Ok (c0, c1, "T0", "T1", 18, 18)).
Proof.
  apply (get_pool_meta_defaults bare_pool_node
           "0x4eeb03b2b8f55159f47b3548faafe3efaff43eb9"
           "0x15700B564Ca08D9439C58cA5053166E8317aa138"
           "0xCAcd6fd266aF91b8AeD52aCCc382b4e165586E29").
  - reflexivity.
  - reflexivity.
Defined.

(** C7 as stated fails on the symbols.  Reading the metadata of a pool
    whose tokens have no [symbol()] gives the symbols "T0" and "T1", not
    "Token0" and "Token1"; the decimals do default to 18. *)
Lemma unreadable_symbols_default_to_T0_T1 :
  exists meta,
    (curve_analyzer.get_pool_meta bare_pool_node
       "0x4eeb03b2b8f55159f47b3548faafe3efaff43eb9").2 = Ok meta
    /\ curve_analyzer.sym0 meta = "T0" /\ curve_analyzer.sym0 meta <> "Token0"
    /\ curve_analyzer.sym1 meta = "T1" /\ curve_analyzer.sym1 meta <> "Token1"
    /\ curve_analyzer.dec0 meta = 18 /\ curve_analyzer.dec1 meta = 18.
Proof.
  eexists. split; [vm_compute; reflexivity |].
  cbn. repeat split; discriminate.
Qed.

(** * The resolver *)

Lemma str_or_empty (s : string) : str_or s "" = s.
Proof. destruct s; reflexivity. Qed.

Lemma rstrip_idempotent (s : string) : rstrip (rstrip s) = rstrip s.
Proof.
  induction s as [| c s IH]; [reflexivity |].
  cbn [rstrip]. destruct (rstrip s) as [| d r] eqn:Hr.
  - destruct (is_space c) eqn:Hc; [reflexivity |]. cbn [rstrip]. rewrite Hc. reflexivity.
  - change (rstrip (String c (String d r)))
      with (match rstrip (String d r) with
            | EmptyString => if is_space c then EmptyString else String c EmptyString
            | String _ _ as r' => String c r'
            end).
    rewrite IH. reflexivity.
Qed.

Lemma lstrip_hex_prefix (s : string) : startswith "0x" s = true -> lstrip s = s.
Proof.
  destruct s as [| c s]; [reflexivity |]. cbn [startswith lstrip].
  destruct (Ascii.eqb_spec "0" c) as [<- | Hne]; [reflexivity | discriminate].
Qed.

Lemma startswith_http_hex (s : string) :
  startswith "0x" s = true -> startswith "http" s = false.
Proof.
  destruct s as [| c s]; [reflexivity |]. cbn [startswith].
  destruct (Ascii.eqb_spec "0" c) as [<- | Hne]; [reflexivity | discriminate].
Qed.

(** C8.  When the input, once trimmed, is "0x" followed by 40 more
    characters that [to_checksum_address] accepts, and [coins(0)] answers
    on that address, [resolve_pool_from_input] returns the address after
    that single call: neither [minter()] nor the registry is asked. *)
Theorem resolve_pool_short_circuits `{Externals} (w3 : Web3)
    (user_input addr : string) :
  startswith "0x" (strip user_input) = true ->
  String.length (strip user_input) = 42%nat ->
  to_checksum_address (strip user_input) = Ok addr ->
  is_ok (call_coins w3 addr 0) = true ->
  curve_analyzer.resolve_pool_from_input w3 user_input
  = ([Rpc_coins addr 0], Ok addr).
Proof.
  intros Hhex Hlen Hsum Hprobe.
  unfold curve_analyzer.resolve_pool_from_input.
  rewrite str_or_empty, (startswith_http_hex _ Hhex).
  assert (Hstrip : strip (strip user_input) = strip user_input).
  { unfold strip at 1. rewrite (lstrip_hex_prefix _ Hhex).
    unfold strip. apply rstrip_idempotent. }
  cbn zeta. rewrite Hstrip, Hhex, Hlen, Hsum. cbn [andb Nat.eqb].
  unfold io_lift, io_bind, io_try, io_call, io_ret, after. cbn [fst snd app].
  destruct (call_coins w3 addr 0); [reflexivity | discriminate].
Qed.

Lemma resolve_pool_short_circuits_witness :
  curve_analyzer.resolve_pool_from_input (H := rational_externals) bare_pool_node
    "  0x4eeb03b2b8f55159f47b3548faafe3efaff43eb9 "
  = ([Rpc_coins "0x4eeb03b2b8f55159f47b3548faafe3efaff43eb9" 0],
     Ok "0x4eeb03b2b8f55159f47b3548faafe3efaff43eb9").
Proof.
  apply (resolve_pool_short_circuits (H := rational_externals) bare_pool_node
           "  0x4eeb03b2b8f55159f47b3548faafe3efaff43eb9 "
           "0x4eeb03b2b8f55159f47b3548faafe3efaff43eb9").
  - reflexivity.
  - reflexivity.
  - reflexivity.
  - reflexivity.
Defined.

(** The other paths are taken when the probe fails: on a node where
    nothing answers, the resolver asks [coins(0)], then [minter()], then
    the address provider, and raises. *)
Example resolve_pool_falls_through :
  (curve_analyzer.resolve_pool_from_input (H := rational_externals) quiet_node
     "0x4eeb03b2b8f55159f47b3548faafe3efaff43eb9").1
  = [Rpc_coins "0x4eeb03b2b8f55159f47b3548faafe3efaff43eb9" 0;
     Rpc_minter "0x4eeb03b2b8f55159f47b3548faafe3efaff43eb9";
     Rpc_get_registry curve_analyzer.CURVE_ADDRESS_PROVIDER].
Proof. reflexivity. Qed.

(** * The raw decode path *)

Lemma abi_decode_address_first (types : list abi_type) (buyer rest : list byte) :
  List.length buyer = 20%nat ->
  abi_decode (abi_address :: types) (replicate 12 x00 ++ buyer ++ rest)
  = result_bind (abi_decode types rest) (fun vs => Ok (AbiAddress buyer :: vs)).
Proof.
  intros Hlen. cbn [abi_decode].
  assert (Hword : List.length (replicate 12 x00 ++ buyer) = 32%nat)
    by (rewrite length_app, length_replicate; lia).
  rewrite (app_assoc (replicate 12 x00) buyer rest).
  replace (List.length ((replicate 12 x00 ++ buyer) ++ rest) <? 32)%nat with false
    by (symmetry; apply Nat.ltb_ge; rewrite length_app; lia).
  rewrite (take_app_length' _ rest 32) by (symmetry; exact Hword).
  rewrite (drop_app_length' _ rest 32) by (symmetry; exact Hword).
  unfold decode_word.
  rewrite (take_app_length' (replicate 12 x00) buyer 12) by reflexivity.
  rewrite (drop_app_length' (replicate 12 x00) buyer 12) by reflexivity.
  reflexivity.
Qed.

(** With one topic the five parameters, buyer first, come out of [data];
    the last four are what the other branch decodes from [data] without
    the buyer's word. *)
Lemma decode_token_exchange_one_topic (t0 : list byte) (topics : list (list byte))
    (buyer rest : list byte) :
  List.length buyer = 20%nat ->
  List.length topics <> 1%nat ->
  curve_analyzer.decode_token_exchange [t0] (replicate 12 x00 ++ buyer ++ rest)
  = match curve_analyzer.decode_token_exchange topics rest with
    | Ok (_, sold_id, tokens_sold, bought_id, tokens_bought) =>
        Ok (Some buyer, sold_id, tokens_sold, bought_id, tokens_bought)
    | Raise e => Raise e
    end.
Proof.
  intros Hlen Htopics. unfold curve_analyzer.decode_token_exchange.
  replace (List.length topics =? 1)%nat with false
    by (symmetry; apply Nat.eqb_neq, Htopics).
  change (List.length [t0] =? 1)%nat with true. cbv iota.
  rewrite abi_decode_address_first by exact Hlen.
  destruct (abi_decode _ rest) as [vs | e]; [| reflexivity].
  cbn [result_bind].
  repeat (try reflexivity;
          match goal with
          | |- context [match ?l with [] => _ | _ :: _ => _ end] =>
              is_var l; destruct l as [| [? | ?] ?]
          end).
Qed.

(** With any other number of topics the buyer is not bound and the
    topics are not looked at. *)
Lemma decode_token_exchange_other_topics (topics : list (list byte)) (data : list byte) :
  List.length topics <> 1%nat ->
  curve_analyzer.decode_token_exchange topics data = curve_analyzer.decode_token_exchange [] data
  /\ forall params, curve_analyzer.decode_token_exchange topics data = Ok params ->
                    params.1.1.1.1 = None.
Proof.
  intros Htopics. unfold curve_analyzer.decode_token_exchange.
  replace (List.length topics =? 1)%nat with false
    by (symmetry; apply Nat.eqb_neq, Htopics).
  cbn [List.length Nat.eqb]. split; [reflexivity |].
  intros params.
  destruct (abi_decode _ data) as [vs | e]; [| discriminate].
  repeat (try discriminate;
          match goal with
          | |- context [match ?l with [] => _ | _ :: _ => _ end] =>
              is_var l; destruct l as [| [? | ?] ?]
          end).
  intros [= <-]. reflexivity.
Qed.

(** C5, as the code has it.  A raw entry with exactly one topic has all
    five parameters decoded from [data], the buyer's address first.  An
    entry with two topics has the four remaining parameters decoded from
    [data]; its second topic is not read and no buyer is bound.  A
    one-topic entry and a two-topic entry of the same block and
    transaction whose payloads differ only by the buyer's word give the
    same outcome: the same row, the same omission or the same error. *)
Theorem raw_decode_shapes `{Externals} (w3 : Web3)
    (dec_by_index : gmap Z Z) (sym_by_index : gmap Z string) (cache : gmap Z Z)
    (blk : Z) (tx : list byte) (emitter : string)
    (t0 t1 buyer rest : list byte) :
  List.length buyer = 20%nat ->
  let one := RawLog blk [t0] (DataBytes (replicate 12 x00 ++ buyer ++ rest)) tx emitter in
  let two := RawLog blk [t0; t1] (DataBytes rest) tx emitter in
  curve_analyzer.decode_token_exchange [t0] (replicate 12 x00 ++ buyer ++ rest)
  = match curve_analyzer.decode_token_exchange [t0; t1] rest with
    | Ok (_, sold_id, tokens_sold, bought_id, tokens_bought) =>
        Ok (Some buyer, sold_id, tokens_sold, bought_id, tokens_bought)
    | Raise e => Raise e
    end
  /\ (forall t1', curve_analyzer.decode_token_exchange [t0; t1'] rest
                  = curve_analyzer.decode_token_exchange [t0; t1] rest)
  /\ (forall params,
        curve_analyzer.decode_token_exchange [t0; t1] rest = Ok params ->
        params.1.1.1.1 = None)
  /\ curve_analyzer.raw_entry w3 dec_by_index sym_by_index cache one
     = curve_analyzer.raw_entry w3 dec_by_index sym_by_index cache two.
Proof.
  intros Hlen one two.
  assert (Hshape : forall t, List.length [t0; t] <> 1%nat) by (intros t; discriminate).
  split; [apply decode_token_exchange_one_topic; [exact Hlen | apply Hshape] |].
  split.
  { intros t1'.
    rewrite (proj1 (decode_token_exchange_other_topics [t0; t1'] rest (Hshape t1'))).
    rewrite (proj1 (decode_token_exchange_other_topics [t0; t1] rest (Hshape t1))).
    reflexivity. }
  split; [apply decode_token_exchange_other_topics, Hshape |].
  unfold curve_analyzer.raw_entry, one, two.
  cbn [lg_blockNumber lg_data lg_topics lg_transactionHash curve_analyzer.data_bytes].
  f_equal. destruct (curve_analyzer.get_block_ts w3 cache blk).1 as [ts | e];
    [| reflexivity].
  cbn [result_bind].
  rewrite (decode_token_exchange_one_topic t0 [t0; t1] buyer rest Hlen (Hshape t1)).
  destruct (curve_analyzer.decode_token_exchange [t0; t1] rest)
    as [[[[[bound sold_id] tokens_sold] bought_id] tokens_bought] | e]; reflexivity.
Qed.

Lemma raw_decode_shapes_witness :
  let t0 := abi_word 7 in
  let t1 := abi_word 4660 in
  let buyer := address_bytes 4660 in
  let rest := exchange_payload 0 1000000 1 999000 in
  let dec_by_index : gmap Z Z := {[ 0 := 6; 1 := 6 ]} in
  let sym_by_index : gmap Z string := {[ 0 := "T0"; 1 := "T1" ]} in
  let one := RawLog 500 [t0] (DataBytes (replicate 12 x00 ++ buyer ++ rest)) [] "" in
  let two := RawLog 500 [t0; t1] (DataBytes rest) [] "" in
  curve_analyzer.decode_token_exchange [t0] (replicate 12 x00 ++ buyer ++ rest)
  = match curve_analyzer.decode_token_exchange [t0; t1] rest with
    | Ok (_, sold_id, tokens_sold, bought_id, tokens_bought) =>
        Ok (Some buyer, sold_id, tokens_sold, bought_id, tokens_bought)
    | Raise e => Raise e
    end
  /\ (forall t1', curve_analyzer.decode_token_exchange [t0; t1'] rest
                  = curve_analyzer.decode_token_exchange [t0; t1] rest)
  /\ (forall params,
        curve_analyzer.decode_token_exchange [t0; t1] rest = Ok params ->
        params.1.1.1.1 = None)
  /\ curve_analyzer.raw_entry (H := rational_externals) quiet_node
       dec_by_index sym_by_index ∅ one
     = curve_analyzer.raw_entry (H := rational_externals) quiet_node
         dec_by_index sym_by_index ∅ two.
Proof.
  apply (raw_decode_shapes (H := rational_externals) quiet_node
           {[ 0 := 6; 1 := 6 ]} {[ 0 := "T0"; 1 := "T1" ]} ∅ 500 [] ""
           (abi_word 7) (abi_word 4660) (address_bytes 4660)
           (exchange_payload 0 1000000 1 999000)).
  reflexivity.
Defined.

(** C5 as stated fails on the two-topic shape.  For an entry whose second
    topic holds the buyer's address, the raw path binds no buyer, and
    putting another address in that topic changes nothing; the one-topic
    shape does decode the buyer, from [data]. *)
Lemma second_topic_is_not_read :
  let t0 := abi_word 7 in
  let payload := exchange_payload 0 1000000 1 999000 in
  curve_analyzer.decode_token_exchange [t0; abi_word 4660] payload
  = Ok (None, 0, 1000000, 1, 999000)
  /\ curve_analyzer.decode_token_exchange [t0; abi_word 39321] payload
     = Ok (None, 0, 1000000, 1, 999000)
  /\ curve_analyzer.decode_token_exchange [t0] (abi_word 4660 ++ payload)
     = Ok (Some (address_bytes 4660), 0, 1000000, 1, 999000).
Proof. vm_compute. auto. Qed.

(** * Entries with unexpected coin indices *)

Section unexpected_indices.
Context `{Externals}.
Variables dec0 dec1 : Z.
Variable sym_by_index : gmap Z string.

Local Abbreviation dec_by_index := ({[ 0 := dec0; 1 := dec1 ]} : gmap Z Z).

Lemma dec_by_index_lookup (i : Z) :
  dec_by_index !! i = if i =? 0 then Some dec0 else if i =? 1 then Some dec1 else None.
Proof.
  destruct (Z.eqb_spec i 0) as [-> | H0]; [apply lookup_insert_eq |].
  rewrite lookup_insert_ne by congruence.
  destruct (Z.eqb_spec i 1) as [-> | H1]; [apply lookup_singleton_eq |].
  apply lookup_singleton_ne. congruence.
Qed.

(** Selling a coin to itself, the only unexpected pair within the two
    indices, is passed over in silence. *)
Lemma swap_entry_same_coin (i sold bought blk ts : Z) (tx : list byte) :
  i = 0 \/ i = 1 ->
  curve_analyzer.swap_entry dec_by_index sym_by_index i sold i bought blk ts tx = Ok None.
Proof.
  intros [-> | ->]; unfold curve_analyzer.swap_entry;
    rewrite !dec_by_index_lookup; reflexivity.
Qed.

(** An index beyond the two coins never reaches the branch that passes
    over unexpected pairs: the decimals lookup before it raises. *)
Lemma swap_entry_unknown_sold_id (sold_id sold bought_id bought blk ts : Z) (tx : list byte) :
  sold_id <> 0 -> sold_id <> 1 ->
  curve_analyzer.swap_entry dec_by_index sym_by_index sold_id sold bought_id bought blk ts tx
  = Raise (KeyError sold_id).
Proof.
  intros H0 H1. unfold curve_analyzer.swap_entry. rewrite dec_by_index_lookup.
  destruct (Z.eqb_spec sold_id 0); [contradiction |].
  destruct (Z.eqb_spec sold_id 1); [contradiction |]. reflexivity.
Qed.

Lemma swap_entry_unknown_bought_id (sold_id sold bought_id bought blk ts : Z) (tx : list byte) :
  sold_id = 0 \/ sold_id = 1 -> bought_id <> 0 -> bought_id <> 1 ->
  curve_analyzer.swap_entry dec_by_index sym_by_index sold_id sold bought_id bought blk ts tx
  = Raise (KeyError bought_id).
Proof.
  intros Hsold H0 H1. unfold curve_analyzer.swap_entry. rewrite !dec_by_index_lookup.
  destruct (Z.eqb_spec bought_id 0); [contradiction |].
  destruct (Z.eqb_spec bought_id 1); [contradiction |].
  destruct Hsold as [-> | ->]; reflexivity.
Qed.
End unexpected_indices.

(** C10 fails on indices beyond the two coins.  A [TokenExchange] entry
    of a pool with a third coin, selling coin 2 for coin 0, is neither
    (0, 1) nor (1, 0); [handle_swap] raises [KeyError] on it, and so does
    the body of either loop of [analyze_swaps_last_days].  In the
    structured loop the error is swallowed and ends the loop, so the
    well-formed entry that follows is lost as well. *)
Theorem third_coin_swap_raises_KeyError `{Externals} :
  let ev := EventLog 2 1000000 0 999000 500 [] in
  let next := EventLog 0 1000000 1 999000 501 [] in
  let lg := RawLog 500 [abi_word 7; abi_word 4660]
              (DataBytes (exchange_payload 2 1000000 0 999000)) [] "" in
  let decs : gmap Z Z := {[ 0 := 6; 1 := 6 ]} in
  let syms : gmap Z string := {[ 0 := "T0"; 1 := "T1" ]} in
  analysis_curve_pool.handle_swap quiet_node decs 0 1 [] ev = Raise (KeyError 2)
  /\ (curve_analyzer.abi_entry quiet_node decs syms ∅ ev).1 = Raise (KeyError 2)
  /\ (curve_analyzer.raw_entry quiet_node decs syms ∅ lg).1 = Raise (KeyError 2)
  /\ (curve_analyzer.abi_pass quiet_node decs syms (fun _ => false)
        [EvQuery (500, 501); EvYield ev; EvYield next; EvStart 502] 0 ∅ []).2.1
     = (true, []).
Proof.
  cbv zeta. split; [| split; [| split]]; reflexivity.
Qed.

(** * The fallback from the structured to the raw path *)

Section passes.
Context `{Externals}.
Variable w3 : Web3.
Variable dec_by_index : gmap Z Z.
Variable sym_by_index : gmap Z string.

(** Either loop lets the generator run a prefix of what it would do if
    exhausted. *)
Lemma abi_pass_prefix (expired : nat -> bool) tr :
  forall i cache swaps,
    exists rest,
      tr = (curve_analyzer.abi_pass w3 dec_by_index sym_by_index expired tr i cache swaps).1
           ++ rest.
Proof.
  induction tr as [| ev tr IH]; intros i cache swaps; [exists []; reflexivity |].
  destruct ev as [r | l | p | v | v];
    try (cbn [curve_analyzer.abi_pass after fst];
         destruct (IH i cache swaps) as (rest & Hrest); exists rest;
         cbn [app]; congruence).
  cbn [curve_analyzer.abi_pass].
  destruct (curve_analyzer.abi_entry w3 dec_by_index sym_by_index cache l).1
    as [[row |] | e].
  - destruct (expired i); [exists tr; reflexivity |].
    cbn [after fst]. edestruct IH as (rest & Hrest). exists rest.
    cbn [app]. f_equal. exact Hrest.
  - cbn [after fst]. edestruct IH as (rest & Hrest). exists rest.
    cbn [app]. f_equal. exact Hrest.
  - exists tr. reflexivity.
Qed.

Lemma raw_pass_prefix tr :
  forall cache swaps,
    exists rest,
      tr = (curve_analyzer.raw_pass w3 dec_by_index sym_by_index tr cache swaps).1 ++ rest.
Proof.
  induction tr as [| ev tr IH]; intros cache swaps; [exists []; reflexivity |].
  destruct ev as [r | l | p | v | v];
    try (cbn [curve_analyzer.raw_pass after fst];
         destruct (IH cache swaps) as (rest & Hrest); exists rest;
         cbn [app]; congruence).
  cbn [curve_analyzer.raw_pass].
  destruct (curve_analyzer.raw_entry w3 dec_by_index sym_by_index cache l).1
    as [[row |] | e].
  - cbn [after fst]. edestruct IH as (rest & Hrest). exists rest.
    cbn [app]. f_equal. exact Hrest.
  - cbn [after fst]. edestruct IH as (rest & Hrest). exists rest.
    cbn [app]. f_equal. exact Hrest.
  - exists tr. reflexivity.
Qed.

(** The raw loop does not hold back anything that precedes the first
    entry. *)
Lemma raw_pass_head (r : log_filter) tr cache swaps :
  head (curve_analyzer.raw_pass w3 dec_by_index sym_by_index (EvQuery r :: tr) cache swaps).1
  = Some (EvQuery r).
Proof. reflexivity. Qed.
End passes.

Section paging_requests.
Context {R A : Type}.
Variable request : Z -> Z -> R.
Variable query : nat -> R -> result (list A).
Variables from_block to_block : Z.
Variable progress_cb : bool.
Variable max_pages : Z.

Local Abbreviation outer := (curve_analyzer.paging_outer request query from_block to_block
                     progress_cb max_pages).
Local Abbreviation inner := (curve_analyzer.paging_inner request query from_block to_block
                     progress_cb max_pages).

(** Every request of the paging loop is for a window inside the range. *)
Lemma paging_queries_within fuel :
  (forall n start step pages,
      1 <= step -> from_block <= start ->
      Forall (within_range request from_block to_block)
        (queries (outer fuel n start step pages).1))
  /\ (forall n start end_ step retries pages,
      1 <= step -> from_block <= start -> start <= end_ -> end_ <= to_block ->
      Forall (within_range request from_block to_block)
        (queries (inner fuel n start end_ step retries pages).1)).
Proof.
  induction fuel as [| fuel [IHo IHi]]; [split; intros; constructor |].
  split.
  - intros n start step pages Hstep Hfrom. rewrite paging_outer_unfold.
    destruct (Z.leb_spec start to_block); [| constructor].
    apply IHi; lia.
  - intros n start end_ step retries pages Hstep Hfrom Hend Hto.
    assert (Hthis : within_range request from_block to_block (request start end_))
      by (exists start, end_; auto).
    rewrite paging_inner_unfold.
    destruct (query n _) as [logs | e].
    + trace_simpl. change (queries (EvQuery ?r :: ?t)) with (r :: queries t).
      trace_simpl. constructor; [exact Hthis |].
      destruct progress_cb; trace_eval;
        (destruct (Z.leb_spec max_pages (pages + 1)); [constructor | apply IHo; lia]).
    + destruct (is_range_or_limit_error e).
      * destruct (5 <=? retries + 1); trace_simpl; trace_eval;
          (constructor; [exact Hthis |]).
        -- destruct (max_pages <=? pages); [constructor | apply IHo; lia].
        -- apply IHi; dlia.
      * destruct (2 <=? retries + 1); trace_simpl; trace_eval;
          (constructor; [exact Hthis |]).
        -- destruct (max_pages <=? pages); [constructor | apply IHo; lia].
        -- apply IHi; lia.
Qed.
End paging_requests.

Lemma paging_first_query {R A} (request : Z -> Z -> R)
    (query : nat -> R -> result (list A)) (from_block to_block : Z)
    (progress_cb : bool) (max_pages : Z) fuel n start step pages :
  start <= to_block ->
  exists rest,
    (curve_analyzer.paging_outer request query from_block to_block progress_cb max_pages
       (S (S fuel)) n start step pages).1
    = EvQuery (request start (Z.min (start + step - 1) to_block)) :: rest.
Proof.
  intros Hle. rewrite paging_outer_unfold.
  destruct (Z.leb_spec start to_block); [| lia].
  rewrite paging_inner_unfold.
  destruct (query n _) as [logs | e]; [eexists; reflexivity |].
  destruct (is_range_or_limit_error e);
    [destruct (5 <=? 0 + 1) | destruct (2 <=? 0 + 1)]; eexists; reflexivity.
Qed.

(** The paging loop catches every failure of a query: it never raises. *)
Lemma paging_never_raises {R A} (request : Z -> Z -> R)
    (query : nat -> R -> result (list A)) (from_block to_block : Z)
    (progress_cb : bool) (max_pages : Z) fuel :
  (forall n start step pages e,
      (curve_analyzer.paging_outer request query from_block to_block progress_cb
         max_pages fuel n start step pages).2 <> Raised e)
  /\ (forall n start end_ step retries pages e,
      (curve_analyzer.paging_inner request query from_block to_block progress_cb
         max_pages fuel n start end_ step retries pages).2 <> Raised e).
Proof.
  induction fuel as [| fuel [IHo IHi]]; [split; intros; discriminate |].
  split.
  - intros n start step pages e. rewrite paging_outer_unfold.
    destruct (start <=? to_block); [apply IHi | discriminate].
  - intros n start end_ step retries pages e. rewrite paging_inner_unfold.
    destruct (query n _) as [logs | e'].
    + cbn [after snd]. destruct (max_pages <=? pages + 1); [discriminate | apply IHo].
    + destruct (is_range_or_limit_error e');
        [destruct (5 <=? retries + 1) | destruct (2 <=? retries + 1)];
        cbn [after snd]; try apply IHi;
        (destruct (max_pages <=? pages); [discriminate | apply IHo]).
Qed.



(** The fallback at work: the structured filter returns nothing, and the
    entry of block 17000020 comes back through the raw path. *)
Example fallback_recovers_the_entry :
  let run := curve_analyzer.analyze_swaps_last_days (H := rational_externals) 400
               silent_filter_node example_clock ∅
               "0x4eeb03b2b8f55159f47b3548faafe3efaff43eb9" example_meta 1 false in
  queries (curve_analyzer.abi_trace run) = [(17000000, 17000050)]
  /\ queries (curve_analyzer.raw_trace run)
     = [LogFilter 17000000 17000050 "0x4eeb03b2b8f55159f47b3548faafe3efaff43eb9"
          [curve_analyzer.TOPIC_TOKEN_EX (H := rational_externals)]]
  /\ exists row,
       curve_analyzer.returned run = Returned [row]
       /\ curve_analyzer.block row = 17000020
       /\ curve_analyzer.direction row = "deUSD->frxUSD".
Proof.
  vm_compute. repeat split. eexists. repeat split.
Qed.

(** * Further properties of the locator *)

(** X1.  Whatever the oracle answers, monotone or not, the search ends.
    When it returns a block, that block lies in [lo..hi], and it is [lo]
    itself, found without asking the oracle, when [hi <= lo]; when it
    raises, the error is one the oracle gave for a block of [lo..hi - 1]. *)
Theorem bisect_blocks_outcome (get_block : Z -> result Z) (ts lo hi : Z) :
  match bisect_blocks get_block ts lo hi with
  | Ok r => if Z_lt_dec lo hi then lo <= r <= hi else r = lo
  | Raise e => exists b, lo <= b < hi /\ get_block b = Raise e
  end.
Proof.
  funelim (bisect_blocks get_block ts lo hi);
    try (assert (Hmid : lo <= (lo + hi) / 2 < hi)
           by (split; [apply Z.div_le_lower_bound | apply Z.div_lt_upper_bound]; lia)).
  - destruct (Z_lt_dec lo hi); [contradiction | reflexivity].
  - exists ((lo + hi) / 2). auto.
  - match goal with
    | IH : match bisect_blocks _ _ ?l ?h with _ => _ end |- _ =>
        destruct (bisect_blocks get_block ts l h) as [r | e];
          [destruct (Z_lt_dec l h), (Z_lt_dec lo hi); lia
          | destruct IH as (b & Hb & Hraise); exists b; split; [lia | exact Hraise]]
    end.
  - match goal with
    | IH : match bisect_blocks _ _ ?l ?h with _ => _ end |- _ =>
        destruct (bisect_blocks get_block ts l h) as [r | e];
          [destruct (Z_lt_dec l h), (Z_lt_dec lo hi); lia
          | destruct IH as (b & Hb & Hraise); exists b; split; [lia | exact Hraise]]
    end.
Qed.

(** X2.  On a chain whose head is at or below [start_hint], the library's
    [block_at_timestamp] returns [start_hint], a block the chain may not
    have, for every timestamp and without a single call to the node; the
    script's does the same for [end <= start]. *)
Theorem block_at_timestamp_above_head (w3 : Web3) (ts start_hint : Z) (end_ : Z) :
  eth_block_number w3 <= start_hint ->
  end_ <= start_hint ->
  curve_analyzer.block_at_timestamp w3 ts start_hint = Ok start_hint
  /\ analysis_curve_pool.block_at_timestamp w3 ts start_hint None = Ok start_hint
  /\ analysis_curve_pool.block_at_timestamp w3 ts start_hint (Some end_) = Ok start_hint.
Proof.
  assert (Hstop : forall hi, hi <= start_hint ->
            bisect_blocks (eth_get_block w3) ts start_hint hi = Ok start_hint).
  { intros hi Hhi. simp bisect_blocks.
    destruct (Z_lt_dec start_hint hi); [lia | reflexivity]. }
  intros Hhead Hend. repeat split; apply Hstop; assumption.
Qed.

Lemma block_at_timestamp_above_head_witness :
  curve_analyzer.block_at_timestamp quiet_node 1600006000 17000000 = Ok 17000000
  /\ analysis_curve_pool.block_at_timestamp quiet_node 1600006000 17000000 None
     = Ok 17000000
  /\ analysis_curve_pool.block_at_timestamp quiet_node 1600006000 17000000 (Some 1000)
     = Ok 17000000.
Proof.
  apply (block_at_timestamp_above_head quiet_node 1600006000 17000000 1000).
  - vm_compute. discriminate.
  - lia.
Defined.

(** * The block-timestamp cache *)

(** X3.  With a cache that holds only timestamps the node would give,
    [get_block_ts] answers what the node answers for the block, leaves the
    cache in that state, records a timestamp it had to fetch, and keeps
    the cache at 20001 entries at most if it was so before. *)
Theorem get_block_ts_sound (w3 : Web3) (cache : gmap Z Z) (blk : Z) :
  cache_coherent w3 cache ->
  let got := curve_analyzer.get_block_ts w3 cache blk in
  got.1 = eth_get_block w3 blk
  /\ cache_coherent w3 got.2
  /\ (forall ts, got.1 = Ok ts -> got.2 !! blk = Some ts)
  /\ (Z.of_nat (size cache) <= 20001 -> Z.of_nat (size got.2) <= 20001).
Proof.
  intros Hcache. unfold curve_analyzer.get_block_ts.
  destruct (cache !! blk) as [ts |] eqn:Hhit; cbn [fst snd].
  - split; [symmetry; apply Hcache, Hhit |]. split; [exact Hcache |].
    split; [intros ts' [= <-]; exact Hhit | auto].
  - destruct (eth_get_block w3 blk) as [ts | e] eqn:Hnode; cbn [fst snd].
    + split; [reflexivity |].
      split; [| split].
      * intros b ts'. destruct (decide (blk = b)) as [<- | Hne].
        -- rewrite lookup_insert_eq. intros [= <-]. exact Hnode.
        -- rewrite lookup_insert_ne by exact Hne.
           destruct (20000 <? Z.of_nat (size cache));
             [rewrite lookup_empty; discriminate | apply Hcache].
      * intros ts' [= <-]. apply lookup_insert_eq.
      * intros _. destruct (Z.ltb_spec 20000 (Z.of_nat (size cache))).
        -- rewrite map_size_insert_None by apply lookup_empty.
           rewrite map_size_empty. lia.
        -- rewrite map_size_insert_None by exact Hhit. lia.
    + split; [reflexivity |]. split; [exact Hcache |]. split; [discriminate | auto].
Qed.

Lemma get_block_ts_sound_witness :
  let got := curve_analyzer.get_block_ts quiet_node ∅ 500 in
  got.1 = eth_get_block quiet_node 500
  /\ cache_coherent quiet_node got.2
  /\ (forall ts, got.1 = Ok ts -> got.2 !! 500 = Some ts)
  /\ (Z.of_nat (size (∅ : gmap Z Z)) <= 20001 -> Z.of_nat (size got.2) <= 20001).
Proof.
  apply (get_block_ts_sound quiet_node ∅ 500).
  intros b ts. rewrite lookup_empty. discriminate.
Defined.

(** X4.  A timestamp [get_block_ts] has returned is served from the cache
    from then on: asking again gives the same timestamp and the same
    cache, whatever the node would answer by then. *)
Theorem get_block_ts_cached (w3 w3' : Web3) (cache cache' : gmap Z Z) (blk ts : Z) :
  curve_analyzer.get_block_ts w3 cache blk = (Ok ts, cache') ->
  curve_analyzer.get_block_ts w3' cache' blk = (Ok ts, cache').
Proof.
  unfold curve_analyzer.get_block_ts.
  destruct (cache !! blk) as [ts0 |] eqn:Hhit.
  - intros [= <- <-]. rewrite Hhit. reflexivity.
  - destruct (eth_get_block w3 blk) as [ts0 | e]; [| discriminate].
    intros [= <- <-]. rewrite lookup_insert_eq. reflexivity.
Qed.

Lemma get_block_ts_cached_witness :
  curve_analyzer.get_block_ts bare_pool_node {[ 500 := 1600006000 ]} 500
  = (Ok 1600006000, {[ 500 := 1600006000 ]}).
Proof.
  apply (get_block_ts_cached quiet_node bare_pool_node ∅ {[ 500 := 1600006000 ]}
           500 1600006000).
  reflexivity.
Defined.

(** * The asset-role heuristic *)

Lemma asset_indices_swap (s0 s1 : string) :
  asset_indices s0 s1 = (0, 1) \/ asset_indices s0 s1 = (1, 0).
Proof.
  unfold asset_indices.
  repeat match goal with |- context [if ?b then _ else _] => destruct b end; auto.
Qed.

(** X5.  Whatever the tokens call themselves, and whether or not their
    symbols and decimals could be read, the metadata [get_pool_meta]
    returns is for the pool it was asked about and assigns the two roles
    to the two coin indices, one each. *)
Theorem get_pool_meta_roles (w3 : Web3) (pool_addr : string)
    (calls : list rpc) (meta : curve_analyzer.PoolMeta) :
  curve_analyzer.get_pool_meta w3 pool_addr = (calls, Ok meta) ->
  curve_analyzer.address meta = pool_addr
  /\ call_coins w3 pool_addr 0 = Ok (curve_analyzer.coin0 meta)
  /\ call_coins w3 pool_addr 1 = Ok (curve_analyzer.coin1 meta)
  /\ ((curve_analyzer.deusd_index meta = 0 /\ curve_analyzer.frx_index meta = 1)
      \/ (curve_analyzer.deusd_index meta = 1 /\ curve_analyzer.frx_index meta = 0)).
Proof.
  unfold curve_analyzer.get_pool_meta, io_call, io_bind, io_try, io_ret, after.
  destruct (call_coins w3 pool_addr 0) as [c0 | e0]; [| discriminate].
  cbn [fst snd app].
  destruct (call_coins w3 pool_addr 1) as [c1 | e1]; [| discriminate].
  cbn [fst snd app].
  destruct (call_symbol w3 c0) as [s0 | ?], (call_symbol w3 c1) as [s1 | ?],
    (call_decimals w3 c0), (call_decimals w3 c1); cbn [fst snd app];
    intros [= <- <-];
    cbn [curve_analyzer.address curve_analyzer.coin0 curve_analyzer.coin1
         curve_analyzer.deusd_index curve_analyzer.frx_index];
    (split; [reflexivity |]; split; [reflexivity |]; split; [reflexivity |]);
    try (left; split; reflexivity);
    match goal with
    | |- context [asset_indices ?a ?b] =>
        destruct (asset_indices_swap a b) as [-> | ->]; cbn [fst snd]; auto
    end.
Qed.

Lemma get_pool_meta_roles_witness :
  let pool := "0x4eeb03b2b8f55159f47b3548faafe3efaff43eb9" in
  let meta := curve_analyzer.Build_PoolMeta pool
                "0x15700B564Ca08D9439C58cA5053166E8317aa138"
                "0xCAcd6fd266aF91b8AeD52aCCc382b4e165586E29" "T0" "T1" 18 18 0 1 in
  curve_analyzer.address meta = pool
  /\ call_coins bare_pool_node pool 0 = Ok (curve_analyzer.coin0 meta)
  /\ call_coins bare_pool_node pool 1 = Ok (curve_analyzer.coin1 meta)
  /\ ((curve_analyzer.deusd_index meta = 0 /\ curve_analyzer.frx_index meta = 1)
      \/ (curve_analyzer.deusd_index meta = 1 /\ curve_analyzer.frx_index meta = 0)).
Proof.
  apply (get_pool_meta_roles bare_pool_node "0x4eeb03b2b8f55159f47b3548faafe3efaff43eb9"
           [Rpc_coins "0x4eeb03b2b8f55159f47b3548faafe3efaff43eb9" 0;
            Rpc_coins "0x4eeb03b2b8f55159f47b3548faafe3efaff43eb9" 1;
            Rpc_symbol "0x15700B564Ca08D9439C58cA5053166E8317aa138";
            Rpc_symbol "0xCAcd6fd266aF91b8AeD52aCCc382b4e165586E29";
            Rpc_decimals "0x15700B564Ca08D9439C58cA5053166E8317aa138";
            Rpc_decimals "0xCAcd6fd266aF91b8AeD52aCCc382b4e165586E29"]).
  reflexivity.
Defined.

Lemma ascii_upper_lower (c : ascii) : ascii_upper (ascii_lower c) = ascii_upper c.
Proof. destruct c as [[] [] [] [] [] [] [] []]; reflexivity. Qed.

Lemma ascii_upper_idempotent (c : ascii) : ascii_upper (ascii_upper c) = ascii_upper c.
Proof. destruct c as [[] [] [] [] [] [] [] []]; reflexivity. Qed.

Lemma upper_lower (s : string) : upper (lower s) = upper s.
Proof. induction s as [| c s IH]; cbn; [| rewrite ascii_upper_lower, IH]; reflexivity. Qed.

Lemma upper_idempotent (s : string) : upper (upper s) = upper s.
Proof.
  induction s as [| c s IH]; cbn; [| rewrite ascii_upper_idempotent, IH]; reflexivity.
Qed.

(** X6.  The roles do not depend on the letter case of the symbols:
    lower-casing or upper-casing either symbol changes nothing. *)
Theorem asset_indices_ignores_case (s0 s1 : string) :
  asset_indices (lower s0) (lower s1) = asset_indices s0 s1
  /\ asset_indices (upper s0) (upper s1) = asset_indices s0 s1
  /\ asset_indices (lower s0) s1 = asset_indices s0 s1
  /\ asset_indices s0 (upper s1) = asset_indices s0 s1.
Proof.
  unfold asset_indices. cbn zeta.
  rewrite !upper_lower, !upper_idempotent. auto.
Qed.

(** * Further properties of the resolver *)

Section resolver_paths.
Context `{Externals}.
Variable w3 : Web3.

Local Abbreviation unresolvable := (ValueError
  "Provided address does not appear to be a Curve pool or LP token resolvable via minter/registry").
Local Abbreviation unusable := (ValueError
  "Provide a Curve pool address or a swap tx hash (or an Etherscan URL to either)").

(** What the resolver does with an address, once the input is known to be
    one. *)
Lemma resolve_pool_address (user_input : string) :
  startswith "0x" (strip user_input) = true ->
  String.length (strip user_input) = 42%nat ->
  curve_analyzer.resolve_pool_from_input w3 user_input
  = (addr <- io_lift (to_checksum_address (strip user_input)) ;;
     io_try
       (_ <- io_call (Rpc_coins addr 0) (call_coins w3 addr 0) ;; io_ret addr)
       (io_try
          (pool_addr <- io_call (Rpc_minter addr) (call_minter w3 addr) ;;
           io_lift (to_checksum_address pool_addr))
          (found <- io_try (curve_analyzer.registry_lookup w3 addr) (io_ret None) ;;
           match found with
           | Some a => io_ret a
           | None => io_raise unresolvable
           end))).
Proof.
  intros Hhex Hlen. unfold curve_analyzer.resolve_pool_from_input.
  rewrite str_or_empty, (startswith_http_hex _ Hhex).
  assert (Hstrip : strip (strip user_input) = strip user_input).
  { unfold strip at 1. rewrite (lstrip_hex_prefix _ Hhex).
    unfold strip. apply rstrip_idempotent. }
  cbn zeta. rewrite Hstrip, Hhex, Hlen. reflexivity.
Qed.

(** X7.  An address that does not answer [coins(0)] but answers
    [minter()] is taken for an LP token: the resolver returns the
    checksummed minter after these two calls, without asking the
    registry. *)
Theorem resolve_pool_via_minter (user_input addr minted pool : string) (e : exn) :
  startswith "0x" (strip user_input) = true ->
  String.length (strip user_input) = 42%nat ->
  to_checksum_address (strip user_input) = Ok addr ->
  call_coins w3 addr 0 = Raise e ->
  call_minter w3 addr = Ok minted ->
  to_checksum_address minted = Ok pool ->
  curve_analyzer.resolve_pool_from_input w3 user_input
  = ([Rpc_coins addr 0; Rpc_minter addr], Ok pool).
Proof.
  intros Hhex Hlen Hsum Hcoins Hminter Hpool.
  rewrite (resolve_pool_address _ Hhex Hlen), Hsum.
  unfold io_lift, io_bind, io_try, io_call, io_ret, after. cbn [fst snd app].
  rewrite Hcoins. cbn [fst snd app]. rewrite Hminter. cbn [fst snd app].
  rewrite Hpool. reflexivity.
Qed.

(** X8.  When neither [coins(0)] nor [minter()] answers, the resolver
    asks the address provider for the registry and the registry for the
    pool of the LP token.  A registry answer that is the zero address is
    not returned: the resolver raises [ValueError], as it does when the
    answer cannot be checksummed; any other answer is returned
    checksummed. *)
Theorem resolve_pool_via_registry (user_input addr reg answer : string)
    (e e' : exn) (val : Z) :
  startswith "0x" (strip user_input) = true ->
  String.length (strip user_input) = 42%nat ->
  to_checksum_address (strip user_input) = Ok addr ->
  call_coins w3 addr 0 = Raise e ->
  call_minter w3 addr = Raise e' ->
  call_get_registry w3 curve_analyzer.CURVE_ADDRESS_PROVIDER = Ok reg ->
  call_get_pool_from_lp_token w3 reg addr = Ok (AnswerStr answer) ->
  to_int_hexstr answer = Ok val ->
  curve_analyzer.resolve_pool_from_input w3 user_input
  = ([Rpc_coins addr 0; Rpc_minter addr;
      Rpc_get_registry curve_analyzer.CURVE_ADDRESS_PROVIDER;
      Rpc_get_pool_from_lp_token reg addr],
     if val =? 0 then Raise unresolvable
     else match to_checksum_address answer with
          | Ok pool => Ok pool
          | Raise _ => Raise unresolvable
          end).
Proof.
  intros Hhex Hlen Hsum Hcoins Hminter Hreg Hanswer Hval.
  rewrite (resolve_pool_address _ Hhex Hlen), Hsum.
  unfold curve_analyzer.registry_lookup, io_lift, io_bind, io_try, io_call, io_ret,
    io_raise, after.
  cbn [fst snd app]. rewrite Hcoins. cbn [fst snd app].
  rewrite Hminter. cbn [fst snd app]. rewrite Hreg. cbn [fst snd app].
  rewrite Hanswer. cbn [fst snd app]. rewrite Hval. cbn [fst snd app result_bind].
  destruct (val =? 0); cbn [negb fst snd app]; [reflexivity |].
  destruct (to_checksum_address answer); reflexivity.
Qed.
End resolver_paths.

Lemma resolve_pool_via_minter_witness :
  curve_analyzer.resolve_pool_from_input (H := hex_externals) registry_node
    "0x1111111111111111111111111111111111111111"
  = ([Rpc_coins "0x1111111111111111111111111111111111111111" 0;
      Rpc_minter "0x1111111111111111111111111111111111111111"],
     Ok "0x4eeb03b2b8f55159f47b3548faafe3efaff43eb9").
Proof.
  apply (resolve_pool_via_minter (H := hex_externals) registry_node
           "0x1111111111111111111111111111111111111111"
           "0x1111111111111111111111111111111111111111"
           "0x4eeb03b2b8f55159f47b3548faafe3efaff43eb9"
           "0x4eeb03b2b8f55159f47b3548faafe3efaff43eb9"
           (Exn "ContractLogicError" "execution reverted")); reflexivity.
Defined.

Lemma resolve_pool_via_registry_witness :
  curve_analyzer.resolve_pool_from_input (H := hex_externals) registry_node
    "0x3333333333333333333333333333333333333333"
  = ([Rpc_coins "0x3333333333333333333333333333333333333333" 0;
      Rpc_minter "0x3333333333333333333333333333333333333333";
      Rpc_get_registry (curve_analyzer.CURVE_ADDRESS_PROVIDER);
      Rpc_get_pool_from_lp_token "0x90E00ACe148ca3b23Ac1bC8C240C2a7Dd9c2d7f5"
        "0x3333333333333333333333333333333333333333"],
     if 0 =? 0
     then Raise (ValueError
       "Provided address does not appear to be a Curve pool or LP token resolvable via minter/registry")
     else match to_checksum_address (Externals := hex_externals)
                  "0x0000000000000000000000000000000000000000" with
          | Ok pool => Ok pool
          | Raise _ => Raise (ValueError
       "Provided address does not appear to be a Curve pool or LP token resolvable via minter/registry")
          end).
Proof.
  apply (resolve_pool_via_registry (H := hex_externals) registry_node
           "0x3333333333333333333333333333333333333333"
           "0x3333333333333333333333333333333333333333"
           "0x90E00ACe148ca3b23Ac1bC8C240C2a7Dd9c2d7f5"
           "0x0000000000000000000000000000000000000000"
           (Exn "ContractLogicError" "execution reverted")
           (Exn "ContractLogicError" "execution reverted") 0); reflexivity.
Defined.

(** X9.  Whatever the input and whatever the node answers, an address
    that [resolve_pool_from_input] returns is one that
    [Web3.to_checksum_address] produced, and the node was asked at least
    once before it was returned. *)
Theorem resolve_pool_result `{Externals} (w3 : Web3) (user_input : string)
    (calls : list rpc) (a : string) :
  curve_analyzer.resolve_pool_from_input w3 user_input = (calls, Ok a) ->
  (exists s, to_checksum_address s = Ok a) /\ calls <> [].
Proof.
  unfold curve_analyzer.resolve_pool_from_input. cbn zeta.
  match goal with |- context [startswith "0x" ?u] => generalize u end.
  intros ui.
  unfold curve_analyzer.registry_lookup, io_lift, io_bind, io_try, io_call, io_ret,
    io_raise, after, result_bind.
  repeat match goal with
         | |- context [match ?x with _ => _ end] =>
             lazymatch x with
             | context [match _ with _ => _ end] => fail
             | _ => destruct x eqn:?; cbn [fst snd app negb]
             end
         end;
    try discriminate;
    intros [= <- <-]; (split; [eauto | discriminate]).
Qed.

Lemma resolve_pool_result_witness :
  (exists s, to_checksum_address (Externals := rational_externals) s
             = Ok "0x4eeb03b2b8f55159f47b3548faafe3efaff43eb9")
  /\ [Rpc_coins "0x4eeb03b2b8f55159f47b3548faafe3efaff43eb9" 0] <> [].
Proof.
  apply (resolve_pool_result (H := rational_externals) bare_pool_node
           "0x4eeb03b2b8f55159f47b3548faafe3efaff43eb9"
           [Rpc_coins "0x4eeb03b2b8f55159f47b3548faafe3efaff43eb9" 0]
           "0x4eeb03b2b8f55159f47b3548faafe3efaff43eb9").
  reflexivity.
Defined.

Lemma find_first_match {A} (f : A -> bool) (pre : list A) (x : A) (post : list A) :
  forallb (fun y => negb (f y)) pre = true -> f x = true ->
  List.find f (pre ++ x :: post) = Some x.
Proof.
  intros Hpre Hx. induction pre as [| y pre IH]; cbn in *.
  - rewrite Hx. reflexivity.
  - apply andb_true_iff in Hpre as [Hy Hpre].
    destruct (f y); [discriminate | apply IH, Hpre].
Qed.

Lemma find_no_match {A} (f : A -> bool) (l : list A) :
  forallb (fun y => negb (f y)) l = true -> List.find f l = None.
Proof.
  induction l as [| y l IH]; cbn; [reflexivity |].
  intros Hl. apply andb_true_iff in Hl as [Hy Hl].
  destruct (f y); [discriminate | apply IH, Hl].
Qed.

(** X10.  Given a transaction hash, the resolver asks for the receipt
    and nothing else.  It returns the checksummed address of the first
    entry of the receipt whose first topic is the [TokenExchange] hash,
    whatever comes after it and whoever the transaction was sent to; when
    no entry has that topic it returns the checksummed recipient, and
    raises [ValueError] when there is none. *)
Theorem resolve_pool_from_tx `{Externals} (w3 : Web3) (user_input : string)
    (rcpt : receipt) :
  startswith "0x" (strip user_input) = true ->
  String.length (strip user_input) = 66%nat ->
  eth_get_transaction_receipt w3 (strip user_input) = Ok rcpt ->
  (forall pre lg post,
      rcpt_logs rcpt = pre ++ lg :: post ->
      forallb (fun l => negb (curve_analyzer.emits_token_exchange l)) pre = true ->
      curve_analyzer.emits_token_exchange lg = true ->
      curve_analyzer.resolve_pool_from_input w3 user_input
      = ([Rpc_get_transaction_receipt (strip user_input)],
         to_checksum_address (lg_address lg)))
  /\ (forallb (fun l => negb (curve_analyzer.emits_token_exchange l)) (rcpt_logs rcpt)
      = true ->
      curve_analyzer.resolve_pool_from_input w3 user_input
      = ([Rpc_get_transaction_receipt (strip user_input)],
         match rcpt_to rcpt with
         | Some to_ =>
             if nonempty to_ then to_checksum_address to_
             else Raise (ValueError
               "Provide a Curve pool address or a swap tx hash (or an Etherscan URL to either)")
         | None => Raise (ValueError
               "Provide a Curve pool address or a swap tx hash (or an Etherscan URL to either)")
         end)).
Proof.
  intros Hhex Hlen Hrcpt.
  assert (Hstrip : strip (strip user_input) = strip user_input).
  { unfold strip at 1. rewrite (lstrip_hex_prefix _ Hhex).
    unfold strip. apply rstrip_idempotent. }
  assert (Hresolve :
            curve_analyzer.resolve_pool_from_input w3 user_input
            = match List.find curve_analyzer.emits_token_exchange (rcpt_logs rcpt) with
              | Some lg => ([Rpc_get_transaction_receipt (strip user_input)],
                            to_checksum_address (lg_address lg))
              | None =>
                  ([Rpc_get_transaction_receipt (strip user_input)],
                   match rcpt_to rcpt with
                   | Some to_ =>
                       if nonempty to_ then to_checksum_address to_
                       else Raise (ValueError
               "Provide a Curve pool address or a swap tx hash (or an Etherscan URL to either)")
                   | None => Raise (ValueError
               "Provide a Curve pool address or a swap tx hash (or an Etherscan URL to either)")
                   end)
              end).
  { unfold curve_analyzer.resolve_pool_from_input.
    rewrite str_or_empty, (startswith_http_hex _ Hhex). cbn zeta.
    rewrite Hstrip, Hhex, Hlen, Hrcpt. cbn [andb Nat.eqb].
    unfold io_lift, io_bind, io_call, io_raise, after. cbn [fst snd app].
    destruct (List.find _ _) as [lg |]; [reflexivity |].
    destruct (rcpt_to rcpt) as [to_ |]; [destruct (nonempty to_) |]; reflexivity. }
  split.
  - intros pre lg post Hlogs Hpre Hlg.
    rewrite Hresolve, Hlogs, (find_first_match _ pre lg post Hpre Hlg). reflexivity.
  - intros Hnone. rewrite Hresolve, (find_no_match _ _ Hnone). reflexivity.
Qed.

Lemma resolve_pool_from_tx_witness :
  curve_analyzer.resolve_pool_from_input (H := hex_externals) registry_node
    "0x5c504ed432cb51138bcf09aa5e8a410dd4a1e204ef84bfed1be16dfba1b22060"
  = ([Rpc_get_transaction_receipt
        "0x5c504ed432cb51138bcf09aa5e8a410dd4a1e204ef84bfed1be16dfba1b22060"],
     Ok "0x4eeb03b2b8f55159f47b3548faafe3efaff43eb9").
Proof.
  eapply (proj1 (resolve_pool_from_tx (H := hex_externals) registry_node
                   "0x5c504ed432cb51138bcf09aa5e8a410dd4a1e204ef84bfed1be16dfba1b22060"
                   _ eq_refl eq_refl eq_refl)
            [RawLog 500 [abi_word 1; abi_word 4660] (DataBytes []) []
               "0x15700B564Ca08D9439C58cA5053166E8317aa138"]
            (RawLog 500
               [abi_word 0x8b3e96f2b889fa771c53c981b40daf005f63f637f1869f707052d15a3dd97140;
                abi_word 4660]
               (DataBytes (exchange_payload 0 1000000 1 999000)) []
               "0x4eeb03b2b8f55159f47b3548faafe3efaff43eb9")
            []).
  - reflexivity.
  - vm_compute. reflexivity.
  - vm_compute. reflexivity.
Defined.

Lemma lstrip_rstrip_lstrip (s : string) : lstrip (rstrip (lstrip s)) = rstrip (lstrip s).
Proof.
  assert (Hhead : forall t, lstrip t = EmptyString
                            \/ exists c t', lstrip t = String c t' /\ is_space c = false).
  { induction t as [| c t IH]; [left; reflexivity |]. cbn [lstrip].
    destruct (is_space c) eqn:Hc; [exact IH | right; exists c, t; auto]. }
  destruct (Hhead s) as [-> | (c & t' & -> & Hc)]; [reflexivity |].
  cbn [rstrip]. destruct (rstrip t'); rewrite ?Hc; cbn [lstrip]; rewrite Hc; reflexivity.
Qed.

Lemma strip_idempotent (s : string) : strip (strip s) = strip s.
Proof. unfold strip. rewrite lstrip_rstrip_lstrip. apply rstrip_idempotent. Qed.

(** X11.  An explorer URL resolves like what it wraps.  When the input is
    a URL whose path starts with [address] or [tx] (in any letter case)
    followed by a second component, the resolver behaves, calls and all,
    as if given that component alone. *)
Theorem resolve_pool_url `{Externals} (w3 : Web3) (user_input path p0 p1 : string)
    (rest : list string) :
  startswith "http" (strip user_input) = true ->
  urlparse_path (strip user_input) = Ok path ->
  List.filter nonempty (split_on "/" path) = p0 :: p1 :: rest ->
  lower p0 = "address" \/ lower p0 = "tx" ->
  startswith "http" (strip p1) = false ->
  curve_analyzer.resolve_pool_from_input w3 user_input
  = curve_analyzer.resolve_pool_from_input w3 p1.
Proof.
  intros Hhttp Hpath Hparts Hkind Hplain.
  unfold curve_analyzer.resolve_pool_from_input.
  rewrite !str_or_empty, Hhttp, Hpath, Hparts, Hplain.
  replace ((lower p0 =? "address")%string || (lower p0 =? "tx")%string) with true
    by (destruct Hkind as [-> | ->]; reflexivity).
  cbn zeta. rewrite strip_idempotent. reflexivity.
Qed.

Lemma resolve_pool_url_witness :
  curve_analyzer.resolve_pool_from_input (H := hex_externals) registry_node
    " https://etherscan.io/Address/0x1111111111111111111111111111111111111111 "
  = curve_analyzer.resolve_pool_from_input (H := hex_externals) registry_node
      "0x1111111111111111111111111111111111111111".
Proof.
  apply (resolve_pool_url (H := hex_externals) registry_node
           " https://etherscan.io/Address/0x1111111111111111111111111111111111111111 "
           "/Address/0x1111111111111111111111111111111111111111"
           "Address" "0x1111111111111111111111111111111111111111" []).
  - reflexivity.
  - reflexivity.
  - reflexivity.
  - left. reflexivity.
  - reflexivity.
Defined.

(** * Further properties of the fetchers *)

Section script_coverage.
Context {A : Type}.
Variable answer : Z -> Z -> list A.
Variables to_block step : Z.
Hypothesis additive :
  forall s m e, s <= m -> m < e -> answer s e = answer s m ++ answer (m + 1) e.
Hypothesis step_pos : 1 <= step.

Lemma fetch_event_logs_loop_covers (event : nat -> Z * Z -> result (list A)) :
  (forall n s e, event n (s, e) = Ok (answer s e)) ->
  forall fuel n start,
    (Z.to_nat (to_block + 1 - start) < fuel)%nat ->
    let run := analysis_curve_pool.fetch_event_logs_loop fuel event n to_block start step in
    run.2 = Returned tt
    /\ exists ws, tiles start to_block step ws
                  /\ queries run.1 = map (fun w => pair w.1 w.2) ws
                  /\ yields run.1 = flat_map (fun w => answer w.1 w.2) ws.
Proof.
  intros Hevent. induction fuel as [| fuel IH]; intros n start Hfuel; [lia |].
  cbn [analysis_curve_pool.fetch_event_logs_loop].
  destruct (Z.leb_spec start to_block) as [Hle | Hgt].
  - rewrite Hevent. set (end_ := Z.min (start + step - 1) to_block).
    destruct (IH (S n) (end_ + 1)) as (Hrun & ws & Ht & Hq & Hy); [subst end_; lia |].
    cbn zeta. trace_simpl.
    change (queries (EvQuery ?r :: ?t)) with (r :: queries t).
    change (yields (EvQuery _ :: ?t)) with (yields t).
    trace_simpl. trace_eval. split; [exact Hrun |].
    exists ((start, end_) :: ws). split; [cbn; auto |]. split.
    + cbn. rewrite Hq. reflexivity.
    + cbn. rewrite Hy, app_nil_r. reflexivity.
  - cbn. split; [reflexivity |]. exists []. cbn. auto.
Qed.

Lemma fetch_raw_logs_loop_covers (get_logs : nat -> log_filter -> result (list A))
    (address topic0 : string) :
  (forall n s e, get_logs n (LogFilter s e address [topic0]) = Ok (answer s e)) ->
  forall fuel n start,
    (Z.to_nat (to_block + 1 - start) < fuel)%nat ->
    let run := analysis_curve_pool.fetch_raw_logs_loop fuel get_logs address topic0
                 n to_block start step in
    run.2 = Returned tt
    /\ exists ws, tiles start to_block step ws
                  /\ queries run.1 = map (fun w => LogFilter w.1 w.2 address [topic0]) ws
                  /\ yields run.1 = flat_map (fun w => answer w.1 w.2) ws.
Proof.
  intros Hget. induction fuel as [| fuel IH]; intros n start Hfuel; [lia |].
  cbn [analysis_curve_pool.fetch_raw_logs_loop].
  destruct (Z.leb_spec start to_block) as [Hle | Hgt].
  - cbn zeta. rewrite Hget. set (end_ := Z.min (start + step - 1) to_block).
    destruct (IH (S n) (end_ + 1)) as (Hrun & ws & Ht & Hq & Hy); [subst end_; lia |].
    cbn zeta. trace_simpl.
    change (queries (EvQuery ?r :: ?t)) with (r :: queries t).
    change (yields (EvQuery _ :: ?t)) with (yields t).
    trace_simpl. trace_eval. split; [exact Hrun |].
    exists ((start, end_) :: ws). split; [cbn; auto |]. split.
    + cbn. rewrite Hq. reflexivity.
    + cbn. rewrite Hy, app_nil_r. reflexivity.
  - cbn. split; [reflexivity |]. exists []. cbn. auto.
Qed.
End script_coverage.

(** X12.  Against a node whose queries never fail and whose answer for a
    range is the answers for its two halves put together, the script's
    [fetch_event_logs] and [fetch_raw_logs], called with [step >= 1] on a
    non-empty range, return after one query per sub-window, in order, and
    yield exactly the answer to one query over the whole range. *)
Theorem script_fetchers_cover {A B} (event : nat -> Z * Z -> result (list A))
    (get_logs : nat -> log_filter -> result (list B))
    (logs_in : Z -> Z -> list A) (raw_in : Z -> Z -> list B)
    (address topic0 : string) (from_block to_block step : Z) (fuel : nat) :
  1 <= step -> from_block <= to_block ->
  (Z.to_nat (to_block + 1 - from_block) < fuel)%nat ->
  (forall n s e, event n (s, e) = Ok (logs_in s e)) ->
  (forall s m e, s <= m -> m < e -> logs_in s e = logs_in s m ++ logs_in (m + 1) e) ->
  (forall n s e, get_logs n (LogFilter s e address [topic0]) = Ok (raw_in s e)) ->
  (forall s m e, s <= m -> m < e -> raw_in s e = raw_in s m ++ raw_in (m + 1) e) ->
  covers_range pair logs_in from_block to_block step
    (analysis_curve_pool.fetch_event_logs fuel event from_block to_block step)
  /\ covers_range (fun s e => LogFilter s e address [topic0]) raw_in
       from_block to_block step
       (analysis_curve_pool.fetch_raw_logs fuel get_logs address topic0
          from_block to_block step).
Proof.
  intros Hstep Hrange Hfuel Hevent Hadd Hget Hradd. split.
  - destruct (fetch_event_logs_loop_covers logs_in to_block step Hstep event Hevent
                fuel 0%nat from_block Hfuel) as (Hrun & ws & Ht & Hq & Hy).
    unfold covers_range, analysis_curve_pool.fetch_event_logs.
    split; [exact Hrun |]. split; [exists ws; auto |].
    rewrite Hy. eapply tiles_answer; eauto.
  - destruct (fetch_raw_logs_loop_covers raw_in to_block step Hstep get_logs address topic0
                Hget fuel 0%nat from_block Hfuel) as (Hrun & ws & Ht & Hq & Hy).
    unfold covers_range, analysis_curve_pool.fetch_raw_logs.
    split; [exact Hrun |]. split; [exists ws; auto |].
    rewrite Hy. eapply tiles_answer; eauto.
Qed.

Lemma script_fetchers_cover_witness :
  covers_range pair (fun _ _ => @nil event_log) 1000 1099 37
    (analysis_curve_pool.fetch_event_logs 101
       (token_exchange_get_logs quiet_node "0x4eeb03b2b8f55159f47b3548faafe3efaff43eb9")
       1000 1099 37)
  /\ covers_range
       (fun s e => LogFilter s e "0x4eeb03b2b8f55159f47b3548faafe3efaff43eb9" ["0x8b3e"])
       (fun _ _ => @nil raw_log) 1000 1099 37
       (analysis_curve_pool.fetch_raw_logs 101 (eth_get_logs quiet_node)
          "0x4eeb03b2b8f55159f47b3548faafe3efaff43eb9" "0x8b3e" 1000 1099 37).
Proof.
  apply (script_fetchers_cover
           (token_exchange_get_logs quiet_node "0x4eeb03b2b8f55159f47b3548faafe3efaff43eb9")
           (eth_get_logs quiet_node) (fun _ _ => []) (fun _ _ => [])
           "0x4eeb03b2b8f55159f47b3548faafe3efaff43eb9" "0x8b3e" 1000 1099 37 101).
  - lia.
  - lia.
  - vm_compute. lia.
  - reflexivity.
  - reflexivity.
  - reflexivity.
  - reflexivity.
Defined.

Section script_windows.
Context {A : Type}.
Variables from_block to_block : Z.

Lemma fetch_event_logs_loop_windows (event : nat -> Z * Z -> result (list A)) :
  forall fuel n start step,
    1 <= step -> from_block <= start ->
    Forall (window_in_range pair from_block to_block)
      (queries (analysis_curve_pool.fetch_event_logs_loop fuel event n to_block start step).1).
Proof.
  induction fuel as [| fuel IH]; intros n start step Hstep Hfrom; [constructor |].
  cbn [analysis_curve_pool.fetch_event_logs_loop].
  destruct (Z.leb_spec start to_block); [| constructor].
  assert (Hthis : window_in_range pair from_block to_block
                    (start, Z.min (start + step - 1) to_block))
    by (eexists _, _; split; [reflexivity | lia]).
  destruct (event n _) as [logs | e].
  - trace_simpl. change (queries (EvQuery ?r :: ?t)) with (r :: queries t).
    trace_simpl. trace_eval. constructor; [exact Hthis | apply IH; lia].
  - destruct (is_range_limit_error e); [| repeat constructor; exact Hthis].
    repeat match goal with |- context [?a <? ?b] => destruct (Z.ltb_spec a b) end;
      trace_simpl; trace_eval; (constructor; [exact Hthis | apply IH; dlia]).
Qed.

Lemma fetch_raw_logs_loop_windows (get_logs : nat -> log_filter -> result (list A))
    (address topic0 : string) :
  forall fuel n start step,
    1 <= step -> from_block <= start ->
    Forall (window_in_range (fun s e => LogFilter s e address [topic0])
              from_block to_block)
      (queries (analysis_curve_pool.fetch_raw_logs_loop fuel get_logs address topic0
                  n to_block start step).1).
Proof.
  induction fuel as [| fuel IH]; intros n start step Hstep Hfrom; [constructor |].
  cbn [analysis_curve_pool.fetch_raw_logs_loop].
  destruct (Z.leb_spec start to_block); [| constructor].
  assert (Hthis : window_in_range (fun s e => LogFilter s e address [topic0])
                    from_block to_block
                    (LogFilter start (Z.min (start + step - 1) to_block) address [topic0]))
    by (eexists _, _; split; [reflexivity | lia]).
  cbn zeta. destruct (get_logs n _) as [logs | e].
  - trace_simpl. change (queries (EvQuery ?r :: ?t)) with (r :: queries t).
    trace_simpl. trace_eval. constructor; [exact Hthis | apply IH; lia].
  - destruct (is_range_limit_error e); [| repeat constructor; exact Hthis].
    trace_simpl. trace_eval. constructor; [exact Hthis | apply IH; dlia].
Qed.
End script_windows.

Section paging_windows.
Context {R A : Type}.
Variable request : Z -> Z -> R.
Variable query : nat -> R -> result (list A).
Variables from_block to_block : Z.
Variable progress_cb : bool.
Variable max_pages : Z.

Local Abbreviation outer := (curve_analyzer.paging_outer request query from_block to_block
                     progress_cb max_pages).
Local Abbreviation inner := (curve_analyzer.paging_inner request query from_block to_block
                     progress_cb max_pages).

Lemma paging_windows fuel :
  (forall n start step pages,
      1 <= step -> from_block <= start ->
      Forall (window_in_range request from_block to_block)
        (queries (outer fuel n start step pages).1))
  /\ (forall n start end_ step retries pages,
      1 <= step -> from_block <= start -> start <= end_ -> end_ <= to_block ->
      Forall (window_in_range request from_block to_block)
        (queries (inner fuel n start end_ step retries pages).1)).
Proof.
  induction fuel as [| fuel [IHo IHi]]; [split; intros; constructor |].
  split.
  - intros n start step pages Hstep Hfrom. rewrite paging_outer_unfold.
    destruct (Z.leb_spec start to_block); [| constructor].
    apply IHi; lia.
  - intros n start end_ step retries pages Hstep Hfrom Hend Hto.
    assert (Hthis : window_in_range request from_block to_block (request start end_))
      by (exists start, end_; auto).
    rewrite paging_inner_unfold.
    destruct (query n _) as [logs | e].
    + trace_simpl. change (queries (EvQuery ?r :: ?t)) with (r :: queries t).
      trace_simpl. constructor; [exact Hthis |].
      destruct progress_cb; trace_eval;
        (destruct (Z.leb_spec max_pages (pages + 1)); [constructor | apply IHo; lia]).
    + destruct (is_range_or_limit_error e).
      * destruct (5 <=? retries + 1); trace_simpl; trace_eval;
          (constructor; [exact Hthis |]).
        -- destruct (max_pages <=? pages); [constructor | apply IHo; lia].
        -- apply IHi; dlia.
      * destruct (2 <=? retries + 1); trace_simpl; trace_eval;
          (constructor; [exact Hthis |]).
        -- destruct (max_pages <=? pages); [constructor | apply IHo; lia].
        -- apply IHi; lia.
Qed.
End paging_windows.

(** X13.  Called with [step >= 1], none of the four fetchers ever asks
    the node about a block outside [from_block..to_block], nor for an
    empty window: every query, first attempt or retry, is for a window
    [s..e] with [from_block <= s <= e <= to_block]. *)
Theorem fetchers_stay_in_range {A B} `{Externals} (fuel : nat) (w3 : Web3)
    (event : nat -> Z * Z -> result (list A))
    (get_logs : nat -> log_filter -> result (list B))
    (address topic0 : string) (from_block to_block step : Z)
    (progress_cb : bool) (max_pages : Z) :
  1 <= step ->
  Forall (window_in_range pair from_block to_block)
    (queries (analysis_curve_pool.fetch_event_logs fuel event from_block to_block step).1)
  /\ Forall (window_in_range (fun s e => LogFilter s e address [topic0])
               from_block to_block)
       (queries (analysis_curve_pool.fetch_raw_logs fuel get_logs address topic0
                   from_block to_block step).1)
  /\ Forall (window_in_range pair from_block to_block)
       (queries (curve_analyzer.fetch_event_logs_adaptive fuel event from_block to_block
                   step progress_cb max_pages).1)
  /\ Forall (window_in_range
               (fun s e => LogFilter s e address [curve_analyzer.TOPIC_TOKEN_EX])
               from_block to_block)
       (queries (curve_analyzer.fetch_token_exchange_raw fuel w3 address from_block
                   to_block step progress_cb max_pages).1).
Proof.
  intros Hstep. repeat split.
  - apply fetch_event_logs_loop_windows; lia.
  - apply fetch_raw_logs_loop_windows; lia.
  - apply paging_windows; lia.
  - apply (paging_windows
             (fun s e => LogFilter s e address [curve_analyzer.TOPIC_TOKEN_EX])); lia.
Qed.

Lemma fetchers_stay_in_range_witness :
  let pool := "0x4eeb03b2b8f55159f47b3548faafe3efaff43eb9" in
  let event := token_exchange_get_logs capped_node pool in
  let topic0 := curve_analyzer.TOPIC_TOKEN_EX (H := rational_externals) in
  Forall (window_in_range pair 1000 1099)
    (queries (analysis_curve_pool.fetch_event_logs 60 event 1000 1099 1000).1)
  /\ Forall (window_in_range (fun s e => LogFilter s e pool [topic0]) 1000 1099)
       (queries (analysis_curve_pool.fetch_raw_logs 60 (eth_get_logs capped_node) pool
                   topic0 1000 1099 1000).1)
  /\ Forall (window_in_range pair 1000 1099)
       (queries (curve_analyzer.fetch_event_logs_adaptive 60 event 1000 1099 1000
                   true 20000).1)
  /\ Forall (window_in_range (fun s e => LogFilter s e pool [topic0]) 1000 1099)
       (queries (curve_analyzer.fetch_token_exchange_raw (H := rational_externals) 60
                   capped_node pool 1000 1099 1000 true 20000).1).
Proof.
  apply (fetchers_stay_in_range (H := rational_externals) 60 capped_node
           (token_exchange_get_logs capped_node "0x4eeb03b2b8f55159f47b3548faafe3efaff43eb9")
           (eth_get_logs capped_node)
           "0x4eeb03b2b8f55159f47b3548faafe3efaff43eb9"
           (curve_analyzer.TOPIC_TOKEN_EX (H := rational_externals))
           1000 1099 1000 true 20000).
  lia.
Defined.

Section paging_budget.
Context {R A : Type}.
Variable request : Z -> Z -> R.
Variable query : nat -> R -> result (list A).
Variables from_block to_block : Z.
Variable max_pages : Z.

Local Abbreviation outer := (curve_analyzer.paging_outer request query from_block to_block
                     true max_pages).
Local Abbreviation inner := (curve_analyzer.paging_inner request query from_block to_block
                     true max_pages).

(** One progress report per fetched window, and no more windows than
    [max_pages] allows; the first window is fetched whatever [max_pages]
    is. *)
Lemma paging_pages fuel :
  (forall n start step pages,
      Z.of_nat (List.length (progress_values (outer fuel n start step pages).1))
      <= Z.max 1 (max_pages - pages))
  /\ (forall n start end_ step retries pages,
      Z.of_nat (List.length (progress_values
                               (inner fuel n start end_ step retries pages).1))
      <= Z.max 1 (max_pages - pages)).
Proof.
  induction fuel as [| fuel [IHo IHi]]; [split; intros; cbn; lia |].
  split.
  - intros n start step pages. rewrite paging_outer_unfold.
    destruct (start <=? to_block); [apply IHi | cbn; lia].
  - intros n start end_ step retries pages. rewrite paging_inner_unfold.
    destruct (query n _) as [logs | e].
    + trace_simpl. change (progress_values (EvQuery _ :: ?t)) with (progress_values t).
      trace_simpl. trace_eval. cbn [List.length].
      destruct (Z.leb_spec max_pages (pages + 1)); [cbn; lia |].
      specialize (IHo (S n) (end_ + 1) step (pages + 1)). lia.
    + destruct (is_range_or_limit_error e);
        [destruct (5 <=? retries + 1) | destruct (2 <=? retries + 1)];
        trace_simpl; trace_eval; try apply IHi;
        (destruct (Z.leb_spec max_pages pages); [cbn; lia | apply IHo]).
Qed.

(** The fractions reported never decrease and never exceed 1. *)
Lemma progress_of_mono (e1 e2 : Z) :
  e1 <= e2 ->
  (curve_analyzer.progress_of from_block to_block e1
   <= curve_analyzer.progress_of from_block to_block e2)%Q.
Proof.
  intros Hle. unfold curve_analyzer.progress_of.
  apply Q.min_le_compat_l. unfold Qle. cbn [Qnum Qden].
  apply Z.mul_le_mono_nonneg_r; lia.
Qed.

Lemma progress_of_le_1 (e : Z) :
  (curve_analyzer.progress_of from_block to_block e <= 1)%Q.
Proof. apply Q.le_min_l. Qed.

Lemma progress_of_nonneg (e : Z) :
  from_block <= e -> (0 <= curve_analyzer.progress_of from_block to_block e)%Q.
Proof.
  intros Hle. unfold curve_analyzer.progress_of. apply Q.min_glb; [discriminate |].
  unfold Qle. cbn [Qnum Qden]. lia.
Qed.

Lemma paging_progress fuel :
  (forall n start step pages q0,
      1 <= step ->
      (forall e, start <= e -> (q0 <= curve_analyzer.progress_of from_block to_block e)%Q) ->
      rises_to_one q0 (progress_values (outer fuel n start step pages).1))
  /\ (forall n start end_ step retries pages q0,
      1 <= step -> start <= end_ -> start <= to_block ->
      (forall e, start <= e -> (q0 <= curve_analyzer.progress_of from_block to_block e)%Q) ->
      rises_to_one q0 (progress_values (inner fuel n start end_ step retries pages).1)).
Proof.
  induction fuel as [| fuel [IHo IHi]]; [split; intros; exact I |].
  split.
  - intros n start step pages q0 Hstep Hq0. rewrite paging_outer_unfold.
    destruct (Z.leb_spec start to_block); [apply IHi; auto; lia | exact I].
  - intros n start end_ step retries pages q0 Hstep Hend Hto Hq0.
    assert (Hlater : forall e, end_ + 1 <= e ->
              (q0 <= curve_analyzer.progress_of from_block to_block e)%Q)
      by (intros e He; apply Hq0; lia).
    rewrite paging_inner_unfold.
    destruct (query n _) as [logs | e].
    + trace_simpl. change (progress_values (EvQuery _ :: ?t)) with (progress_values t).
      trace_simpl. trace_eval. cbn [rises_to_one].
      split; [apply Hq0, Hend |]. split; [apply progress_of_le_1 |].
      destruct (max_pages <=? pages + 1); [exact I |].
      apply IHo; [exact Hstep |]. intros e He. apply progress_of_mono. lia.
    + destruct (is_range_or_limit_error e);
        [destruct (5 <=? retries + 1) | destruct (2 <=? retries + 1)];
        trace_simpl; trace_eval;
        try (destruct (max_pages <=? pages); [exact I | apply IHo; auto]).
      * apply IHi; auto; dlia.
      * apply IHi; auto; lia.
Qed.
End paging_budget.

(** X14.  [max_pages] caps the number of windows a library fetcher
    completes, except that the first one is always attempted: the
    callback is called at most [max(1, max_pages)] times, whatever the
    range, the step and the node's answers. *)
Theorem max_pages_caps_windows {A} `{Externals} (fuel : nat) (w3 : Web3)
    (event : nat -> Z * Z -> result (list A)) (address : string)
    (from_block to_block step max_pages : Z) :
  Z.of_nat (List.length (progress_values
    (curve_analyzer.fetch_event_logs_adaptive fuel event from_block to_block step
       true max_pages).1)) <= Z.max 1 max_pages
  /\ Z.of_nat (List.length (progress_values
       (curve_analyzer.fetch_token_exchange_raw fuel w3 address from_block to_block step
          true max_pages).1)) <= Z.max 1 max_pages.
Proof.
  split.
  - pose proof (proj1 (paging_pages pair event from_block to_block max_pages fuel)
                  0%nat from_block step 0) as Hcap.
    unfold curve_analyzer.fetch_event_logs_adaptive. lia.
  - pose proof (proj1 (paging_pages
                         (fun s e => LogFilter s e address [curve_analyzer.TOPIC_TOKEN_EX])
                         (eth_get_logs w3) from_block to_block max_pages fuel)
                  0%nat from_block step 0) as Hcap.
    unfold curve_analyzer.fetch_token_exchange_raw. lia.
Qed.

(** X15.  Called with [step >= 1], a library fetcher hands [progress_cb]
    fractions that lie between 0 and 1 and never decrease, whatever the
    node answers. *)
Theorem progress_never_decreases {A} `{Externals} (fuel : nat) (w3 : Web3)
    (event : nat -> Z * Z -> result (list A)) (address : string)
    (from_block to_block step max_pages : Z) :
  1 <= step ->
  rises_to_one 0 (progress_values
    (curve_analyzer.fetch_event_logs_adaptive fuel event from_block to_block step
       true max_pages).1)
  /\ rises_to_one 0 (progress_values
       (curve_analyzer.fetch_token_exchange_raw fuel w3 address from_block to_block step
          true max_pages).1).
Proof.
  intros Hstep. split; apply paging_progress; auto;
    intros e He; apply progress_of_nonneg; exact He.
Qed.

Lemma progress_never_decreases_witness :
  rises_to_one 0 (progress_values
    (curve_analyzer.fetch_event_logs_adaptive 60
       (token_exchange_get_logs capped_node "0x4eeb03b2b8f55159f47b3548faafe3efaff43eb9")
       1000 1099 1000 true 20000).1)
  /\ rises_to_one 0 (progress_values
       (curve_analyzer.fetch_token_exchange_raw (H := rational_externals) 60 capped_node
          "0x4eeb03b2b8f55159f47b3548faafe3efaff43eb9" 1000 1099 1000 true 20000).1).
Proof.
  apply (progress_never_decreases (H := rational_externals) 60 capped_node
           (token_exchange_get_logs capped_node "0x4eeb03b2b8f55159f47b3548faafe3efaff43eb9")
           "0x4eeb03b2b8f55159f47b3548faafe3efaff43eb9" 1000 1099 1000 20000).
  lia.
Defined.

Section paging_attempts.
Context {R A : Type}.
Variable request : Z -> Z -> R.
Variable query : nat -> R -> result (list A).
Variables from_block to_block : Z.
Variable progress_cb : bool.
Variable max_pages : Z.

Local Abbreviation outer := (curve_analyzer.paging_outer request query from_block to_block
                     progress_cb max_pages).
Local Abbreviation inner := (curve_analyzer.paging_inner request query from_block to_block
                     progress_cb max_pages).

Lemma paging_attempts fuel :
  (forall n start step pages,
      (outer fuel n start step pages).2 = Returned tt ->
      (List.length (queries (outer fuel n start step pages).1)
       <= 5 * List.length (start_values (outer fuel n start step pages).1))%nat)
  /\ (forall n start end_ step retries pages,
      0 <= retries <= 4 ->
      (inner fuel n start end_ step retries pages).2 = Returned tt ->
      (List.length (queries (inner fuel n start end_ step retries pages).1)
       + Z.to_nat retries
       <= 5 * List.length (start_values (inner fuel n start end_ step retries pages).1))%nat).
Proof.
  induction fuel as [| fuel [IHo IHi]]; [split; intros; discriminate |].
  split.
  - intros n start step pages. rewrite paging_outer_unfold.
    destruct (start <=? to_block); [| cbn; lia].
    intros Hrun. specialize (IHi n start (Z.min (start + step - 1) to_block) step 0 pages).
    cbn in IHi. rewrite Nat.add_0_r in IHi. apply IHi; [lia | exact Hrun].
  - intros n start end_ step retries pages Hretries. rewrite paging_inner_unfold.
    destruct (query n _) as [logs | e].
    + trace_simpl.
      change (queries (EvQuery ?r :: ?t)) with (r :: queries t).
      change (start_values (EvQuery _ :: ?t)) with (start_values t).
      trace_simpl. destruct progress_cb; trace_eval; cbn [List.length];
        (destruct (max_pages <=? pages + 1);
         [intros _; cbn [fst List.length queries start_values omap list_omap]; lia
         | intros Hrun; specialize (IHo _ _ _ _ Hrun); lia]).
    + destruct (is_range_or_limit_error e).
      * destruct (Z.leb_spec 5 (retries + 1)); trace_simpl; trace_eval;
          cbn [List.length].
        -- destruct (max_pages <=? pages);
             [intros _; cbn [fst List.length queries start_values omap list_omap]; lia
             | intros Hrun; specialize (IHo _ _ _ _ Hrun); lia].
        -- intros Hrun.
           specialize (IHi (S n) start (Z.min (start + Z.max 1 (step / 2) - 1) to_block)
                         (Z.max 1 (step / 2)) (retries + 1) pages).
           lapply IHi; [clear IHi; intros IHi; specialize (IHi Hrun); lia | lia].
      * destruct (Z.leb_spec 2 (retries + 1)); trace_simpl; trace_eval;
          cbn [List.length].
        -- destruct (max_pages <=? pages);
             [intros _; cbn [fst List.length queries start_values omap list_omap]; lia
             | intros Hrun; specialize (IHo _ _ _ _ Hrun); lia].
        -- intros Hrun.
           specialize (IHi (S n) start end_ step (retries + 1) pages).
           lapply IHi; [clear IHi; intros IHi; specialize (IHi Hrun); lia | lia].
Qed.
End paging_attempts.



Section script_errors.
Context {A : Type}.

Lemma fetch_event_logs_loop_raises (event : nat -> Z * Z -> result (list A)) to_block :
  forall fuel n start step e,
    (analysis_curve_pool.fetch_event_logs_loop fuel event n to_block start step).2
    = Raised e ->
    is_range_limit_error e = false
    /\ exists m r,
        event m r = Raise e
        /\ last (analysis_curve_pool.fetch_event_logs_loop fuel event n to_block
                   start step).1 = Some (EvQuery r).
Proof.
  assert (Hlast : forall (tr rest : list (fetch_event (Z * Z) A)) (r : Z * Z),
             last rest = Some (EvQuery r) -> last (tr ++ rest) = Some (EvQuery r)).
  { intros tr rest r Hr. rewrite last_app, Hr. reflexivity. }
  induction fuel as [| fuel IH]; intros n start step e; [discriminate |].
  cbn [analysis_curve_pool.fetch_event_logs_loop].
  destruct (start <=? to_block); [| discriminate].
  destruct (event n _) as [logs | e'] eqn:Hevent.
  - cbn [after fst snd]. intros Hrun.
    destruct (IH _ _ _ _ Hrun) as (Hkind & m & r & Hm & Hr).
    split; [exact Hkind |]. exists m, r. split; [exact Hm | apply Hlast, Hr].
  - destruct (is_range_limit_error e') eqn:Hkind.
    + repeat match goal with |- context [?a <? ?b] => destruct (a <? b) end;
        cbn [after fst snd]; intros Hrun;
        destruct (IH _ _ _ _ Hrun) as (Hkind' & m & r & Hm & Hr);
        (split; [exact Hkind' |]); exists m, r; (split; [exact Hm | apply Hlast, Hr]).
    + cbn [fst snd]. intros [= <-]. split; [exact Hkind |]. eauto.
Qed.

Lemma fetch_raw_logs_loop_raises (get_logs : nat -> log_filter -> result (list A))
    address topic0 to_block :
  forall fuel n start step e,
    (analysis_curve_pool.fetch_raw_logs_loop fuel get_logs address topic0 n to_block
       start step).2 = Raised e ->
    is_range_limit_error e = false
    /\ exists m r,
        get_logs m r = Raise e
        /\ last (analysis_curve_pool.fetch_raw_logs_loop fuel get_logs address topic0 n
                   to_block start step).1 = Some (EvQuery r).
Proof.
  assert (Hlast : forall (tr rest : list (fetch_event log_filter A)) (r : log_filter),
             last rest = Some (EvQuery r) -> last (tr ++ rest) = Some (EvQuery r)).
  { intros tr rest r Hr. rewrite last_app, Hr. reflexivity. }
  induction fuel as [| fuel IH]; intros n start step e; [discriminate |].
  cbn [analysis_curve_pool.fetch_raw_logs_loop].
  destruct (start <=? to_block); [| discriminate].
  cbn zeta. destruct (get_logs n _) as [logs | e'] eqn:Hget.
  - cbn [after fst snd]. intros Hrun.
    destruct (IH _ _ _ _ Hrun) as (Hkind & m & r & Hm & Hr).
    split; [exact Hkind |]. exists m, r. split; [exact Hm | apply Hlast, Hr].
  - destruct (is_range_limit_error e') eqn:Hkind.
    + cbn [after fst snd]. intros Hrun.
      destruct (IH _ _ _ _ Hrun) as (Hkind' & m & r & Hm & Hr).
      split; [exact Hkind' |]. exists m, r. split; [exact Hm | apply Hlast, Hr].
    + cbn [fst snd]. intros [= <-]. split; [exact Hkind |]. eauto.
Qed.
End script_errors.

(** X17.  The script's fetchers raise only what the node raised, and
    never a capacity error: when [fetch_event_logs] or [fetch_raw_logs]
    raises [e], the text of [e] has none of the three capacity phrases,
    and [e] is the node's answer to the query the call ended on. *)
Theorem script_fetchers_raise_node_errors {A B} (fuel : nat)
    (event : nat -> Z * Z -> result (list A))
    (get_logs : nat -> log_filter -> result (list B))
    (address topic0 : string) (from_block to_block step : Z) :
  let structured := analysis_curve_pool.fetch_event_logs fuel event from_block
                      to_block step in
  let raw := analysis_curve_pool.fetch_raw_logs fuel get_logs address topic0
               from_block to_block step in
  (forall e, structured.2 = Raised e ->
             is_range_limit_error e = false
             /\ exists m r, event m r = Raise e /\ last structured.1 = Some (EvQuery r))
  /\ (forall e, raw.2 = Raised e ->
                is_range_limit_error e = false
                /\ exists m r, get_logs m r = Raise e /\ last raw.1 = Some (EvQuery r)).
Proof.
  split; intros e Hrun.
  - apply fetch_event_logs_loop_raises, Hrun.
  - apply fetch_raw_logs_loop_raises, Hrun.
Qed.

Lemma script_fetchers_raise_node_errors_witness :
  let e := Exn "ConnectionError" "connection reset by peer" in
  let event : nat -> Z * Z -> result (list event_log) :=
    fun n _ => match n with
               | O => Raise (Exn "ValueError" "query exceeds max block range 37")
               | 1%nat => Ok []
               | _ => Raise e
               end in
  let structured := analysis_curve_pool.fetch_event_logs 20 event 1000 1999 1000 in
  is_range_limit_error e = false
  /\ exists m r, event m r = Raise e /\ last structured.1 = Some (EvQuery r).
Proof.
  apply (proj1 (script_fetchers_raise_node_errors (B := raw_log) 20
                  (fun n _ => match n with
                              | O => Raise (Exn "ValueError" "query exceeds max block range 37")
                              | 1%nat => Ok []
                              | _ => Raise (Exn "ConnectionError" "connection reset by peer")
                              end)
                  (fun _ _ => Ok []) "" "" 1000 1999 1000)
           (Exn "ConnectionError" "connection reset by peer")).
  reflexivity.
Defined.

(** X18.  The library's fetchers never raise: whatever the node answers
    and however long they run, a call of [fetch_event_logs_adaptive] or of
    [fetch_token_exchange_raw] does not end in an exception. *)
Theorem library_fetchers_never_raise {A} `{Externals} (fuel : nat) (w3 : Web3)
    (event : nat -> Z * Z -> result (list A)) (address : string)
    (from_block to_block step : Z) (progress_cb : bool) (max_pages : Z) (e : exn) :
  (curve_analyzer.fetch_event_logs_adaptive fuel event from_block to_block step
     progress_cb max_pages).2 <> Raised e
  /\ (curve_analyzer.fetch_token_exchange_raw fuel w3 address from_block to_block step
        progress_cb max_pages).2 <> Raised e.
Proof. split; apply paging_never_raises. Qed.

(** * Further properties of the analysis *)

Section rows.
Context `{Externals}.
Variable w3 : Web3.
Variable dec_by_index : gmap Z Z.
Variables s0 s1 : string.

Local Abbreviation sym_by_index := ({[ 0 := s0; 1 := s1 ]} : gmap Z string).

Lemma sym_by_index_0 : sym_by_index !! 0 = Some s0.
Proof. apply lookup_insert_eq. Qed.

Lemma sym_by_index_1 : sym_by_index !! 1 = Some s1.
Proof. rewrite lookup_insert_ne by discriminate. apply lookup_singleton_eq. Qed.

(** What a row that [swap_entry] builds looks like. *)
Lemma swap_entry_row (sold_id sold bought_id bought blk ts : Z) (tx : list byte)
    (row : curve_analyzer.swap) :
  curve_analyzer.swap_entry dec_by_index sym_by_index sold_id sold bought_id bought
    blk ts tx = Ok (Some row) ->
  row_well_formed s0 s1 row
  /\ curve_analyzer.block row = blk /\ curve_analyzer.time row = ts.
Proof.
  unfold curve_analyzer.swap_entry, row_well_formed.
  destruct (dec_by_index !! sold_id) as [ds |]; [| discriminate].
  destruct (dec_by_index !! bought_id) as [db |]; [| discriminate].
  destruct (Z.eqb_spec sold_id 0) as [-> | ?], (Z.eqb_spec bought_id 1) as [-> | ?];
    cbn [andb].
  - rewrite sym_by_index_0, sym_by_index_1. intros [= <-]. cbn. auto 10.
  - destruct (Z.eqb_spec 0 1); [lia |]. cbn [andb].
    destruct (bought_id =? 0); discriminate.
  - destruct (Z.eqb_spec sold_id 1) as [-> | ?]; cbn [andb]; [| discriminate].
    destruct (Z.eqb_spec 1 0); [lia | discriminate].
  - destruct (Z.eqb_spec sold_id 1) as [-> | ?], (Z.eqb_spec bought_id 0) as [-> | ?];
      cbn [andb]; try discriminate.
    rewrite sym_by_index_0, sym_by_index_1. intros [= <-]. cbn. auto 10.
Qed.

(** A property [inv] of the cache that [get_block_ts] keeps, and under
    which it returns timestamps that satisfy [timed]. *)
Variable inv : gmap Z Z -> Prop.
Variable timed : Z -> Z -> Prop.
Hypothesis inv_kept :
  forall cache blk, inv cache -> inv (curve_analyzer.get_block_ts w3 cache blk).2.
Hypothesis inv_timed :
  forall cache blk ts,
    inv cache -> (curve_analyzer.get_block_ts w3 cache blk).1 = Ok ts -> timed blk ts.

Local Abbreviation row_good := (row_timed_by s0 s1 timed).

Lemma abi_entry_row (cache : gmap Z Z) (ev : event_log) (row : curve_analyzer.swap) :
  inv cache ->
  (curve_analyzer.abi_entry w3 dec_by_index sym_by_index cache ev).1 = Ok (Some row) ->
  row_good row /\ curve_analyzer.block row = ev_blockNumber ev.
Proof.
  intros Hinv. unfold curve_analyzer.abi_entry. cbn [fst].
  destruct (curve_analyzer.get_block_ts w3 cache (ev_blockNumber ev)).1 as [ts | e]
    eqn:Hts; [| discriminate].
  cbn [result_bind]. intros Hrow.
  destruct (swap_entry_row _ _ _ _ _ _ _ _ Hrow) as (Hwf & Hblk & Htime).
  split; [| exact Hblk]. split; [exact Hwf |].
  rewrite Hblk, Htime. eapply inv_timed; eauto.
Qed.

Lemma raw_entry_row (cache : gmap Z Z) (lg : raw_log) (row : curve_analyzer.swap) :
  inv cache ->
  (curve_analyzer.raw_entry w3 dec_by_index sym_by_index cache lg).1 = Ok (Some row) ->
  row_good row /\ curve_analyzer.block row = lg_blockNumber lg.
Proof.
  intros Hinv. unfold curve_analyzer.raw_entry. cbn [fst].
  destruct (curve_analyzer.get_block_ts w3 cache (lg_blockNumber lg)).1 as [ts | e]
    eqn:Hts; [| discriminate].
  cbn [result_bind].
  destruct (curve_analyzer.data_bytes (lg_data lg)) as [data | e]; [| discriminate].
  cbn [result_bind].
  destruct (curve_analyzer.decode_token_exchange (lg_topics lg) data)
    as [[[[[buyer sold_id] tokens_sold] bought_id] tokens_bought] | e]; [| discriminate].
  cbn [result_bind]. intros Hrow.
  destruct (swap_entry_row _ _ _ _ _ _ _ _ Hrow) as (Hwf & Hblk & Htime).
  split; [| exact Hblk]. split; [exact Hwf |].
  rewrite Hblk, Htime. eapply inv_timed; eauto.
Qed.

(** The structured loop only adds rows, each one good and for an entry
    it pulled, in the order pulled; and it keeps the cache property. *)
Lemma abi_pass_rows (expired : nat -> bool) tr :
  forall i cache swaps,
    inv cache ->
    let pass := curve_analyzer.abi_pass w3 dec_by_index sym_by_index expired tr i cache
                  swaps in
    inv pass.2.2
    /\ exists new,
        pass.2.1.2 = swaps ++ new
        /\ Forall row_good new
        /\ sublist (map curve_analyzer.block new) (map ev_blockNumber (yields pass.1)).
Proof.
  induction tr as [| ev tr IH]; intros i cache swaps Hinv.
  { cbn. split; [exact Hinv |]. exists []. rewrite app_nil_r. repeat split; constructor. }
  destruct ev as [r | l | p | v | v];
    try (cbn [curve_analyzer.abi_pass after fst snd];
         change (yields (?x :: ?t)) with (yields t); apply IH, Hinv).
  cbn [curve_analyzer.abi_pass].
  assert (Hkept : inv (curve_analyzer.abi_entry w3 dec_by_index sym_by_index cache l).2)
    by (apply inv_kept, Hinv).
  pose proof (abi_entry_row cache l) as Hentry.
  destruct (curve_analyzer.abi_entry w3 dec_by_index sym_by_index cache l).1
    as [[row |] | e].
  - destruct (Hentry row Hinv eq_refl) as (Hgood & Hblk).
    destruct (expired i).
    + cbn [fst snd]. split; [exact Hkept |]. exists [row].
      split; [reflexivity |]. split; [constructor; [exact Hgood | constructor] |].
      cbn. rewrite Hblk. apply sublist_skip, sublist_nil.
    + cbn [after fst snd]. change (yields ([EvYield l] ++ ?t)) with (l :: yields t).
      destruct (IH (S i) _ (swaps ++ [row]) Hkept) as (Hinv' & new & Hrows & Hnew & Hsub).
      split; [exact Hinv' |]. exists (row :: new).
      split; [rewrite Hrows, <- app_assoc; reflexivity |].
      split; [constructor; [exact Hgood | exact Hnew] |].
      cbn. rewrite Hblk. apply sublist_skip, Hsub.
  - cbn [after fst snd]. change (yields ([EvYield l] ++ ?t)) with (l :: yields t).
    destruct (IH (S i) _ swaps Hkept) as (Hinv' & new & Hrows & Hnew & Hsub).
    split; [exact Hinv' |]. exists new. split; [exact Hrows |].
    split; [exact Hnew |]. cbn. apply sublist_cons, Hsub.
  - cbn [fst snd]. split; [exact Hkept |]. exists []. rewrite app_nil_r.
    repeat split; constructor. apply sublist_nil.
Qed.

Lemma raw_pass_rows tr :
  forall cache swaps,
    inv cache ->
    let pass := curve_analyzer.raw_pass w3 dec_by_index sym_by_index tr cache swaps in
    inv pass.2.2
    /\ forall rows,
        pass.2.1 = Ok rows ->
        exists new,
          rows = swaps ++ new
          /\ Forall row_good new
          /\ sublist (map curve_analyzer.block new) (map lg_blockNumber (yields pass.1)).
Proof.
  induction tr as [| ev tr IH]; intros cache swaps Hinv.
  { cbn. split; [exact Hinv |]. intros rows [= <-]. exists []. rewrite app_nil_r.
    repeat split; constructor. }
  destruct ev as [r | l | p | v | v];
    try (cbn [curve_analyzer.raw_pass after fst snd];
         change (yields (?x :: ?t)) with (yields t); apply IH, Hinv).
  cbn [curve_analyzer.raw_pass].
  assert (Hkept : inv (curve_analyzer.raw_entry w3 dec_by_index sym_by_index cache l).2)
    by (apply inv_kept, Hinv).
  pose proof (raw_entry_row cache l) as Hentry.
  destruct (curve_analyzer.raw_entry w3 dec_by_index sym_by_index cache l).1
    as [[row |] | e].
  - destruct (Hentry row Hinv eq_refl) as (Hgood & Hblk).
    cbn [after fst snd]. change (yields ([EvYield l] ++ ?t)) with (l :: yields t).
    destruct (IH _ (swaps ++ [row]) Hkept) as (Hinv' & Hrest).
    split; [exact Hinv' |]. intros rows Hrows.
    destruct (Hrest rows Hrows) as (new & -> & Hnew & Hsub).
    exists (row :: new). split; [rewrite <- app_assoc; reflexivity |].
    split; [constructor; [exact Hgood | exact Hnew] |].
    cbn. rewrite Hblk. apply sublist_skip, Hsub.
  - cbn [after fst snd]. change (yields ([EvYield l] ++ ?t)) with (l :: yields t).
    destruct (IH _ swaps Hkept) as (Hinv' & Hrest).
    split; [exact Hinv' |]. intros rows Hrows.
    destruct (Hrest rows Hrows) as (new & -> & Hnew & Hsub).
    exists new. split; [reflexivity |]. split; [exact Hnew |].
    cbn. apply sublist_cons, Hsub.
  - cbn [fst snd]. split; [exact Hkept |]. discriminate.
Qed.
End rows.

Lemma get_block_ts_coherent (w3 : Web3) (cache : gmap Z Z) (blk : Z) :
  cache_coherent w3 cache ->
  cache_coherent w3 (curve_analyzer.get_block_ts w3 cache blk).2
  /\ forall ts, (curve_analyzer.get_block_ts w3 cache blk).1 = Ok ts ->
                eth_get_block w3 blk = Ok ts.
Proof.
  intros Hcache. unfold curve_analyzer.get_block_ts.
  destruct (cache !! blk) as [ts |] eqn:Hhit; cbn [fst snd].
  - split; [exact Hcache |]. intros ts' [= <-]. apply Hcache, Hhit.
  - destruct (eth_get_block w3 blk) as [ts | e] eqn:Hnode; cbn [fst snd];
      [| split; [exact Hcache | discriminate]].
    split; [| intros ts' Hts; exact Hts].
    intros b ts'. destruct (decide (blk = b)) as [<- | Hne].
    + rewrite lookup_insert_eq. intros [= <-]. exact Hnode.
    + rewrite lookup_insert_ne by exact Hne.
      destruct (20000 <? Z.of_nat (size cache));
        [rewrite lookup_empty; discriminate | apply Hcache].
Qed.

(** The rows of a run, whichever loop produced them. *)
Lemma analysis_rows `{Externals} (inv : gmap Z Z -> Prop) (timed : Z -> Z -> Prop)
    (fuel : nat) (w3 : Web3) (clk : curve_analyzer.clock) (cache : gmap Z Z)
    (pool_addr : string) (meta : curve_analyzer.PoolMeta) (days : Z)
    (progress_cb : bool) :
  (forall cache blk, inv cache -> inv (curve_analyzer.get_block_ts w3 cache blk).2) ->
  (forall cache blk ts,
      inv cache -> (curve_analyzer.get_block_ts w3 cache blk).1 = Ok ts -> timed blk ts) ->
  inv cache ->
  let run := curve_analyzer.analyze_swaps_last_days fuel w3 clk cache pool_addr meta
               days progress_cb in
  inv (curve_analyzer.cache_after run)
  /\ forall rows,
      curve_analyzer.returned run = Returned rows ->
      Forall (row_timed_by (str_or (curve_analyzer.sym0 meta) "Token0")
                (str_or (curve_analyzer.sym1 meta) "Token1") timed) rows
      /\ sublist (map curve_analyzer.block rows)
           (map ev_blockNumber (yields (curve_analyzer.abi_trace run))
            ++ map lg_blockNumber (yields (curve_analyzer.raw_trace run))).
Proof.
  intros Hkept Htimed Hinv. cbv zeta.
  unfold curve_analyzer.analyze_swaps_last_days.
  destruct (curve_analyzer.block_at_timestamp w3 _ _) as [start_block | e];
    [| cbn; split; [exact Hinv | discriminate]].
  destruct (curve_analyzer.block_at_timestamp w3 _ _) as [end_block | e];
    [| cbn; split; [exact Hinv | discriminate]].
  cbv zeta.
  set (dec_by_index := ({[ 0 := curve_analyzer.dec0 meta; 1 := curve_analyzer.dec1 meta ]}
                         : gmap Z Z)).
  set (s0 := str_or (curve_analyzer.sym0 meta) "Token0").
  set (s1 := str_or (curve_analyzer.sym1 meta) "Token1").
  set (gen := curve_analyzer.fetch_event_logs_adaptive fuel _ _ _ _ _ _).
  set (gen2 := curve_analyzer.fetch_token_exchange_raw fuel _ _ _ _ _ _ _).
  destruct (abi_pass_rows w3 dec_by_index s0 s1 inv timed Hkept Htimed
              (curve_analyzer.clock_expired clk) gen.1 0%nat cache [] Hinv)
    as (Hinv1 & new & Hrows & Hnew & Hsub).
  destruct (curve_analyzer.abi_pass w3 dec_by_index _ _ gen.1 0 cache [])
    as [seen [[stopped rows1] cache1]].
  cbn [fst snd app] in *. subst rows1.
  destruct (if stopped then _ else _) as [[] | e |];
    [| | cbn; split; [exact Hinv1 | discriminate]].
  all: destruct new as [| row new].
  all: try (cbn [curve_analyzer.cache_after curve_analyzer.returned
                 curve_analyzer.abi_trace curve_analyzer.raw_trace];
            split; [exact Hinv1 |]; intros rows [= <-];
            split; [exact Hnew |]; cbn [yields omap list_omap map];
            rewrite app_nil_r; exact Hsub).
  all: destruct (raw_pass_rows w3 dec_by_index s0 s1 inv timed Hkept Htimed
                   gen2.1 cache1 [] Hinv1) as (Hinv2 & Hraw);
    destruct (curve_analyzer.raw_pass w3 dec_by_index _ gen2.1 cache1 [])
      as [seen2 [[rows2 | e2] cache2]]; cbn [fst snd] in *;
    try (cbn; split; [exact Hinv2 | discriminate]);
    destruct gen2.2 as [[] | e3 |];
    cbn [curve_analyzer.cache_after curve_analyzer.returned
         curve_analyzer.abi_trace curve_analyzer.raw_trace];
    (split; [exact Hinv2 |]); try discriminate;
    intros rows [= <-];
    destruct (Hraw rows2 eq_refl) as (new2 & -> & Hnew2 & Hsub2);
    (split; [exact Hnew2 |]); cbn [app];
    apply sublist_inserts_l, Hsub2.
Qed.

(** X19.  Every row [analyze_swaps_last_days] returns, from either
    path, carries the same values in its legacy columns as in the current
    ones ([deusd_flow] is [token0_flow], [frx_flow] is [token1_flow],
    [price_deusd_in_frx] is [price_token0_in_token1]), and its direction is
    ["A->B"] or ["B->A"] for the labels [A] and [B] of the two tokens, a
    missing symbol being labelled "Token0" or "Token1". *)
Theorem analysis_rows_well_formed `{Externals} (fuel : nat) (w3 : Web3)
    (clk : curve_analyzer.clock) (cache : gmap Z Z) (pool_addr : string)
    (meta : curve_analyzer.PoolMeta) (days : Z) (progress_cb : bool)
    (rows : list curve_analyzer.swap) :
  curve_analyzer.returned
    (curve_analyzer.analyze_swaps_last_days fuel w3 clk cache pool_addr meta days
       progress_cb) = Returned rows ->
  Forall (row_well_formed (str_or (curve_analyzer.sym0 meta) "Token0")
            (str_or (curve_analyzer.sym1 meta) "Token1")) rows.
Proof.
  intros Hrun.
  destruct (analysis_rows (fun _ => True) (fun _ _ => True) fuel w3 clk cache pool_addr
              meta days progress_cb) as (_ & Hrows); auto.
  destruct (Hrows rows Hrun) as (Hgood & _).
  eapply Forall_impl; [exact Hgood |]. intros row (Hwf & _). exact Hwf.
Qed.

Lemma analysis_rows_well_formed_witness :
  exists rows,
    curve_analyzer.returned
      (curve_analyzer.analyze_swaps_last_days (H := rational_externals) 400
         silent_filter_node example_clock ∅
         "0x4eeb03b2b8f55159f47b3548faafe3efaff43eb9" example_meta 1 false)
    = Returned rows
    /\ rows <> []
    /\ Forall (row_well_formed (H := rational_externals) "deUSD" "frxUSD") rows.
Proof.
  eexists. split; [vm_compute; reflexivity |]. split; [discriminate |].
  apply (analysis_rows_well_formed (H := rational_externals) 400 silent_filter_node
           example_clock ∅ "0x4eeb03b2b8f55159f47b3548faafe3efaff43eb9" example_meta
           1 false).
  vm_compute. reflexivity.
Defined.



(** X21.  Started with a cache that holds only the node's timestamps,
    the analysis ends with such a cache, and every row it returns is
    dated with the node's timestamp for the row's block, whether the
    timestamp came from the node or from the cache. *)
Theorem analysis_rows_timed `{Externals} (fuel : nat) (w3 : Web3)
    (clk : curve_analyzer.clock) (cache : gmap Z Z) (pool_addr : string)
    (meta : curve_analyzer.PoolMeta) (days : Z) (progress_cb : bool) :
  cache_coherent w3 cache ->
  let run := curve_analyzer.analyze_swaps_last_days fuel w3 clk cache pool_addr meta
               days progress_cb in
  cache_coherent w3 (curve_analyzer.cache_after run)
  /\ forall rows, curve_analyzer.returned run = Returned rows ->
                  Forall (row_timed w3) rows.
Proof.
  intros Hcache run.
  destruct (analysis_rows (cache_coherent w3) (fun b ts => eth_get_block w3 b = Ok ts)
              fuel w3 clk cache pool_addr meta days progress_cb) as (Hafter & Hrows).
  - intros c b Hc. apply get_block_ts_coherent, Hc.
  - intros c b ts Hc. apply get_block_ts_coherent, Hc.
  - exact Hcache.
  - split; [exact Hafter |]. intros rows Hrun.
    destruct (Hrows rows Hrun) as (Hgood & _).
    eapply Forall_impl; [exact Hgood |]. intros row (_ & Htimed). exact Htimed.
Qed.

Lemma analysis_rows_timed_witness :
  let run := curve_analyzer.analyze_swaps_last_days (H := rational_externals) 400
               silent_filter_node example_clock ∅
               "0x4eeb03b2b8f55159f47b3548faafe3efaff43eb9" example_meta 1 false in
  cache_coherent silent_filter_node (curve_analyzer.cache_after run)
  /\ forall rows, curve_analyzer.returned run = Returned rows ->
                  Forall (row_timed (H := rational_externals) silent_filter_node) rows.
Proof.
  apply (analysis_rows_timed (H := rational_externals) 400 silent_filter_node
           example_clock ∅ "0x4eeb03b2b8f55159f47b3548faafe3efaff43eb9" example_meta
           1 false).
  intros b ts. rewrite lookup_empty. discriminate.
Defined.

(** * Pool balances *)

Section balances.
Context `{FloatSum}.
Variable balances : Z -> Z -> result Z.
Variables dec0 dec1 : Z.

Lemma balances_loop_rows (blocks : list Z) :
  forall out calls rows,
    curve_analyzer.balances_loop balances dec0 dec1 blocks out = (calls, Ok rows) ->
    exists new,
      rows = out ++ new
      /\ map curve_analyzer.bal_block new = blocks
      /\ calls = flat_map (fun b => [(0, b); (1, b)]) blocks
      /\ Forall (balance_row_of balances dec0 dec1) new.
Proof.
  induction blocks as [| b blocks IH]; intros out calls rows.
  - cbn. intros [= <- <-]. exists []. rewrite app_nil_r. repeat split. constructor.
  - cbn [curve_analyzer.balances_loop].
    destruct (balances 0 b) as [raw0 |] eqn:Hb0; [| discriminate].
    destruct (balances 1 b) as [raw1 |] eqn:Hb1; [| discriminate].
    cbn zeta. unfold after.
    destruct (curve_analyzer.balances_loop balances dec0 dec1 blocks _)
      as [calls' [rows' |]] eqn:Hrest; cbn [fst snd]; [| discriminate].
    intros [= <- <-].
    destruct (IH _ _ _ Hrest) as (new & -> & Hblocks & -> & Hnew).
    eexists (_ :: new). split; [rewrite <- app_assoc; reflexivity |].
    split; [cbn; rewrite Hblocks; reflexivity |]. split; [reflexivity |].
    constructor; [| exact Hnew]. exists raw0, raw1. cbn. auto.
Qed.

Lemma balances_loop_raises (blocks : list Z) :
  forall out calls e,
    curve_analyzer.balances_loop balances dec0 dec1 blocks out = (calls, Raise e) ->
    exists i b, (i = 0 \/ i = 1) /\ b ∈ blocks /\ balances i b = Raise e
                /\ last calls = Some (i, b).
Proof.
  induction blocks as [| b blocks IH]; intros out calls e; [discriminate |].
  cbn [curve_analyzer.balances_loop].
  destruct (balances 0 b) as [raw0 | e0] eqn:Hb0.
  - destruct (balances 1 b) as [raw1 | e1] eqn:Hb1.
    + cbn zeta. unfold after.
      destruct (curve_analyzer.balances_loop balances dec0 dec1 blocks _)
        as [calls' [rows' | e']] eqn:Hrest; cbn [fst snd]; [discriminate |].
      intros [= <- <-].
      destruct (IH _ _ _ Hrest) as (i & b' & Hi & Hin & Hraise & Hlast).
      exists i, b'. split; [exact Hi |]. split; [right; exact Hin |].
      split; [exact Hraise |].
      rewrite !last_cons, Hlast. reflexivity.
    + intros [= <- <-]. exists 1, b. repeat split; auto. left.
  - intros [= <- <-]. exists 0, b. repeat split; auto. left.
Qed.
End balances.

(** X22.  When [fetch_balances_for_blocks] returns, it returns one row
    per requested block, in the order requested, after asking the node
    for [balances(0)] and then [balances(1)] at each block in turn; each
    row holds the two balances scaled by the token decimals, and their
    ratio exactly when the total is positive. *)
Theorem fetch_balances_for_blocks_rows `{FloatSum} (balances : Z -> Z -> result Z)
    (meta : curve_analyzer.PoolMeta) (blocks : list Z)
    (calls : list (Z * Z)) (rows : list curve_analyzer.balance_row) :
  curve_analyzer.fetch_balances_for_blocks balances meta blocks = (calls, Ok rows) ->
  map curve_analyzer.bal_block rows = blocks
  /\ calls = flat_map (fun b => [(0, b); (1, b)]) blocks
  /\ Forall (balance_row_of balances (curve_analyzer.dec0 meta)
               (curve_analyzer.dec1 meta)) rows.
Proof.
  unfold curve_analyzer.fetch_balances_for_blocks. intros Hrun.
  destruct (balances_loop_rows _ _ _ _ _ _ _ Hrun) as (new & -> & Hblocks & -> & Hnew).
  auto.
Qed.

Lemma fetch_balances_for_blocks_rows_witness :
  exists calls rows,
    curve_analyzer.fetch_balances_for_blocks (H0 := rational_sums)
      steady_balances example_meta [100; 500; 900] = (calls, Ok rows)
    /\ map curve_analyzer.bal_block rows = [100; 500; 900]
    /\ calls = flat_map (fun b => [(0, b); (1, b)]) [100; 500; 900]
    /\ Forall (balance_row_of (H0 := rational_sums) steady_balances 6 6) rows.
Proof.
  eexists _, _. split; [vm_compute; reflexivity |].
  apply (fetch_balances_for_blocks_rows (H0 := rational_sums) steady_balances
           example_meta [100; 500; 900]).
  vm_compute. reflexivity.
Defined.

(** X23.  When [fetch_balances_for_blocks] raises, the error is the
    node's answer to the last balance call it made, that call is for one
    of the requested blocks, and no row is returned: the rows of the
    blocks read before the failure are lost with it. *)
Theorem fetch_balances_for_blocks_raises `{FloatSum} (balances : Z -> Z -> result Z)
    (meta : curve_analyzer.PoolMeta) (blocks : list Z)
    (calls : list (Z * Z)) (e : exn) :
  curve_analyzer.fetch_balances_for_blocks balances meta blocks = (calls, Raise e) ->
  exists i b, (i = 0 \/ i = 1) /\ b ∈ blocks /\ balances i b = Raise e
              /\ last calls = Some (i, b).
Proof.
  unfold curve_analyzer.fetch_balances_for_blocks. intros Hrun.
  apply (balances_loop_raises _ _ _ _ _ _ _ Hrun).
Qed.

Lemma fetch_balances_for_blocks_raises_witness :
  exists calls e,
    curve_analyzer.fetch_balances_for_blocks (H0 := rational_sums)
      steady_balances example_meta [100; 2000; 900] = (calls, Raise e)
    /\ exists i b, (i = 0 \/ i = 1) /\ b ∈ [100; 2000; 900]
                   /\ steady_balances i b = Raise e /\ last calls = Some (i, b).
Proof.
  eexists _, _. split; [vm_compute; reflexivity |].
  apply (fetch_balances_for_blocks_raises (H0 := rational_sums) steady_balances
           example_meta [100; 2000; 900]).
  vm_compute. reflexivity.
Defined.

(** * The loops of the script *)

Section loops.
Context {E S : Type}.
Variable body : S -> E -> result S.

Lemma for_each_raises (tr : list (fetch_event (Z * Z) E)) :
  forall s e s',
    analysis_curve_pool.for_each body tr s = (Raise e, s') ->
    exists s0 ev, ev ∈ yields tr /\ body s0 ev = Raise e.
Proof.
  induction tr as [| x tr IH]; intros s e s'; [discriminate |].
  destruct x as [q | ev | p | v | v]; cbn [analysis_curve_pool.for_each];
    try (intros Hrun; destruct (IH _ _ _ Hrun) as (s0 & ev0 & Hin & Hb);
         exists s0, ev0; split; [exact Hin | exact Hb]).
  destruct (body s ev) as [s1 | e1] eqn:Hone.
  - intros Hrun. destruct (IH _ _ _ Hrun) as (s0 & ev0 & Hin & Hb).
    exists s0, ev0. split; [cbn; right; exact Hin | exact Hb].
  - intros [= <- <-]. exists s, ev. split; [cbn; left | exact Hone].
Qed.

Lemma run_loop_returned {T} (fuel : nat) (event : nat -> Z * Z -> result (list E))
    (start_block end_block : Z) (s : S) (k : S -> outcome T) (r : T) :
  analysis_curve_pool.run_loop fuel event body start_block end_block s k = Returned r ->
  exists s',
    analysis_curve_pool.for_each body
      (analysis_curve_pool.fetch_event_logs fuel event start_block end_block 1000).1 s
    = (Ok tt, s')
    /\ k s' = Returned r.
Proof.
  unfold analysis_curve_pool.run_loop. cbv zeta.
  destruct (analysis_curve_pool.for_each body _ s) as [[[] | e] s']; [| discriminate].
  destruct (analysis_curve_pool.fetch_event_logs fuel event start_block end_block 1000).2;
    try discriminate.
  intros Hk. exists s'. split; [reflexivity | exact Hk].
Qed.

Lemma run_loop_raised {T} (fuel : nat) (event : nat -> Z * Z -> result (list E))
    (start_block end_block : Z) (s : S) (k : S -> outcome T) (e : exn) :
  analysis_curve_pool.run_loop fuel event body start_block end_block s k = Raised e ->
  let gen := analysis_curve_pool.fetch_event_logs fuel event start_block end_block 1000 in
  (exists s0 ev, ev ∈ yields gen.1 /\ body s0 ev = Raise e)
  \/ (exists m r, event m r = Raise e)
  \/ (exists s', analysis_curve_pool.for_each body gen.1 s = (Ok tt, s')
                 /\ k s' = Raised e).
Proof.
  unfold analysis_curve_pool.run_loop. cbv zeta.
  destruct (analysis_curve_pool.for_each body _ s) as [[[] | e'] s'] eqn:Hbody.
  - destruct (analysis_curve_pool.fetch_event_logs fuel event start_block end_block 1000).2
      as [[] | e' |] eqn:Hgen; try discriminate.
    + intros Hk. right. right. exists s'. split; [reflexivity | exact Hk].
    + intros [= <-]. right. left.
      unfold analysis_curve_pool.fetch_event_logs in Hgen.
      apply fetch_event_logs_loop_raises in Hgen as (_ & m & r & Hm & _).
      exists m, r. exact Hm.
  - intros [= <-]. left. apply (for_each_raises _ _ _ _ Hbody).
Qed.
End loops.

Section list_loops.
Context {E R : Type}.
Variable body : list R -> E -> result (list R).
Variable P : R -> E -> Prop.

Lemma for_each_extends :
  (forall s ev s', body s ev = Ok s' ->
                   exists new, s' = s ++ new /\ Forall (fun row => P row ev) new) ->
  forall (tr : list (fetch_event (Z * Z) E)) s r s',
    analysis_curve_pool.for_each body tr s = (r, s') ->
    exists new,
      s' = s ++ new
      /\ Forall (fun row => exists ev, ev ∈ yields tr /\ P row ev) new.
Proof.
  intros Hbody. induction tr as [| x tr IH]; intros s r s'.
  - cbn. intros [= <- <-]. exists []. rewrite app_nil_r. split; [reflexivity | constructor].
  - destruct x as [q | ev | p | v | v]; cbn [analysis_curve_pool.for_each];
      try (intros Hrun; destruct (IH _ _ _ Hrun) as (new & -> & Hnew);
           exists new; split; [reflexivity | exact Hnew]).
    destruct (body s ev) as [s1 | e] eqn:Hone.
    + intros Hrun. destruct (IH _ _ _ Hrun) as (new & -> & Hnew).
      destruct (Hbody _ _ _ Hone) as (first & -> & Hfirst).
      exists (first ++ new). split; [rewrite app_assoc; reflexivity |].
      apply Forall_app. split.
      * eapply Forall_impl; [exact Hfirst |]. intros row Hrow.
        exists ev. split; [cbn; left | exact Hrow].
      * eapply Forall_impl; [exact Hnew |]. intros row (ev0 & Hin & Hrow).
        exists ev0. split; [cbn; right; exact Hin | exact Hrow].
    + intros [= <- <-]. exists []. rewrite app_nil_r. split; [reflexivity | constructor].
Qed.

Lemma for_each_rows :
  (forall s ev s', body s ev = Ok s' -> exists row, s' = s ++ [row] /\ P row ev) ->
  forall (tr : list (fetch_event (Z * Z) E)) s s',
    analysis_curve_pool.for_each body tr s = (Ok tt, s') ->
    exists new, s' = s ++ new /\ Forall2 P new (yields tr).
Proof.
  intros Hbody. induction tr as [| x tr IH]; intros s s'.
  - cbn. intros [= <-]. exists []. rewrite app_nil_r. split; [reflexivity | constructor].
  - destruct x as [q | ev | p | v | v]; cbn [analysis_curve_pool.for_each];
      try (intros Hrun; destruct (IH _ _ Hrun) as (new & -> & Hnew);
           exists new; split; [reflexivity | exact Hnew]).
    destruct (body s ev) as [s1 | e] eqn:Hone; [| discriminate].
    intros Hrun. destruct (IH _ _ Hrun) as (new & -> & Hnew).
    destruct (Hbody _ _ _ Hone) as (row & -> & Hrow).
    exists (row :: new). split; [rewrite <- app_assoc; reflexivity |].
    cbn. constructor; [exact Hrow | exact Hnew].
Qed.
End list_loops.

(** * The swap stage of the script *)

Section swap_stage_facts.
Context `{Externals}.
Variable w3 : Web3.
Variable decs : gmap Z Z.
Variables deusd_index frx_index : Z.

Lemma handle_swap_appends (swaps : list analysis_curve_pool.swap_row)
    (log : event_log) (swaps' : list analysis_curve_pool.swap_row) :
  analysis_curve_pool.handle_swap w3 decs deusd_index frx_index swaps log = Ok swaps' ->
  exists new,
    swaps' = swaps ++ new
    /\ Forall (fun row => row_of_entry w3 deusd_index frx_index row log) new.
Proof.
  unfold analysis_curve_pool.handle_swap, result_bind.
  destruct (eth_get_block w3 (ev_blockNumber log)) as [ts |] eqn:Hts; [| discriminate].
  destruct (decs !! args_sold_id log) as [dec_sold |]; [| discriminate].
  destruct (decs !! args_bought_id log) as [dec_bought |]; [| discriminate].
  cbv zeta.
  destruct ((args_sold_id log =? deusd_index) && (args_bought_id log =? frx_index))
    eqn:Hfwd.
  - apply andb_true_iff in Hfwd as [Hs Hb]. apply Z.eqb_eq in Hs, Hb.
    intros [= <-]. eexists. split; [reflexivity |].
    constructor; [| constructor]. unfold row_of_entry. cbn. auto 10.
  - destruct ((args_sold_id log =? frx_index) && (args_bought_id log =? deusd_index))
      eqn:Hback.
    + apply andb_true_iff in Hback as [Hs Hb]. apply Z.eqb_eq in Hs, Hb.
      intros [= <-]. eexists. split; [reflexivity |].
      constructor; [| constructor]. unfold row_of_entry. cbn. auto 10.
    + intros [= <-]. exists []. rewrite app_nil_r. split; [reflexivity | constructor].
Qed.

Lemma handle_swap_raises (swaps : list analysis_curve_pool.swap_row) (log : event_log)
    (e : exn) :
  analysis_curve_pool.handle_swap w3 decs deusd_index frx_index swaps log = Raise e ->
  swap_error w3 decs log e.
Proof.
  unfold analysis_curve_pool.handle_swap, result_bind, swap_error.
  destruct (eth_get_block w3 (ev_blockNumber log)) as [ts | e0];
    [| intros [= <-]; left; reflexivity].
  destruct (decs !! args_sold_id log) as [dec_sold |];
    [| intros [= <-]; right; left; split; reflexivity].
  destruct (decs !! args_bought_id log) as [dec_bought |];
    [| intros [= <-]; right; right; split; reflexivity].
  cbv zeta.
  repeat match goal with |- context [if ?c then _ else _] => destruct c end;
    discriminate.
Qed.
End swap_stage_facts.

(** X24.  When the swap stage of the script completes, the rows taken
    from the [TokenExchange] entries are all in the result, in order, at
    its front, whatever happened while the [TokenExchangeUnderlying]
    entries were read: an error there ends the second loop and keeps what
    was collected.  Every row of the result records one fetched entry of
    either event, with that entry's block, the node's timestamp of the
    block, and the direction that its coin indices select. *)
Theorem swap_stage_keeps_exchange_rows `{Externals} (fuel : nat) (w3 : Web3)
    (decs : gmap Z Z) (deusd_index frx_index : Z)
    (exchange underlying : nat -> Z * Z -> result (list event_log))
    (start_block end_block : Z) (rows : list analysis_curve_pool.swap_row) :
  analysis_curve_pool.collect_swaps fuel w3 decs deusd_index frx_index
    exchange underlying start_block end_block = Returned rows ->
  let gen := analysis_curve_pool.fetch_event_logs fuel exchange start_block end_block 1000 in
  let gen2 := analysis_curve_pool.fetch_event_logs fuel underlying start_block end_block 1000 in
  exists rows1 rows2,
    analysis_curve_pool.for_each
      (analysis_curve_pool.handle_swap w3 decs deusd_index frx_index) gen.1 []
    = (Ok tt, rows1)
    /\ rows = rows1 ++ rows2
    /\ Forall (fun row => exists log,
                 log ∈ yields gen.1 /\ row_of_entry w3 deusd_index frx_index row log) rows1
    /\ Forall (fun row => exists log,
                 log ∈ yields gen2.1 /\ row_of_entry w3 deusd_index frx_index row log) rows2.
Proof.
  unfold analysis_curve_pool.collect_swaps. intros Hrun. cbv zeta.
  apply run_loop_returned in Hrun as (rows1 & Hfirst & Hrest).
  destruct (for_each_extends _ _ (handle_swap_appends w3 decs deusd_index frx_index)
              _ _ _ _ Hfirst) as (new1 & Hrows1 & Hnew1).
  cbn [app] in Hrows1. subst new1. cbv zeta in Hrest.
  destruct (analysis_curve_pool.for_each _
              (analysis_curve_pool.fetch_event_logs fuel underlying start_block end_block 1000).1
              rows1)
    as [r2 rows'] eqn:Hsecond.
  destruct (for_each_extends _ _ (handle_swap_appends w3 decs deusd_index frx_index)
              _ _ _ _ Hsecond) as (new2 & -> & Hnew2).
  assert (rows = rows1 ++ new2) as ->.
  { destruct r2 as [[] | e2]; [| congruence].
    destruct (analysis_curve_pool.fetch_event_logs fuel underlying start_block end_block 1000).2;
      congruence. }
  exists rows1, new2. auto.
Qed.

Lemma swap_stage_keeps_exchange_rows_witness :
  exists rows,
    analysis_curve_pool.collect_swaps (H := rational_externals) 50 quiet_node
      two_coin_decs 0 1 one_swap_events failing_events 0 2999 = Returned rows
    /\ List.length rows = 2%nat
    /\ let gen := analysis_curve_pool.fetch_event_logs 50 one_swap_events 0 2999 1000 in
       let gen2 := analysis_curve_pool.fetch_event_logs 50 failing_events 0 2999 1000 in
       exists rows1 rows2,
         analysis_curve_pool.for_each
           (analysis_curve_pool.handle_swap (H := rational_externals) quiet_node
              two_coin_decs 0 1) gen.1 [] = (Ok tt, rows1)
         /\ rows = rows1 ++ rows2
         /\ Forall (fun row => exists log,
                      log ∈ yields gen.1
                      /\ row_of_entry (H := rational_externals) quiet_node 0 1 row log) rows1
         /\ Forall (fun row => exists log,
                      log ∈ yields gen2.1
                      /\ row_of_entry (H := rational_externals) quiet_node 0 1 row log) rows2.
Proof.
  eexists. split; [vm_compute; reflexivity |].
  split; [reflexivity |].
  apply (swap_stage_keeps_exchange_rows (H := rational_externals) 50 quiet_node
           two_coin_decs 0 1 one_swap_events failing_events 0 2999).
  vm_compute. reflexivity.
Defined.

(** X25.  The swap stage raises only on behalf of [TokenExchange]: when
    it raises [e], either the node answered a [TokenExchange] query with
    [e], or [handle_swap] raised [e] on a fetched [TokenExchange] entry,
    which is the node's answer for the entry's block or the [KeyError] of
    a coin index that [decs] does not hold.  No error met while reading
    [TokenExchangeUnderlying] is raised. *)
Theorem swap_stage_raises `{Externals} (fuel : nat) (w3 : Web3)
    (decs : gmap Z Z) (deusd_index frx_index : Z)
    (exchange underlying : nat -> Z * Z -> result (list event_log))
    (start_block end_block : Z) (e : exn) :
  analysis_curve_pool.collect_swaps fuel w3 decs deusd_index frx_index
    exchange underlying start_block end_block = Raised e ->
  (exists m r, exchange m r = Raise e)
  \/ (exists log,
        log ∈ yields (analysis_curve_pool.fetch_event_logs fuel exchange
                        start_block end_block 1000).1
        /\ swap_error w3 decs log e).
Proof.
  unfold analysis_curve_pool.collect_swaps. intros Hrun.
  apply run_loop_raised in Hrun as [(s0 & log & Hin & Hbody) | [Hnode | (s' & _ & Hrest)]].
  - right. exists log. split; [exact Hin |]. apply (handle_swap_raises _ _ _ _ _ _ _ Hbody).
  - left. exact Hnode.
  - exfalso. cbv zeta in Hrest.
    destruct (analysis_curve_pool.for_each _ _ s') as [[[] | e2] rows']; [| discriminate].
    destruct (analysis_curve_pool.fetch_event_logs fuel underlying start_block end_block 1000).2;
      discriminate.
Qed.

Lemma swap_stage_raises_witness :
  let third_coin : nat -> Z * Z -> result (list event_log) :=
    fun _ _ => Ok [EventLog 2 1000000 0 999000 500 []] in
  exists e,
    analysis_curve_pool.collect_swaps (H := rational_externals) 50 quiet_node
      two_coin_decs 0 1 third_coin failing_events 0 999 = Raised e
    /\ e = KeyError 2
    /\ ((exists m r, third_coin m r = Raise e)
        \/ (exists log,
              log ∈ yields (analysis_curve_pool.fetch_event_logs 50 third_coin 0 999 1000).1
              /\ swap_error quiet_node two_coin_decs log e)).
Proof.
  cbv zeta. eexists. split; [vm_compute; reflexivity |].
  split; [reflexivity |].
  apply (swap_stage_raises (H := rational_externals) 50 quiet_node two_coin_decs 0 1
           (fun _ _ => Ok [EventLog 2 1000000 0 999000 500 []]) failing_events 0 999).
  vm_compute. reflexivity.
Defined.

(** * The liquidity stage of the script *)

Section liquidity_facts.
Context `{Externals}.
Variable w3 : Web3.
Variables dec0 dec1 deusd_index : Z.

Local Abbreviation decs := ({[ 0 := dec0; 1 := dec1 ]} : gmap Z Z).

Lemma handle_liquidity_row (rows : list analysis_curve_pool.liquidity_row)
    (ev : analysis_curve_pool.liquidity_event)
    (rows' : list analysis_curve_pool.liquidity_row) :
  analysis_curve_pool.handle_liquidity w3 dec0 dec1 deusd_index rows ev = Ok rows' ->
  exists row, rows' = rows ++ [row] /\ row_of_liquidity w3 dec0 dec1 deusd_index row ev.
Proof.
  unfold analysis_curve_pool.handle_liquidity, result_bind. cbv zeta.
  destruct (eth_get_block w3 _) as [ts |] eqn:Hts; [| discriminate].
  intros [= <-]. eexists. split; [reflexivity |].
  unfold row_of_liquidity. cbn.
  split; [exact Hts |]. split; [reflexivity |].
  destruct (deusd_index =? 0); reflexivity.
Qed.

Lemma handle_liquidity_raises (rows : list analysis_curve_pool.liquidity_row)
    (ev : analysis_curve_pool.liquidity_event) (e : exn) :
  analysis_curve_pool.handle_liquidity w3 dec0 dec1 deusd_index rows ev = Raise e ->
  eth_get_block w3 (analysis_curve_pool.liq_blockNumber ev) = Raise e.
Proof.
  unfold analysis_curve_pool.handle_liquidity, result_bind. cbv zeta.
  destruct (eth_get_block w3 _) as [ts | e0]; [discriminate |].
  intros [= <-]. reflexivity.
Qed.

Lemma handle_remove_one_row (rows : list analysis_curve_pool.liquidity_row)
    (ev : analysis_curve_pool.remove_one_event)
    (rows' : list analysis_curve_pool.liquidity_row) :
  analysis_curve_pool.handle_remove_one w3 decs deusd_index rows ev = Ok rows' ->
  exists row, rows' = rows ++ [row] /\ row_of_remove_one w3 dec0 dec1 deusd_index row ev.
Proof.
  unfold analysis_curve_pool.handle_remove_one, result_bind. cbv zeta.
  destruct (eth_get_block w3 _) as [ts |] eqn:Hts; [| discriminate].
  rewrite dec_by_index_lookup.
  destruct (Z.eqb_spec (analysis_curve_pool.args_coin_index ev) 0) as [H0 | H0].
  - intros [= <-]. eexists. split; [reflexivity |].
    unfold row_of_remove_one. cbn.
    split; [exact Hts |]. split; [reflexivity |].
    exists dec0. split; [left; split; [exact H0 | reflexivity] |].
    destruct (_ =? deusd_index); reflexivity.
  - destruct (Z.eqb_spec (analysis_curve_pool.args_coin_index ev) 1) as [H1 | H1];
      [| discriminate].
    intros [= <-]. eexists. split; [reflexivity |].
    unfold row_of_remove_one. cbn.
    split; [exact Hts |]. split; [reflexivity |].
    exists dec1. split; [right; split; [exact H1 | reflexivity] |].
    destruct (_ =? deusd_index); reflexivity.
Qed.

Lemma handle_remove_one_raises (rows : list analysis_curve_pool.liquidity_row)
    (ev : analysis_curve_pool.remove_one_event) (e : exn) :
  analysis_curve_pool.handle_remove_one w3 decs deusd_index rows ev = Raise e ->
  remove_one_error w3 ev e.
Proof.
  unfold analysis_curve_pool.handle_remove_one, result_bind, remove_one_error. cbv zeta.
  destruct (eth_get_block w3 _) as [ts | e0]; [| intros [= <-]; left; reflexivity].
  rewrite dec_by_index_lookup.
  destruct (Z.eqb_spec (analysis_curve_pool.args_coin_index ev) 0) as [H0 | H0];
    [discriminate |].
  destruct (Z.eqb_spec (analysis_curve_pool.args_coin_index ev) 1) as [H1 | H1];
    [discriminate |].
  intros [= <-]. right. auto.
Qed.
End liquidity_facts.

(** X26.  When the liquidity stage of the script completes, [adds] has
    one row for each fetched [AddLiquidity] entry, in the order fetched,
    and [removes] has one row for each fetched [RemoveLiquidity] entry
    followed by one row for each fetched [RemoveLiquidityOne] entry; no
    entry is passed over.  Each row carries the node's timestamp of the
    entry's block and the entry's amounts, scaled, on the sides that
    [deusd_index] selects; a single-coin removal has [0.0] on the other
    side. *)
Theorem liquidity_stage_rows `{Externals} (fuel : nat) (w3 : Web3)
    (dec0 dec1 deusd_index : Z)
    (add_evt rem_evt : nat -> Z * Z -> result (list analysis_curve_pool.liquidity_event))
    (rem_one_evt : nat -> Z * Z -> result (list analysis_curve_pool.remove_one_event))
    (start_block end_block : Z)
    (adds removes : list analysis_curve_pool.liquidity_row) :
  analysis_curve_pool.collect_liquidity fuel w3 dec0 dec1 deusd_index
    add_evt rem_evt rem_one_evt start_block end_block = Returned (adds, removes) ->
  let fetched {E} (event : nat -> Z * Z -> result (list E)) :=
    yields (analysis_curve_pool.fetch_event_logs fuel event start_block end_block 1000).1 in
  Forall2 (row_of_liquidity w3 dec0 dec1 deusd_index) adds (fetched add_evt)
  /\ exists both single,
       removes = both ++ single
       /\ Forall2 (row_of_liquidity w3 dec0 dec1 deusd_index) both (fetched rem_evt)
       /\ Forall2 (row_of_remove_one w3 dec0 dec1 deusd_index) single (fetched rem_one_evt).
Proof.
  unfold analysis_curve_pool.collect_liquidity. cbv zeta. intros Hrun.
  apply run_loop_returned in Hrun as (adds' & Hadds & Hrun).
  apply run_loop_returned in Hrun as (both & Hboth & Hrun).
  apply run_loop_returned in Hrun as (removes' & Hsingle & [= -> ->]).
  destruct (for_each_rows _ _ (handle_liquidity_row w3 dec0 dec1 deusd_index)
              _ _ _ Hadds) as (new & -> & Hnew).
  destruct (for_each_rows _ _ (handle_liquidity_row w3 dec0 dec1 deusd_index)
              _ _ _ Hboth) as (new' & -> & Hnew').
  destruct (for_each_rows _ _ (handle_remove_one_row w3 dec0 dec1 deusd_index)
              _ _ _ Hsingle) as (single & -> & Hone).
  split; [exact Hnew |]. exists new', single. auto.
Qed.

Lemma liquidity_stage_rows_witness :
  exists adds removes,
    analysis_curve_pool.collect_liquidity (H := rational_externals) 50 quiet_node 6 6 1
      (one_liquidity_event 100) (one_liquidity_event 1200) (one_coin_removal 1 2500)
      0 2999 = Returned (adds, removes)
    /\ List.length adds = 1%nat /\ List.length removes = 2%nat
    /\ let fetched {E} (event : nat -> Z * Z -> result (list E)) :=
         yields (analysis_curve_pool.fetch_event_logs 50 event 0 2999 1000).1 in
       Forall2 (row_of_liquidity (H := rational_externals) quiet_node 6 6 1) adds
         (fetched (one_liquidity_event 100))
       /\ exists both single,
            removes = both ++ single
            /\ Forall2 (row_of_liquidity (H := rational_externals) quiet_node 6 6 1) both
                 (fetched (one_liquidity_event 1200))
            /\ Forall2 (row_of_remove_one (H := rational_externals) quiet_node 6 6 1) single
                 (fetched (one_coin_removal 1 2500)).
Proof.
  eexists _, _. split; [vm_compute; reflexivity |].
  split; [reflexivity |]. split; [reflexivity |].
  apply (liquidity_stage_rows (H := rational_externals) 50 quiet_node 6 6 1
           (one_liquidity_event 100) (one_liquidity_event 1200) (one_coin_removal 1 2500)
           0 2999).
  vm_compute. reflexivity.
Defined.

(** X27.  The liquidity stage has no [try]: it raises what a node call
    raised (a query for one of the three events, or the block lookup of a
    fetched entry), and otherwise only the [KeyError] of a fetched
    [RemoveLiquidityOne] entry whose [coin_index] is neither 0 nor 1. *)
Theorem liquidity_stage_raises `{Externals} (fuel : nat) (w3 : Web3)
    (dec0 dec1 deusd_index : Z)
    (add_evt rem_evt : nat -> Z * Z -> result (list analysis_curve_pool.liquidity_event))
    (rem_one_evt : nat -> Z * Z -> result (list analysis_curve_pool.remove_one_event))
    (start_block end_block : Z) (e : exn) :
  analysis_curve_pool.collect_liquidity fuel w3 dec0 dec1 deusd_index
    add_evt rem_evt rem_one_evt start_block end_block = Raised e ->
  let fetched {E} (event : nat -> Z * Z -> result (list E)) :=
    yields (analysis_curve_pool.fetch_event_logs fuel event start_block end_block 1000).1 in
  (exists m r, add_evt m r = Raise e \/ rem_evt m r = Raise e \/ rem_one_evt m r = Raise e)
  \/ (exists ev, ev ∈ fetched add_evt ++ fetched rem_evt
                 /\ eth_get_block w3 (analysis_curve_pool.liq_blockNumber ev) = Raise e)
  \/ (exists ev, ev ∈ fetched rem_one_evt /\ remove_one_error w3 ev e).
Proof.
  unfold analysis_curve_pool.collect_liquidity. cbv zeta. intros Hrun.
  apply run_loop_raised in Hrun
    as [(s0 & ev & Hin & Hbody) | [(m & r & Hnode) | (adds & _ & Hrun)]].
  { right. left. exists ev. split; [apply elem_of_app; left; exact Hin |].
    apply (handle_liquidity_raises _ _ _ _ _ _ _ Hbody). }
  { left. exists m, r. auto. }
  apply run_loop_raised in Hrun
    as [(s0 & ev & Hin & Hbody) | [(m & r & Hnode) | (both & _ & Hrun)]].
  { right. left. exists ev. split; [apply elem_of_app; right; exact Hin |].
    apply (handle_liquidity_raises _ _ _ _ _ _ _ Hbody). }
  { left. exists m, r. auto. }
  apply run_loop_raised in Hrun
    as [(s0 & ev & Hin & Hbody) | [(m & r & Hnode) | (removes & _ & Hrun)]].
  { right. right. exists ev. split; [exact Hin |].
    apply (handle_remove_one_raises _ _ _ _ _ _ _ Hbody). }
  { left. exists m, r. auto. }
  discriminate.
Qed.

Lemma liquidity_stage_raises_witness :
  exists e,
    analysis_curve_pool.collect_liquidity (H := rational_externals) 50 quiet_node 6 6 1
      (one_liquidity_event 100) (one_liquidity_event 1200) (one_coin_removal 2 2500)
      0 2999 = Raised e
    /\ e = KeyError 2
    /\ let fetched {E} (event : nat -> Z * Z -> result (list E)) :=
         yields (analysis_curve_pool.fetch_event_logs 50 event 0 2999 1000).1 in
       (exists m r, one_liquidity_event 100 m r = Raise e
                    \/ one_liquidity_event 1200 m r = Raise e
                    \/ one_coin_removal 2 2500 m r = Raise e)
       \/ (exists ev, ev ∈ fetched (one_liquidity_event 100)
                            ++ fetched (one_liquidity_event 1200)
                      /\ eth_get_block quiet_node (analysis_curve_pool.liq_blockNumber ev)
                         = Raise e)
       \/ (exists ev, ev ∈ fetched (one_coin_removal 2 2500)
                      /\ remove_one_error quiet_node ev e).
Proof.
  eexists. split; [vm_compute; reflexivity |].
  split; [reflexivity |].
  apply (liquidity_stage_raises (H := rational_externals) 50 quiet_node 6 6 1
           (one_liquidity_event 100) (one_liquidity_event 1200) (one_coin_removal 2 2500)
           0 2999).
  vm_compute. reflexivity.
Defined.

(** * [handle_swap] under the globals of the script *)

Lemma asset_indices_cases (s0 s1 : string) :
  asset_indices s0 s1 = (0, 1) \/ asset_indices s0 s1 = (1, 0).
Proof.
  unfold asset_indices. cbv zeta.
  repeat match goal with |- context [if ?c then _ else _] => destruct c end; auto.
Qed.

(** X28.  With the globals the script sets up, [decs = {0: dec0, 1: dec1}]
    and the two roles from the symbol heuristic, [handle_swap] on an
    entry whose block the node knows does one of three things: it appends
    exactly one row when the entry trades coin 0 for coin 1 or coin 1 for
    coin 0, whatever the symbols are; it appends nothing when the entry
    names the same coin twice; it raises [KeyError] when an index is
    neither 0 nor 1, [sold_id] being looked up first. *)
Theorem handle_swap_two_coin_pool `{Externals} (w3 : Web3) (dec0 dec1 : Z)
    (sym0 sym1 : string) (swaps : list analysis_curve_pool.swap_row)
    (log : event_log) (ts : Z) :
  eth_get_block w3 (ev_blockNumber log) = Ok ts ->
  let decs : gmap Z Z := {[ 0 := dec0; 1 := dec1 ]} in
  let roles := asset_indices sym0 sym1 in
  let sold_id := args_sold_id log in
  let bought_id := args_bought_id log in
  match analysis_curve_pool.handle_swap w3 decs roles.1 roles.2 swaps log with
  | Ok swaps' =>
      (sold_id = 0 \/ sold_id = 1) /\ (bought_id = 0 \/ bought_id = 1)
      /\ ((sold_id = bought_id /\ swaps' = swaps)
          \/ (sold_id <> bought_id
              /\ exists row, swaps' = swaps ++ [row]
                             /\ row_of_entry w3 roles.1 roles.2 row log))
  | Raise e =>
      (sold_id <> 0 /\ sold_id <> 1 /\ e = KeyError sold_id)
      \/ ((sold_id = 0 \/ sold_id = 1)
          /\ bought_id <> 0 /\ bought_id <> 1 /\ e = KeyError bought_id)
  end.
Proof.
  intros Hts. cbv zeta.
  unfold row_of_entry, analysis_curve_pool.handle_swap. rewrite Hts.
  destruct log as [sold_id sold bought_id bought blk tx]. cbn in Hts |- *.
  rewrite !dec_by_index_lookup.
  destruct (asset_indices_cases sym0 sym1) as [-> | ->]; cbn [fst snd];
    destruct (Z.eqb_spec sold_id 0) as [-> | Hs0];
    [| destruct (Z.eqb_spec sold_id 1) as [-> | Hs1]; [| left; auto]
     | | destruct (Z.eqb_spec sold_id 1) as [-> | Hs1]; [| left; auto]];
    (destruct (Z.eqb_spec bought_id 0) as [-> | Hb0];
     [| destruct (Z.eqb_spec bought_id 1) as [-> | Hb1]; [| right; auto 10]]);
    cbn;
    (split; [auto |]); (split; [auto |]);
    first [ left; split; reflexivity
          | right; split; [lia |]; eexists; split; [reflexivity |]; cbn; auto 10 ].
Qed.

Lemma handle_swap_two_coin_pool_witness :
  let log := EventLog 1 2000000 0 1999000 700 [] in
  eth_get_block quiet_node (ev_blockNumber log) = Ok 1600008400
  /\ match analysis_curve_pool.handle_swap (H := rational_externals) quiet_node
             {[ 0 := 6; 1 := 18 ]} (asset_indices "USDC" "crvUSD").1
             (asset_indices "USDC" "crvUSD").2 [] log with
     | Ok swaps' =>
         (args_sold_id log = 0 \/ args_sold_id log = 1)
         /\ (args_bought_id log = 0 \/ args_bought_id log = 1)
         /\ ((args_sold_id log = args_bought_id log /\ swaps' = [])
             \/ (args_sold_id log <> args_bought_id log
                 /\ exists row,
                      swaps' = [] ++ [row]
                      /\ row_of_entry (H := rational_externals) quiet_node
                           (asset_indices "USDC" "crvUSD").1
                           (asset_indices "USDC" "crvUSD").2 row log))
     | Raise e =>
         (args_sold_id log <> 0 /\ args_sold_id log <> 1
          /\ e = KeyError (args_sold_id log))
         \/ ((args_sold_id log = 0 \/ args_sold_id log = 1)
             /\ args_bought_id log <> 0 /\ args_bought_id log <> 1
             /\ e = KeyError (args_bought_id log))
     end.
Proof.
  cbv zeta. split; [reflexivity |].
  apply (handle_swap_two_coin_pool (H := rational_externals) quiet_node 6 18
           "USDC" "crvUSD" [] (EventLog 1 2000000 0 1999000 700 []) 1600008400).
  reflexivity.
Defined.

(** * The token metadata of the script *)

(** X29.  Reading the token metadata, the script raises exactly when
    [coins(0)] or [coins(1)] raises, with that error.  Otherwise it makes
    six calls, in a fixed order, and a failing [symbol()] or [decimals()]
    call is replaced by its fallback, ["T0"], ["T1"] or [18], without
    keeping the later calls from being made. *)
Theorem token_metadata_outcome (w3 : Web3) (pool : string) :
  let run := analysis_curve_pool.token_metadata w3 pool in
  match call_coins w3 pool 0, call_coins w3 pool 1 with
  | Raise e, _ => run = ([Rpc_coins pool 0], Raise e)
  | Ok _, Raise e => run = ([Rpc_coins pool 0; Rpc_coins pool 1], Raise e)
  | Ok coin0, Ok coin1 =>
      run = ([Rpc_coins pool 0; Rpc_coins pool 1; Rpc_symbol coin0; Rpc_symbol coin1;
              Rpc_decimals coin0; Rpc_decimals coin1],
             Ok (coin0, coin1,
                 answer_or (call_symbol w3 coin0) "T0",
                 answer_or (call_symbol w3 coin1) "T1",
                 answer_or (call_decimals w3 coin0) 18,
                 answer_or (call_decimals w3 coin1) 18))
  end.
Proof.
  cbv zeta.
  unfold analysis_curve_pool.token_metadata, analysis_curve_pool.safe,
    io_bind, io_try, io_call, io_ret, after, answer_or.
  destruct (call_coins w3 pool 0) as [coin0 | e0]; [| reflexivity].
  destruct (call_coins w3 pool 1) as [coin1 | e1]; [| reflexivity].
  destruct (call_symbol w3 coin0), (call_symbol w3 coin1),
    (call_decimals w3 coin0), (call_decimals w3 coin1); reflexivity.
Qed.
